(** * Baserow snapshot pipeline: fetch_baserow_tables.py and process_for_web.py

    Shallow embedding of the two pipeline stages of the repository:
    - [baserow_api/scripts/baserow/fetch_baserow_tables.py] (the Fetcher),
    - [baserow_api/scripts/process_for_web.py] (the Denormalizer).

    Python values are modelled by [pyval] (what [json.load] produces and
    what the scripts build in memory), Python exceptions by [exn], and
    fallible code by the error monad [res]. Strings are UTF-8 byte strings;
    byte-wise lexicographic order on UTF-8 coincides with Python's code
    point order on [str]. *)

From Stdlib Require Import String Ascii List ZArith Bool Lia.
From Stdlib Require Import Sorting.Permutation Sorting.Sorted.
Import ListNotations.
Local Open Scope string_scope.
Local Open Scope list_scope.
Local Open Scope Z_scope.
Set Warnings "-register-all".

(** ** Python values *)

Inductive pyval : Type :=
| PNone
| PBool (b : bool)
| PInt (z : Z)
| PStr (s : string)
| PList (l : list pyval)
| PDict (kv : list (pyval * pyval)).

(** Python exceptions that the two scripts can raise. [SystemExit] is
    raised by [sys.exit]; in Python it derives from [BaseException], not
    from [Exception]. *)
Inductive exn : Type :=
| KeyError (k : string)
| TypeError
| AttributeError
| ValueError
| FileNotFoundError (path : string)
| SystemExit (code : Z).

(** [except Exception] catches everything but [SystemExit]. *)
Definition is_Exception (e : exn) : bool :=
  match e with SystemExit _ => false | _ => true end.

Inductive res (A : Type) : Type :=
| Ok (a : A)
| Raise (e : exn).
Arguments Ok {A} a.
Arguments Raise {A} e.

Definition res_bind {A B} (m : res A) (k : A -> res B) : res B :=
  match m with Ok a => k a | Raise e => Raise e end.

Notation "x <- m ;; k" := (res_bind m (fun x => k))
  (at level 61, m at next level, right associativity).

(** Truthiness ([if v:], [while v:]). *)
Definition truthy (v : pyval) : bool :=
  match v with
  | PNone => false
  | PBool b => b
  | PInt z => negb (z =? 0)
  | PStr s => negb (String.eqb s "")
  | PList l => match l with [] => false | _ => true end
  | PDict kv => match kv with [] => false | _ => true end
  end.

(** Dictionary keys: hashable values, with [True == 1] and [False == 0]. *)
Inductive pykey : Type := KNone | KNum (z : Z) | KStr (s : string).

Definition hash_key (v : pyval) : res pykey :=
  match v with
  | PNone => Ok KNone
  | PBool b => Ok (KNum (if b then 1 else 0))
  | PInt z => Ok (KNum z)
  | PStr s => Ok (KStr s)
  | PList _ | PDict _ => Raise TypeError
  end.

Definition key_eqb (a b : pykey) : bool :=
  match a, b with
  | KNone, KNone => true
  | KNum x, KNum y => x =? y
  | KStr x, KStr y => String.eqb x y
  | _, _ => false
  end.

(** Key of a stored entry (stored keys are hashable). *)
Definition stored_key (v : pyval) : option pykey :=
  match hash_key v with Ok k => Some k | Raise _ => None end.

Definition key_matches (k : pykey) (v : pyval) : bool :=
  match stored_key v with Some k' => key_eqb k k' | None => false end.

Fixpoint dict_lookup (kv : list (pyval * pyval)) (k : pykey) : option pyval :=
  match kv with
  | [] => None
  | (k', v) :: rest => if key_matches k k' then Some v else dict_lookup rest k
  end.

(** [d[k] = v]: overwrite in place (the key keeps its position) or append. *)
Fixpoint dict_replace (kv : list (pyval * pyval)) (k : pykey) (v : pyval)
  : list (pyval * pyval) :=
  match kv with
  | [] => []
  | (k', v') :: rest =>
      if key_matches k k' then (k', v) :: rest else (k', v') :: dict_replace rest k v
  end.

Definition dict_set (kv : list (pyval * pyval)) (k v : pyval)
  : res (list (pyval * pyval)) :=
  hk <- hash_key k ;;
  match dict_lookup kv hk with
  | Some _ => Ok (dict_replace kv hk v)
  | None => Ok (kv ++ [(k, v)])
  end.

(** [d.get(k, default)] for a dict [d] given as its item list. *)
Definition dict_get (kv : list (pyval * pyval)) (k default : pyval) : res pyval :=
  hk <- hash_key k ;;
  match dict_lookup kv hk with Some v => Ok v | None => Ok default end.

(** [o.get('k', default)]: only dicts have [.get]. *)
Definition py_get (o : pyval) (k : string) (default : pyval) : res pyval :=
  match o with
  | PDict kv => dict_get kv (PStr k) default
  | _ => Raise AttributeError
  end.

(** [o['k']] for a string literal key. *)
Definition subscript (o : pyval) (k : string) : res pyval :=
  match o with
  | PDict kv =>
      match dict_lookup kv (KStr k) with Some v => Ok v | None => Raise (KeyError k) end
  | _ => Raise TypeError
  end.

(** UTF-8 decoding into characters (one string per code point). *)
Definition is_continuation (c : ascii) : bool :=
  let n := N_of_ascii c in ((128 <=? n)%N && (n <? 192)%N)%bool.

Fixpoint utf8_chars (s : string) : list string :=
  match s with
  | EmptyString => []
  | String c rest =>
      match utf8_chars rest with
      | (String c' _ as ch) :: chs =>
          if is_continuation c' then String c ch :: chs
          else String c EmptyString :: ch :: chs
      | l => String c EmptyString :: l
      end
  end.

(** [for x in v]. *)
Definition py_iter (v : pyval) : res (list pyval) :=
  match v with
  | PList l => Ok l
  | PStr s => Ok (map PStr (utf8_chars s))
  | PDict kv => Ok (map fst kv)
  | _ => Raise TypeError
  end.

(** ['k' in o]. The scripts only reach this test with [o] a dict. *)
Definition py_contains_key (o : pyval) (k : string) : res bool :=
  match o with
  | PDict kv => Ok (match dict_lookup kv (KStr k) with Some _ => true | None => false end)
  | _ => Raise TypeError
  end.

(** [len(v)]. *)
Definition py_len (v : pyval) : res Z :=
  match v with
  | PList l => Ok (Z.of_nat (List.length l))
  | PStr s => Ok (Z.of_nat (List.length (utf8_chars s)))
  | PDict kv => Ok (Z.of_nat (List.length kv))
  | _ => Raise TypeError
  end.

(** [a < b] for the values the scripts compare (numbers, strings). *)
Definition py_lt (a b : pyval) : res bool :=
  match a, b with
  | (PInt _ | PBool _), (PInt _ | PBool _) =>
      let num v := match v with PInt z => z | PBool true => 1 | _ => 0 end in
      Ok (num a <? num b)
  | PStr x, PStr y => Ok (String.ltb x y)
  | _, _ => Raise TypeError
  end.

Fixpoint map_res {A B} (f : A -> res B) (l : list A) : res (list B) :=
  match l with
  | [] => Ok []
  | x :: rest => y <- f x ;; ys <- map_res f rest ;; Ok (y :: ys)
  end.

(** ** String helpers used by [create_search_index] *)

(** [str.lower()] as CPython 3.11 computes it: every character is
    replaced by its full lowercase mapping, except U+03A3 (capital sigma),
    which becomes the final sigma U+03C2 when a cased character precedes
    it and no cased character follows it (skipping case-ignorable
    characters on both sides), and U+03C3 otherwise.  A [str] is held as
    its UTF-8 bytes, which [utf8_chars] splits into characters. *)
Definition byte_val (c : ascii) : Z := Z.of_N (N_of_ascii c).

Fixpoint cont_bits (acc : Z) (s : string) : Z :=
  match s with
  | EmptyString => acc
  | String c rest => cont_bits (acc * 64 + Z.land (byte_val c) 63) rest
  end.

(** The code point of one UTF-8 encoded character. *)
Definition utf8_decode (ch : string) : Z :=
  match ch with
  | EmptyString => 0
  | String c rest =>
      let b := byte_val c in
      if b <? 128 then b
      else if b <? 224 then cont_bits (Z.land b 31) rest
      else if b <? 240 then cont_bits (Z.land b 15) rest
      else cont_bits (Z.land b 7) rest
  end.

Definition utf8_byte (z : Z) : ascii := ascii_of_N (Z.to_N z).

(** The UTF-8 encoding of a code point. *)
Definition utf8_encode (cp : Z) : string :=
  if cp <? 128 then String (utf8_byte cp) EmptyString
  else if cp <? 2048 then
    String (utf8_byte (192 + cp / 64)) (String (utf8_byte (128 + cp mod 64)) EmptyString)
  else if cp <? 65536 then
    String (utf8_byte (224 + cp / 4096))
      (String (utf8_byte (128 + (cp / 64) mod 64)) (String (utf8_byte (128 + cp mod 64)) EmptyString))
  else
    String (utf8_byte (240 + cp / 262144))
      (String (utf8_byte (128 + (cp / 4096) mod 64))
        (String (utf8_byte (128 + (cp / 64) mod 64)) (String (utf8_byte (128 + cp mod 64)) EmptyString))).

(** Simple lowercase mappings of Unicode 14.0 (the database of CPython
    3.11), as runs [(start, count, step, delta)]: the code points
    [start + k * step] for [k < count] map to themselves plus [delta]. *)
Definition LOWER_RUNS : list (Z * Z * Z * Z) := [
   (65, 26, 1, 32); (192, 23, 1, 32); (216, 7, 1, 32); (256, 24, 2, 1);
   (306, 3, 2, 1); (313, 8, 2, 1); (330, 23, 2, 1); (376, 1, 1, (-121));
   (377, 3, 2, 1); (385, 1, 1, 210); (386, 2, 2, 1); (390, 1, 1, 206);
   (391, 1, 1, 1); (393, 2, 1, 205); (395, 1, 1, 1); (398, 1, 1, 79);
   (399, 1, 1, 202); (400, 1, 1, 203); (401, 1, 1, 1); (403, 1, 1, 205);
   (404, 1, 1, 207); (406, 1, 1, 211); (407, 1, 1, 209); (408, 1, 1, 1);
   (412, 1, 1, 211); (413, 1, 1, 213); (415, 1, 1, 214); (416, 3, 2, 1);
   (422, 1, 1, 218); (423, 1, 1, 1); (425, 1, 1, 218); (428, 1, 1, 1);
   (430, 1, 1, 218); (431, 1, 1, 1); (433, 2, 1, 217); (435, 2, 2, 1);
   (439, 1, 1, 219); (440, 1, 1, 1); (444, 1, 1, 1); (452, 1, 1, 2);
   (453, 1, 1, 1); (455, 1, 1, 2); (456, 1, 1, 1); (458, 1, 1, 2);
   (459, 9, 2, 1); (478, 9, 2, 1); (497, 1, 1, 2); (498, 2, 2, 1);
   (502, 1, 1, (-97)); (503, 1, 1, (-56)); (504, 20, 2, 1); (544, 1, 1, (-130));
   (546, 9, 2, 1); (570, 1, 1, 10795); (571, 1, 1, 1); (573, 1, 1, (-163));
   (574, 1, 1, 10792); (577, 1, 1, 1); (579, 1, 1, (-195)); (580, 1, 1, 69);
   (581, 1, 1, 71); (582, 5, 2, 1); (880, 2, 2, 1); (886, 1, 1, 1);
   (895, 1, 1, 116); (902, 1, 1, 38); (904, 3, 1, 37); (908, 1, 1, 64);
   (910, 2, 1, 63); (913, 17, 1, 32); (931, 9, 1, 32); (975, 1, 1, 8);
   (984, 12, 2, 1); (1012, 1, 1, (-60)); (1015, 1, 1, 1); (1017, 1, 1, (-7));
   (1018, 1, 1, 1); (1021, 3, 1, (-130)); (1024, 16, 1, 80); (1040, 32, 1, 32);
   (1120, 17, 2, 1); (1162, 27, 2, 1); (1216, 1, 1, 15); (1217, 7, 2, 1);
   (1232, 48, 2, 1); (1329, 38, 1, 48); (4256, 38, 1, 7264); (4295, 1, 1, 7264);
   (4301, 1, 1, 7264); (5024, 80, 1, 38864); (5104, 6, 1, 8); (7312, 43, 1, (-3008));
   (7357, 3, 1, (-3008)); (7680, 75, 2, 1); (7838, 1, 1, (-7615)); (7840, 48, 2, 1);
   (7944, 8, 1, (-8)); (7960, 6, 1, (-8)); (7976, 8, 1, (-8)); (7992, 8, 1, (-8));
   (8008, 6, 1, (-8)); (8025, 4, 2, (-8)); (8040, 8, 1, (-8)); (8072, 8, 1, (-8));
   (8088, 8, 1, (-8)); (8104, 8, 1, (-8)); (8120, 2, 1, (-8)); (8122, 2, 1, (-74));
   (8124, 1, 1, (-9)); (8136, 4, 1, (-86)); (8140, 1, 1, (-9)); (8152, 2, 1, (-8));
   (8154, 2, 1, (-100)); (8168, 2, 1, (-8)); (8170, 2, 1, (-112)); (8172, 1, 1, (-7));
   (8184, 2, 1, (-128)); (8186, 2, 1, (-126)); (8188, 1, 1, (-9)); (8486, 1, 1, (-7517));
   (8490, 1, 1, (-8383)); (8491, 1, 1, (-8262)); (8498, 1, 1, 28); (8544, 16, 1, 16);
   (8579, 1, 1, 1); (9398, 26, 1, 26); (11264, 48, 1, 48); (11360, 1, 1, 1);
   (11362, 1, 1, (-10743)); (11363, 1, 1, (-3814)); (11364, 1, 1, (-10727)); (11367, 3, 2, 1);
   (11373, 1, 1, (-10780)); (11374, 1, 1, (-10749)); (11375, 1, 1, (-10783)); (11376, 1, 1, (-10782));
   (11378, 1, 1, 1); (11381, 1, 1, 1); (11390, 2, 1, (-10815)); (11392, 50, 2, 1);
   (11499, 2, 2, 1); (11506, 1, 1, 1); (42560, 23, 2, 1); (42624, 14, 2, 1);
   (42786, 7, 2, 1); (42802, 31, 2, 1); (42873, 2, 2, 1); (42877, 1, 1, (-35332));
   (42878, 5, 2, 1); (42891, 1, 1, 1); (42893, 1, 1, (-42280)); (42896, 2, 2, 1);
   (42902, 10, 2, 1); (42922, 1, 1, (-42308)); (42923, 1, 1, (-42319)); (42924, 1, 1, (-42315));
   (42925, 1, 1, (-42305)); (42926, 1, 1, (-42308)); (42928, 1, 1, (-42258)); (42929, 1, 1, (-42282));
   (42930, 1, 1, (-42261)); (42931, 1, 1, 928); (42932, 8, 2, 1); (42948, 1, 1, (-48));
   (42949, 1, 1, (-42307)); (42950, 1, 1, (-35384)); (42951, 2, 2, 1); (42960, 1, 1, 1);
   (42966, 2, 2, 1); (42997, 1, 1, 1); (65313, 26, 1, 32); (66560, 40, 1, 40);
   (66736, 36, 1, 40); (66928, 11, 1, 39); (66940, 15, 1, 39); (66956, 7, 1, 39);
   (66964, 2, 1, 39); (68736, 51, 1, 64); (71840, 32, 1, 32); (93760, 32, 1, 32);
   (125184, 34, 1, 34)].

(** Code point ranges of the properties [Cased] and [Case_Ignorable]. *)
Definition CASED_RANGES : list (Z * Z) := [
   (65, 90); (97, 122); (170, 170); (181, 181); (186, 186); (192, 214);
   (216, 246); (248, 442); (444, 447); (452, 659); (661, 696); (704, 705);
   (736, 740); (837, 837); (880, 883); (886, 887); (890, 893); (895, 895);
   (902, 902); (904, 906); (908, 908); (910, 929); (931, 1013); (1015, 1153);
   (1162, 1327); (1329, 1366); (1376, 1416); (4256, 4293); (4295, 4295); (4301, 4301);
   (4304, 4346); (4349, 4351); (5024, 5109); (5112, 5117); (7296, 7304); (7312, 7354);
   (7357, 7359); (7424, 7615); (7680, 7957); (7960, 7965); (7968, 8005); (8008, 8013);
   (8016, 8023); (8025, 8025); (8027, 8027); (8029, 8029); (8031, 8061); (8064, 8116);
   (8118, 8124); (8126, 8126); (8130, 8132); (8134, 8140); (8144, 8147); (8150, 8155);
   (8160, 8172); (8178, 8180); (8182, 8188); (8305, 8305); (8319, 8319); (8336, 8348);
   (8450, 8450); (8455, 8455); (8458, 8467); (8469, 8469); (8473, 8477); (8484, 8484);
   (8486, 8486); (8488, 8488); (8490, 8493); (8495, 8500); (8505, 8505); (8508, 8511);
   (8517, 8521); (8526, 8526); (8544, 8575); (8579, 8580); (9398, 9449); (11264, 11492);
   (11499, 11502); (11506, 11507); (11520, 11557); (11559, 11559); (11565, 11565); (42560, 42605);
   (42624, 42653); (42786, 42887); (42891, 42894); (42896, 42954); (42960, 42961); (42963, 42963);
   (42965, 42969); (42997, 42998); (43000, 43002); (43824, 43866); (43868, 43880); (43888, 43967);
   (64256, 64262); (64275, 64279); (65313, 65338); (65345, 65370); (66560, 66639); (66736, 66771);
   (66776, 66811); (66928, 66938); (66940, 66954); (66956, 66962); (66964, 66965); (66967, 66977);
   (66979, 66993); (66995, 67001); (67003, 67004); (67456, 67456); (67459, 67461); (67463, 67504);
   (67506, 67514); (68736, 68786); (68800, 68850); (71840, 71903); (93760, 93823); (119808, 119892);
   (119894, 119964); (119966, 119967); (119970, 119970); (119973, 119974); (119977, 119980); (119982, 119993);
   (119995, 119995); (119997, 120003); (120005, 120069); (120071, 120074); (120077, 120084); (120086, 120092);
   (120094, 120121); (120123, 120126); (120128, 120132); (120134, 120134); (120138, 120144); (120146, 120485);
   (120488, 120512); (120514, 120538); (120540, 120570); (120572, 120596); (120598, 120628); (120630, 120654);
   (120656, 120686); (120688, 120712); (120714, 120744); (120746, 120770); (120772, 120779); (122624, 122633);
   (122635, 122654); (125184, 125251); (127280, 127305); (127312, 127337); (127344, 127369)].

Definition CASE_IGNORABLE_RANGES : list (Z * Z) := [
   (39, 39); (46, 46); (58, 58); (94, 94); (96, 96); (168, 168);
   (173, 173); (175, 175); (180, 180); (183, 184); (688, 879); (884, 885);
   (890, 890); (900, 901); (903, 903); (1155, 1161); (1369, 1369); (1375, 1375);
   (1425, 1469); (1471, 1471); (1473, 1474); (1476, 1477); (1479, 1479); (1524, 1524);
   (1536, 1541); (1552, 1562); (1564, 1564); (1600, 1600); (1611, 1631); (1648, 1648);
   (1750, 1757); (1759, 1768); (1770, 1773); (1807, 1807); (1809, 1809); (1840, 1866);
   (1958, 1968); (2027, 2037); (2042, 2042); (2045, 2045); (2070, 2093); (2137, 2139);
   (2184, 2184); (2192, 2193); (2200, 2207); (2249, 2306); (2362, 2362); (2364, 2364);
   (2369, 2376); (2381, 2381); (2385, 2391); (2402, 2403); (2417, 2417); (2433, 2433);
   (2492, 2492); (2497, 2500); (2509, 2509); (2530, 2531); (2558, 2558); (2561, 2562);
   (2620, 2620); (2625, 2626); (2631, 2632); (2635, 2637); (2641, 2641); (2672, 2673);
   (2677, 2677); (2689, 2690); (2748, 2748); (2753, 2757); (2759, 2760); (2765, 2765);
   (2786, 2787); (2810, 2815); (2817, 2817); (2876, 2876); (2879, 2879); (2881, 2884);
   (2893, 2893); (2901, 2902); (2914, 2915); (2946, 2946); (3008, 3008); (3021, 3021);
   (3072, 3072); (3076, 3076); (3132, 3132); (3134, 3136); (3142, 3144); (3146, 3149);
   (3157, 3158); (3170, 3171); (3201, 3201); (3260, 3260); (3263, 3263); (3270, 3270);
   (3276, 3277); (3298, 3299); (3328, 3329); (3387, 3388); (3393, 3396); (3405, 3405);
   (3426, 3427); (3457, 3457); (3530, 3530); (3538, 3540); (3542, 3542); (3633, 3633);
   (3636, 3642); (3654, 3662); (3761, 3761); (3764, 3772); (3782, 3782); (3784, 3789);
   (3864, 3865); (3893, 3893); (3895, 3895); (3897, 3897); (3953, 3966); (3968, 3972);
   (3974, 3975); (3981, 3991); (3993, 4028); (4038, 4038); (4141, 4144); (4146, 4151);
   (4153, 4154); (4157, 4158); (4184, 4185); (4190, 4192); (4209, 4212); (4226, 4226);
   (4229, 4230); (4237, 4237); (4253, 4253); (4348, 4348); (4957, 4959); (5906, 5908);
   (5938, 5939); (5970, 5971); (6002, 6003); (6068, 6069); (6071, 6077); (6086, 6086);
   (6089, 6099); (6103, 6103); (6109, 6109); (6155, 6159); (6211, 6211); (6277, 6278);
   (6313, 6313); (6432, 6434); (6439, 6440); (6450, 6450); (6457, 6459); (6679, 6680);
   (6683, 6683); (6742, 6742); (6744, 6750); (6752, 6752); (6754, 6754); (6757, 6764);
   (6771, 6780); (6783, 6783); (6823, 6823); (6832, 6862); (6912, 6915); (6964, 6964);
   (6966, 6970); (6972, 6972); (6978, 6978); (7019, 7027); (7040, 7041); (7074, 7077);
   (7080, 7081); (7083, 7085); (7142, 7142); (7144, 7145); (7149, 7149); (7151, 7153);
   (7212, 7219); (7222, 7223); (7288, 7293); (7376, 7378); (7380, 7392); (7394, 7400);
   (7405, 7405); (7412, 7412); (7416, 7417); (7468, 7530); (7544, 7544); (7579, 7679);
   (8125, 8125); (8127, 8129); (8141, 8143); (8157, 8159); (8173, 8175); (8189, 8190);
   (8203, 8207); (8216, 8217); (8228, 8228); (8231, 8231); (8234, 8238); (8288, 8292);
   (8294, 8303); (8305, 8305); (8319, 8319); (8336, 8348); (8400, 8432); (11388, 11389);
   (11503, 11505); (11631, 11631); (11647, 11647); (11744, 11775); (11823, 11823); (12293, 12293);
   (12330, 12333); (12337, 12341); (12347, 12347); (12441, 12446); (12540, 12542); (40981, 40981);
   (42232, 42237); (42508, 42508); (42607, 42610); (42612, 42621); (42623, 42623); (42652, 42655);
   (42736, 42737); (42752, 42785); (42864, 42864); (42888, 42890); (42994, 42996); (43000, 43001);
   (43010, 43010); (43014, 43014); (43019, 43019); (43045, 43046); (43052, 43052); (43204, 43205);
   (43232, 43249); (43263, 43263); (43302, 43309); (43335, 43345); (43392, 43394); (43443, 43443);
   (43446, 43449); (43452, 43453); (43471, 43471); (43493, 43494); (43561, 43566); (43569, 43570);
   (43573, 43574); (43587, 43587); (43596, 43596); (43632, 43632); (43644, 43644); (43696, 43696);
   (43698, 43700); (43703, 43704); (43710, 43711); (43713, 43713); (43741, 43741); (43756, 43757);
   (43763, 43764); (43766, 43766); (43867, 43871); (43881, 43883); (44005, 44005); (44008, 44008);
   (44013, 44013); (64286, 64286); (64434, 64450); (65024, 65039); (65043, 65043); (65056, 65071);
   (65106, 65106); (65109, 65109); (65279, 65279); (65287, 65287); (65294, 65294); (65306, 65306);
   (65342, 65342); (65344, 65344); (65392, 65392); (65438, 65439); (65507, 65507); (65529, 65531);
   (66045, 66045); (66272, 66272); (66422, 66426); (67456, 67461); (67463, 67504); (67506, 67514);
   (68097, 68099); (68101, 68102); (68108, 68111); (68152, 68154); (68159, 68159); (68325, 68326);
   (68900, 68903); (69291, 69292); (69446, 69456); (69506, 69509); (69633, 69633); (69688, 69702);
   (69744, 69744); (69747, 69748); (69759, 69761); (69811, 69814); (69817, 69818); (69821, 69821);
   (69826, 69826); (69837, 69837); (69888, 69890); (69927, 69931); (69933, 69940); (70003, 70003);
   (70016, 70017); (70070, 70078); (70089, 70092); (70095, 70095); (70191, 70193); (70196, 70196);
   (70198, 70199); (70206, 70206); (70367, 70367); (70371, 70378); (70400, 70401); (70459, 70460);
   (70464, 70464); (70502, 70508); (70512, 70516); (70712, 70719); (70722, 70724); (70726, 70726);
   (70750, 70750); (70835, 70840); (70842, 70842); (70847, 70848); (70850, 70851); (71090, 71093);
   (71100, 71101); (71103, 71104); (71132, 71133); (71219, 71226); (71229, 71229); (71231, 71232);
   (71339, 71339); (71341, 71341); (71344, 71349); (71351, 71351); (71453, 71455); (71458, 71461);
   (71463, 71467); (71727, 71735); (71737, 71738); (71995, 71996); (71998, 71998); (72003, 72003);
   (72148, 72151); (72154, 72155); (72160, 72160); (72193, 72202); (72243, 72248); (72251, 72254);
   (72263, 72263); (72273, 72278); (72281, 72283); (72330, 72342); (72344, 72345); (72752, 72758);
   (72760, 72765); (72767, 72767); (72850, 72871); (72874, 72880); (72882, 72883); (72885, 72886);
   (73009, 73014); (73018, 73018); (73020, 73021); (73023, 73029); (73031, 73031); (73104, 73105);
   (73109, 73109); (73111, 73111); (73459, 73460); (78896, 78904); (92912, 92916); (92976, 92982);
   (92992, 92995); (94031, 94031); (94095, 94111); (94176, 94177); (94179, 94180); (110576, 110579);
   (110581, 110587); (110589, 110590); (113821, 113822); (113824, 113827); (118528, 118573); (118576, 118598);
   (119143, 119145); (119155, 119170); (119173, 119179); (119210, 119213); (119362, 119364); (121344, 121398);
   (121403, 121452); (121461, 121461); (121476, 121476); (121499, 121503); (121505, 121519); (122880, 122886);
   (122888, 122904); (122907, 122913); (122915, 122916); (122918, 122922); (123184, 123197); (123566, 123566);
   (123628, 123631); (125136, 125142); (125252, 125259); (127995, 127999); (917505, 917505); (917536, 917631);
   (917760, 917999)].

Fixpoint run_delta (runs : list (Z * Z * Z * Z)) (cp : Z) : option Z :=
  match runs with
  | [] => None
  | (start, count, step, delta) :: rest =>
      if ((start <=? cp) && (cp <=? start + (count - 1) * step) && ((cp - start) mod step =? 0))%bool
      then Some delta else run_delta rest cp
  end.

(** [_PyUnicode_ToLowerFull]: the full lowercase mapping of a code point,
    [None] when the character is its own lowercase.  U+0130 is the one
    character whose full mapping has two code points. *)
Definition to_lower_full (cp : Z) : option (list Z) :=
  if cp =? 304 then Some [105; 775]
  else match run_delta LOWER_RUNS cp with Some d => Some [cp + d] | None => None end.

Definition in_ranges (rs : list (Z * Z)) (cp : Z) : bool :=
  existsb (fun '(a, b) => ((a <=? cp) && (cp <=? b))%bool) rs.

Definition is_cased (cp : Z) : bool := in_ranges CASED_RANGES cp.
Definition is_case_ignorable (cp : Z) : bool := in_ranges CASE_IGNORABLE_RANGES cp.

(** The first character that is not case-ignorable. *)
Fixpoint first_not_ignorable (chs : list string) : option Z :=
  match chs with
  | [] => None
  | ch :: rest =>
      let cp := utf8_decode ch in
      if is_case_ignorable cp then first_not_ignorable rest else Some cp
  end.

(** [handle_capital_sigma]: [before] lists the preceding characters,
    nearest first, [after] the following ones. *)
Definition final_sigma (before after : list string) : bool :=
  match first_not_ignorable before with
  | Some c =>
      is_cased c && match first_not_ignorable after with
                    | Some c' => negb (is_cased c')
                    | None => true
                    end
  | None => false
  end.

(** [lower_ucs4]: the characters that replace [ch]. *)
Definition lower_char (before : list string) (ch : string) (after : list string) : list string :=
  let cp := utf8_decode ch in
  if cp =? 931 then [utf8_encode (if final_sigma before after then 962 else 963)]
  else match to_lower_full cp with
       | Some cps => map utf8_encode cps
       | None => [ch]
       end.

Fixpoint lower_chars (before chs : list string) : list string :=
  match chs with
  | [] => []
  | ch :: rest => lower_char before ch rest ++ lower_chars (ch :: before) rest
  end.

Fixpoint str_concat (l : list string) : string :=
  match l with [] => EmptyString | x :: rest => String.append x (str_concat rest) end.

Definition str_lower (s : string) : string := str_concat (lower_chars [] (utf8_chars s)).

Definition py_lower (v : pyval) : res pyval :=
  match v with PStr s => Ok (PStr (str_lower s)) | _ => Raise AttributeError end.

(** [' '.join(xs)]: every item must be a [str]. *)
Definition py_join_space (v : pyval) : res string :=
  items <- py_iter v ;;
  strs <- map_res (fun x => match x with PStr s => Ok s | _ => Raise TypeError end) items ;;
  Ok (String.concat " " strs).

Definition digit_string (d : Z) : string :=
  String (ascii_of_N (48 + Z.to_N d)) EmptyString.

Fixpoint pos_digits (fuel : nat) (p : positive) : string :=
  match fuel with
  | O => ""
  | S f =>
      let q := Z.pos p / 10 in
      let r := Z.pos p mod 10 in
      match q with
      | Z.pos q' => String.append (pos_digits f q') (digit_string r)
      | _ => digit_string r
      end
  end.

(** [str(n)] for an [int]. *)
Definition Z_to_dec (z : Z) : string :=
  match z with
  | Z0 => "0"
  | Z.pos p => pos_digits (Pos.size_nat p) p
  | Z.neg p => String.append "-" (pos_digits (Pos.size_nat p) p)
  end.

(** [repr(v)]; string quoting does not escape quote characters. *)
Fixpoint py_repr (v : pyval) : string :=
  let fix repr_list (l : list pyval) : list string :=
    match l with [] => [] | x :: r => py_repr x :: repr_list r end
  in
  let fix repr_items (kv : list (pyval * pyval)) : list string :=
    match kv with
    | [] => []
    | (k, x) :: r => String.append (py_repr k) (String.append ": " (py_repr x)) :: repr_items r
    end
  in
  match v with
  | PNone => "None"
  | PBool true => "True"
  | PBool false => "False"
  | PInt z => Z_to_dec z
  | PStr s => String.append "'" (String.append s "'")
  | PList l => String.append "[" (String.append (String.concat ", " (repr_list l)) "]")
  | PDict kv => String.append "{" (String.append (String.concat ", " (repr_items kv)) "}")
  end.

(** [str(v)] as used by the f-string of the tool index entry. *)
Definition py_str (v : pyval) : string :=
  match v with PStr s => s | _ => py_repr v end.

(** ** process_for_web.py *)

Definition dict (kv : list (string * pyval)) : pyval :=
  PDict (map (fun '(k, v) => (PStr k, v)) kv).

(** Body of the reference loops of [create_web_companies] (lines 44-56)
    and [create_web_tools] (lines 86-93): for each reference, look its
    ['id'] up in the index; when a row is found (and is truthy) append
    [summary row]. *)
Fixpoint resolve_refs (summary : pyval -> res pyval)
    (by_id : list (pyval * pyval)) (refs : list pyval) : res (list pyval) :=
  match refs with
  | [] => Ok []
  | ref :: rest =>
      rid <- subscript ref "id" ;;
      row <- dict_get by_id rid PNone ;;
      here <- (if truthy row then e <- summary row ;; Ok [e] else Ok []) ;;
      there <- resolve_refs summary by_id rest ;;
      Ok (here ++ there)
  end.

(** Embedded tool of a web company (lines 47-56). *)
Definition company_tool_summary (tool : pyval) : res pyval :=
  uuid <- subscript tool "UUID" ;;
  name <- subscript tool "ToolName" ;;
  ds <- py_get tool "Tool Description Short" (PStr "") ;;
  dl <- py_get tool "ToolDescription_long" (PStr "") ;;
  tt <- py_get tool "Tool Tags" (PList []) ;;
  ts <- py_iter tt ;;
  tags <- map_res (fun t => subscript t "value") ts ;;
  rating <- py_get tool "Overall Rating" (PStr "0") ;;
  cost <- py_get tool "Annual License Cost" PNone ;;
  url <- py_get tool "URL" (PStr "") ;;
  Ok (dict [("id", uuid); ("name", name); ("description_short", ds);
            ("description_long", dl); ("tags", PList tags); ("rating", rating);
            ("cost", cost); ("url", url)]).

(** Loop body of [create_web_companies] (lines 42-65). *)
Definition web_company (tools_by_id : list (pyval * pyval)) (company : pyval)
  : res pyval :=
  trefs <- py_get company "Tools" (PList []) ;;
  refs <- py_iter trefs ;;
  company_tools <- resolve_refs company_tool_summary tools_by_id refs ;;
  uuid <- subscript company "UUID" ;;
  name <- subscript company "Company Name" ;;
  url <- py_get company "URL" (PStr "") ;;
  notes <- py_get company "Notes" (PStr "") ;;
  Ok (dict [("id", uuid); ("name", name); ("url", url); ("notes", notes);
            ("tools", PList company_tools);
            ("tool_count", PInt (Z.of_nat (List.length company_tools)))]).

Definition create_web_companies (companies : pyval) (tools_by_id : list (pyval * pyval))
  : res pyval :=
  cs <- py_iter companies ;;
  out <- map_res (web_company tools_by_id) cs ;;
  Ok (PList out).

(** Embedded company of a web tool (lines 89-93). *)
Definition tool_company_summary (comp : pyval) : res pyval :=
  uuid <- subscript comp "UUID" ;;
  name <- subscript comp "Company Name" ;;
  url <- py_get comp "URL" (PStr "") ;;
  Ok (dict [("id", uuid); ("name", name); ("url", url)]).

(** Tag loop of [create_web_tools] (lines 96-102). *)
Fixpoint tag_loop (ts : list pyval) (tags : list pyval) (tag_colors : list (pyval * pyval))
  : res (list pyval * list (pyval * pyval)) :=
  match ts with
  | [] => Ok (tags, tag_colors)
  | tag :: rest =>
      tag_name <- subscript tag "value" ;;
      has_color <- py_contains_key tag "color" ;;
      if has_color then
        c <- subscript tag "color" ;;
        tag_colors' <- dict_set tag_colors tag_name c ;;
        tag_loop rest (tags ++ [tag_name]) tag_colors'
      else tag_loop rest (tags ++ [tag_name]) tag_colors
  end.

(** Loop body of [create_web_tools] (lines 84-116). *)
Definition web_tool (companies_by_id : list (pyval * pyval)) (tool : pyval) : res pyval :=
  crefs <- py_get tool "ToolCompany" (PList []) ;;
  refs <- py_iter crefs ;;
  tool_companies <- resolve_refs tool_company_summary companies_by_id refs ;;
  tt <- py_get tool "Tool Tags" (PList []) ;;
  ts <- py_iter tt ;;
  tc <- tag_loop ts [] [] ;;
  let '(tags, tag_colors) := tc in
  uuid <- subscript tool "UUID" ;;
  name <- subscript tool "ToolName" ;;
  ds <- py_get tool "Tool Description Short" (PStr "") ;;
  dl <- py_get tool "ToolDescription_long" (PStr "") ;;
  rating <- py_get tool "Overall Rating" (PStr "0") ;;
  cost <- py_get tool "Annual License Cost" PNone ;;
  url <- py_get tool "URL" (PStr "") ;;
  lm <- py_get tool "Last modified" (PStr "") ;;
  Ok (dict [("id", uuid); ("name", name); ("description_short", ds);
            ("description_long", dl); ("tags", PList tags);
            ("tag_colors", PDict tag_colors); ("companies", PList tool_companies);
            ("rating", rating); ("cost", cost); ("url", url); ("last_modified", lm)]).

Definition create_web_tools (tools : pyval) (companies_by_id : list (pyval * pyval))
  : res pyval :=
  ts <- py_iter tools ;;
  out <- map_res (web_tool companies_by_id) ts ;;
  Ok (PList out).

(** [{r['id']: r for r in rows}] (lines 195-196). *)
Fixpoint index_by_id_loop (rows : list pyval) (acc : list (pyval * pyval))
  : res (list (pyval * pyval)) :=
  match rows with
  | [] => Ok acc
  | r :: rest => rid <- subscript r "id" ;; acc' <- dict_set acc rid r ;; index_by_id_loop rest acc'
  end.

Definition index_by_id (rows : pyval) : res (list (pyval * pyval)) :=
  rs <- py_iter rows ;; index_by_id_loop rs [].

(** [create_search_index] (lines 121-160). *)
Definition company_index_entry (company : pyval) : res pyval :=
  cid <- subscript company "id" ;;
  name <- subscript company "name" ;;
  url <- subscript company "url" ;;
  name' <- subscript company "name" ;;
  search_text <- py_lower name' ;;
  tc <- subscript company "tool_count" ;;
  Ok (dict [("type", PStr "company"); ("id", cid); ("name", name); ("url", url);
            ("search_text", search_text); ("tool_count", tc)]).

Definition tool_index_entry (tool : pyval) : res pyval :=
  tags_v <- subscript tool "tags" ;;
  tags_text <- py_join_space tags_v ;;
  comps <- subscript tool "companies" ;;
  cs <- py_iter comps ;;
  names <- map_res (fun c => subscript c "name") cs ;;
  companies_text <- py_join_space (PList names) ;;
  tid <- subscript tool "id" ;;
  name <- subscript tool "name" ;;
  url <- subscript tool "url" ;;
  tags <- subscript tool "tags" ;;
  name' <- subscript tool "name" ;;
  comps' <- subscript tool "companies" ;;
  n <- py_len comps' ;;
  Ok (dict [("type", PStr "tool"); ("id", tid); ("name", name); ("url", url); ("tags", tags);
            ("search_text",
              PStr (str_lower (String.append (py_str name')
                     (String.append " " (String.append (str_lower tags_text)
                       (String.append " " (str_lower companies_text)))))));
            ("company_count", PInt n)]).

Definition create_search_index (companies tools : pyval) : res pyval :=
  cs <- py_iter companies ;;
  ce <- map_res company_index_entry cs ;;
  ts <- py_iter tools ;;
  te <- map_res tool_index_entry ts ;;
  Ok (PList (ce ++ te)).

(** [extract_all_tags] (lines 163-175). *)
Fixpoint first_wins (items : list (pyval * pyval)) (tags_dict : list (pyval * pyval))
  : res (list (pyval * pyval)) :=
  match items with
  | [] => Ok tags_dict
  | (tag_name, color) :: rest =>
      hk <- hash_key tag_name ;;
      match dict_lookup tags_dict hk with
      | Some _ => first_wins rest tags_dict
      | None => d <- dict_set tags_dict tag_name color ;; first_wins rest d
      end
  end.

Definition dict_items (v : pyval) : res (list (pyval * pyval)) :=
  match v with PDict kv => Ok kv | _ => Raise AttributeError end.

Fixpoint collect_tags (tools : list pyval) (tags_dict : list (pyval * pyval))
  : res (list (pyval * pyval)) :=
  match tools with
  | [] => Ok tags_dict
  | tool :: rest =>
      tc <- py_get tool "tag_colors" (PDict []) ;;
      items <- dict_items tc ;;
      d <- first_wins items tags_dict ;;
      collect_tags rest d
  end.

Definition same_key (a b : pyval) : bool :=
  match stored_key a, stored_key b with Some x, Some y => key_eqb x y | _, _ => false end.

(** Tuple order on [(name, color)] items. The names of one dict are
    pairwise distinct, so the colors are compared only on equal names. *)
Definition item_lt (a b : pyval * pyval) : res bool :=
  if same_key (fst a) (fst b) then
    (if same_key (snd a) (snd b) then Ok false else py_lt (snd a) (snd b))
  else py_lt (fst a) (fst b).

(** [sorted(items)] as an insertion sort. Python's merge sort and this
    sort give the same list on pairwise comparable, pairwise distinct
    names, and both raise [TypeError] when two names are incomparable. *)
Fixpoint insert_item (x : pyval * pyval) (l : list (pyval * pyval))
  : res (list (pyval * pyval)) :=
  match l with
  | [] => Ok [x]
  | y :: r =>
      b <- item_lt y x ;;
      if b then r' <- insert_item x r ;; Ok (y :: r') else Ok (x :: y :: r)
  end.

Fixpoint sort_items (l : list (pyval * pyval)) : res (list (pyval * pyval)) :=
  match l with
  | [] => Ok []
  | x :: r => r' <- sort_items r ;; insert_item x r'
  end.

Definition extract_all_tags (tools : pyval) : res pyval :=
  ts <- py_iter tools ;;
  tags_dict <- collect_tags ts [] ;;
  sorted <- sort_items tags_dict ;;
  Ok (PList (map (fun '(name, color) => dict [("name", name); ("color", color)]) sorted)).

(** [calculate_stats] (lines 178-186). *)
Fixpoint count_positive (field : pyval -> res pyval) (l : list pyval) : res Z :=
  match l with
  | [] => Ok 0
  | x :: r =>
      v <- field x ;; b <- py_lt (PInt 0) v ;; n <- count_positive field r ;;
      Ok (if b then n + 1 else n)
  end.

Definition calculate_stats (companies tools : pyval) : res pyval :=
  nc <- py_len companies ;;
  nt <- py_len tools ;;
  cs <- py_iter companies ;;
  cwt <- count_positive (fun c => subscript c "tool_count") cs ;;
  ts <- py_iter tools ;;
  twc <- count_positive (fun t => cl <- subscript t "companies" ;; n <- py_len cl ;; Ok (PInt n)) ts ;;
  all_tags <- extract_all_tags tools ;;
  ntags <- py_len all_tags ;;
  Ok (dict [("total_companies", PInt nc); ("total_tools", PInt nt);
            ("companies_with_tools", PInt cwt); ("tools_with_companies", PInt twc);
            ("total_tags", PInt ntags)]).

(** ** Files *)

(** A file system maps a path to the bytes stored there. *)
Definition filesystem := string -> option string.

(** [open(p, 'w')] truncates the file; the write replaces it wholesale. *)
Definition write_file (fs : filesystem) (p : string) (contents : string) : filesystem :=
  fun q => if String.eqb q p then Some contents else fs q.

Section Denormalizer.

(** [json.load] and [json.dump(obj, f, indent=2, ensure_ascii=False)] of
    the Python library. *)
Variable json_load : string -> res pyval.
Variable json_dump : pyval -> string.

Definition read_json (fs : filesystem) (p : string) : res pyval :=
  match fs p with Some s => json_load s | None => Raise (FileNotFoundError p) end.

(** [Path(__file__).parent.parent / 'data' / ...] *)
Definition snapshot_path (name : string) : string :=
  String.append "baserow_api/data/snapshots/" name.
Definition web_path (name : string) : string :=
  String.append "baserow_api/data/web/" name.

(** [load_snapshots] (lines 12-25). *)
Definition load_snapshots (fs : filesystem) : res (pyval * pyval * pyval) :=
  companies <- read_json fs (snapshot_path "companies.json") ;;
  tools <- read_json fs (snapshot_path "tools.json") ;;
  libraries <- read_json fs (snapshot_path "libraries.json") ;;
  Ok (companies, tools, libraries).

(** The artifacts computed by [main] (lines 192-205) before any write. *)
Record artifacts := {
  a_companies : pyval; a_tools : pyval; a_search_index : pyval;
  a_tags : pyval; a_stats : pyval }.

Definition process (companies tools : pyval) : res artifacts :=
  tools_by_id <- index_by_id tools ;;
  companies_by_id <- index_by_id companies ;;
  web_companies <- create_web_companies companies tools_by_id ;;
  web_tools <- create_web_tools tools companies_by_id ;;
  search_index <- create_search_index web_companies web_tools ;;
  all_tags <- extract_all_tags web_tools ;;
  stats <- calculate_stats web_companies web_tools ;;
  Ok {| a_companies := web_companies; a_tools := web_tools;
        a_search_index := search_index; a_tags := all_tags; a_stats := stats |}.

(** Lines 211-238. *)
Definition write_outputs (fs : filesystem) (a : artifacts) : filesystem :=
  let fs := write_file fs (web_path "companies.json") (json_dump (a_companies a)) in
  let fs := write_file fs (web_path "tools.json") (json_dump (a_tools a)) in
  let fs := write_file fs (web_path "search_index.json") (json_dump (a_search_index a)) in
  let fs := write_file fs (web_path "tags.json") (json_dump (a_tags a)) in
  let fs := write_file fs (web_path "stats.json") (json_dump (a_stats a)) in
  let combined := dict [("companies", a_companies a); ("tools", a_tools a);
                        ("tags", a_tags a); ("stats", a_stats a)] in
  write_file fs (web_path "all_data.json") (json_dump combined).

(** [main] of process_for_web.py (lines 189-247); printing is omitted. *)
Definition denormalizer_main (fs : filesystem) : res filesystem :=
  snaps <- load_snapshots fs ;;
  let '(companies, tools, _libraries) := snaps in
  a <- process companies tools ;;
  Ok (write_outputs fs a).

End Denormalizer.

Definition output_files : list string :=
  map web_path ["companies.json"; "tools.json"; "search_index.json";
                "tags.json"; "stats.json"; "all_data.json"].

(** ** fetch_baserow_tables.py *)

(** What one [requests.get] call gives: a transport failure (a
    [RequestException]) or a response with its status code and its body
    as [response.json()] parses it ([None]: the body is not JSON). *)
Inductive outcome : Type :=
| Transport
| Reply (status : Z) (body : option pyval).

(** Fetcher state: the number of requests issued so far, the total time
    slept in seconds, and the file system. *)
Record fstate := { clock : nat; slept : Z; files : filesystem }.

(** State and exception monad: an exception keeps the state reached. *)
Definition M (A : Type) := fstate -> res A * fstate.

Definition mret {A} (a : A) : M A := fun s => (Ok a, s).
Definition mraise {A} (e : exn) : M A := fun s => (Raise e, s).
Definition mlift {A} (r : res A) : M A := fun s => (r, s).
Definition mbind {A B} (m : M A) (k : A -> M B) : M B :=
  fun s => match m s with (Ok a, s') => k a s' | (Raise e, s') => (Raise e, s') end.

Notation "x <-- m ;;; k" := (mbind m (fun x => k))
  (at level 61, m at next level, right associativity).

(** [try: m except Exception as e: handler(e)] *)
Definition try_except {A} (m : M A) (handler : exn -> M A) : M A :=
  fun s => match m s with
           | (Raise e, s') => if is_Exception e then handler e s' else (Raise e, s')
           | r => r
           end.

Definition time_sleep (d : Z) : M unit :=
  fun s => (Ok tt, {| clock := clock s; slept := slept s + d; files := files s |}).

Definition sys_exit {A} (code : Z) : M A := mraise (SystemExit code).

(** Retry configuration (lines 44-45). *)
Definition MAX_RETRIES : nat := 3.
Definition RETRY_DELAYS : list Z := [1; 2; 4].

Definition retryable (status : Z) : bool :=
  existsb (Z.eqb status) [429; 500; 502; 503; 504].

(** [RETRY_DELAYS[i]] *)
Definition list_index (l : list Z) (i : nat) : res Z :=
  match nth_error l i with Some d => Ok d | None => Raise TypeError end.

Section Fetcher.

(** The remote API: the outcome of the [k]-th request of the run, given
    the requested URL. *)
Variable net : nat -> pyval -> outcome.
Variable json_dump : pyval -> string.
(** Configuration read from the environment (lines 31-34). *)
Variable BASEROW_TOKEN : string.
Variable BASEROW_BASE_URL : string.
Variable BASEROW_PAGE_SIZE : Z.
Variable BASEROW_OUTPUT_DIR : string.

Definition http_get (url : pyval) : M outcome :=
  fun s => (Ok (net (clock s) url),
            {| clock := S (clock s); slept := slept s; files := files s |}).

(** The response as kept in the variable [response]. *)
Definition response := option (Z * option pyval).

(** The retry loop [for attempt in range(MAX_RETRIES)] (lines 91-123). *)
Fixpoint retry_loop (url : pyval) (attempts : list nat) (resp : response) : M response :=
  match attempts with
  | [] => mret resp
  | attempt :: rest =>
      r <-- http_get url ;;;
      match r with
      | Reply status body =>
          if status =? 200 then mret (Some (status, body))
          else if retryable status then
            if Nat.ltb attempt (MAX_RETRIES - 1) then
              delay <-- mlift (list_index RETRY_DELAYS attempt) ;;;
              _ <-- time_sleep delay ;;;
              retry_loop url rest (Some (status, body))
            else sys_exit 1
          else sys_exit 1
      | Transport =>
          if Nat.ltb attempt (MAX_RETRIES - 1) then
            delay <-- mlift (list_index RETRY_DELAYS attempt) ;;;
            _ <-- time_sleep delay ;;;
            retry_loop url rest resp
          else sys_exit 1
      end
  end.

(** [response.json()] *)
Definition response_json (resp : response) : res pyval :=
  match resp with
  | None => Raise AttributeError
  | Some (_, None) => Raise ValueError
  | Some (_, Some v) => Ok v
  end.

(** [if limit and len(all_rows) >= limit] *)
Definition limit_reached (limit : option Z) (all_rows : list pyval) : bool :=
  match limit with
  | None => false
  | Some z => negb (z =? 0) && (z <=? Z.of_nat (List.length all_rows))
  end.

(** [all_rows[:limit]] *)
Definition py_slice_to (l : list pyval) (z : Z) : list pyval :=
  if 0 <=? z then firstn (Z.to_nat z) l
  else firstn (Z.to_nat (Z.of_nat (List.length l) + z)) l.

(** The [while url:] loop (lines 89-142), run for at most [fuel]
    iterations; [None] means the loop has not exited yet. *)
Fixpoint page_loop (fuel : nat) (limit : option Z) (url : pyval) (all_rows : list pyval)
  : M (option (list pyval)) :=
  match fuel with
  | O => mret None
  | S fuel' =>
      if negb (truthy url) then mret (Some all_rows) else
      resp <-- retry_loop url (seq 0 MAX_RETRIES) None ;;;
      data <-- mlift (response_json resp) ;;;
      rows_v <-- mlift (py_get data "results" (PList [])) ;;;
      if negb (truthy rows_v) then mret (Some all_rows) else
      rows <-- mlift (py_iter rows_v) ;;;
      let all_rows := all_rows ++ rows in
      match limit with
      | Some z =>
          if limit_reached limit all_rows then mret (Some (py_slice_to all_rows z))
          else next <-- mlift (py_get data "next" PNone) ;;; page_loop fuel' limit next all_rows
      | None => next <-- mlift (py_get data "next" PNone) ;;; page_loop fuel' limit next all_rows
      end
  end.

Definition initial_url (table_id : Z) : pyval :=
  PStr (String.append BASEROW_BASE_URL
         (String.append "/api/database/rows/table/"
           (String.append (Z_to_dec table_id)
             (String.append "/?size=" (Z_to_dec BASEROW_PAGE_SIZE))))).

(** [fetch_table_with_pagination] (lines 64-145). *)
Definition fetch_table_with_pagination (fuel : nat) (table_id : Z) (limit : option Z)
  : M (option (list pyval)) :=
  page_loop fuel limit (initial_url table_id) [].

Definition output_path (table_name : string) : string :=
  String.append BASEROW_OUTPUT_DIR (String.append "/" (String.append table_name ".json")).

(** [export_to_json] (lines 148-155). *)
Definition export_to_json (table_name : string) (rows : list pyval) : M unit :=
  fun s => (Ok tt, {| clock := clock s; slept := slept s;
                      files := write_file (files s) (output_path table_name)
                                 (json_dump (PList rows)) |}).

Definition TABLES : list (string * Z) :=
  [("companies", 813469); ("tools", 813470); ("libraries", 813471)].

Inductive table_status : Type :=
| Success (rows : Z)
| Failed (e : exn).

(** One iteration of the driver loop (lines 169-183). *)
Definition process_table (fuel : nat) (table_name : string) (table_id : Z)
  : M (option table_status) :=
  try_except
    (rows_opt <-- fetch_table_with_pagination fuel table_id None ;;;
     match rows_opt with
     | None => mret None
     | Some rows =>
         _ <-- export_to_json table_name rows ;;;
         mret (Some (Success (Z.of_nat (List.length rows))))
     end)
    (fun e => mret (Some (Failed e))).

Fixpoint run_tables (fuel : nat) (tables : list (string * Z))
    (results_summary : list (string * table_status))
  : M (option (list (string * table_status))) :=
  match tables with
  | [] => mret (Some results_summary)
  | (table_name, table_id) :: rest =>
      r <-- process_table fuel table_name table_id ;;;
      match r with
      | None => mret None
      | Some st => run_tables fuel rest (results_summary ++ [(table_name, st)])
      end
  end.

(** [validate_config] (lines 48-55). *)
Definition validate_config : M unit :=
  if String.eqb BASEROW_TOKEN "" then sys_exit 1 else mret tt.

(** [main] of fetch_baserow_tables.py (lines 159-185). *)
Definition fetcher_main (fuel : nat) : M (option (list (string * table_status))) :=
  _ <-- validate_config ;;;
  run_tables fuel TABLES [].

End Fetcher.

(** ** Test inputs *)

(** The example rows of the spec: one company referencing a tool. *)
Definition ex_company : pyval :=
  dict [("id", PInt 1); ("UUID", PStr "c1"); ("Company Name", PStr "Acme");
        ("Tools", PList [dict [("id", PInt 10)]])].
Definition ex_tool : pyval :=
  dict [("id", PInt 10); ("UUID", PStr "t1"); ("ToolName", PStr "X");
        ("Tool Tags", PList [dict [("value", PStr "ml"); ("color", PStr "blue")]])].

(** A file system holding the three snapshot files, and a loader and
    dumper that recognise the bytes stored there. *)
Definition ex_load (s : string) : res pyval :=
  if String.eqb s "C" then Ok (PList [ex_company])
  else if String.eqb s "T" then Ok (PList [ex_tool])
  else if String.eqb s "L" then Ok (PList [])
  else if String.eqb s "L2" then Ok (PList [dict [("id", PInt 5)]])
  else Raise ValueError.
Definition ex_dump (v : pyval) : string := py_repr v.
Definition ex_fs : filesystem :=
  fun p => if String.eqb p (snapshot_path "companies.json") then Some "C"
           else if String.eqb p (snapshot_path "tools.json") then Some "T"
           else if String.eqb p (snapshot_path "libraries.json") then Some "L"
           else None.
Definition ex_fs_lib2 : filesystem :=
  fun p => if String.eqb p (snapshot_path "libraries.json") then Some "L2" else ex_fs p.

(** The outputs of a run: the contents of the six output files. *)
Definition outputs_of (r : res filesystem) : res (list (option string)) :=
  fs <- r ;; Ok (map fs output_files).

(** Shape of the enriched records that [create_search_index] reads. *)
Definition has_field (o : pyval) (k : string) : Prop := exists v, subscript o k = Ok v.
Definition str_field (o : pyval) (k : string) : Prop := exists s, subscript o k = Ok (PStr s).

Definition web_company_shaped (c : pyval) : Prop :=
  has_field c "id" /\ str_field c "name" /\ has_field c "url" /\ has_field c "tool_count".

Definition web_tool_shaped (t : pyval) : Prop :=
  has_field t "id" /\ has_field t "name" /\ has_field t "url" /\
  (exists tags, subscript t "tags" = Ok (PList tags) /\ Forall (fun x => exists s, x = PStr s) tags) /\
  (exists cs, subscript t "companies" = Ok (PList cs) /\ Forall (fun c => str_field c "name") cs).

(** [e] is the index entry of type [ty] for the record [x]. *)
Definition index_entry_of (ty : string) (x e : pyval) : Prop :=
  subscript e "type" = Ok (PStr ty) /\ subscript e "id" = subscript x "id" /\
  subscript e "name" = subscript x "name".

(** A response that the retry loop retries: a transport failure or a
    status in [429, 500, 502, 503, 504]. *)
Definition retryable_outcome (o : outcome) : Prop :=
  o = Transport \/ exists st b, o = Reply st b /\ retryable st = true.

(** Clock advanced by one request and [d] seconds slept. *)
Definition after_request (s : fstate) (d : Z) : fstate :=
  {| clock := S (clock s); slept := slept s + d; files := files s |}.

(** Networks for the retry loop: two 503 responses then 200, and 503
    forever. *)
Definition ex_flaky_net (k : nat) (url : pyval) : outcome :=
  if Nat.ltb k 2 then Reply 503 None else Reply 200 (Some (PDict [])).
Definition ex_down_net (k : nat) (url : pyval) : outcome := Reply 503 None.
Definition ex_state : fstate := {| clock := 0; slept := 0; files := ex_fs |}.

(** A remote API serving a finite sequence of pages: page [i] is at URL
    [nth i urls], lists the rows [nth i pages], and its [next] is the URL
    of page [i + 1], or [null] for the last page. Other URLs get 404. *)
Definition url_at (urls : list string) (i : nat) : pyval :=
  match nth_error urls i with Some u => PStr u | None => PNone end.

Definition page_body (rows : list pyval) (next : pyval) : pyval :=
  dict [("results", PList rows); ("next", next)].

Fixpoint chain_lookup (u : string) (urls : list string) (pages : list (list pyval))
  : option pyval :=
  match urls, pages with
  | v :: vs, p :: ps =>
      if String.eqb u v then
        Some (page_body p (match vs with [] => PNone | v' :: _ => PStr v' end))
      else chain_lookup u vs ps
  | _, _ => None
  end.

Definition chain_net (urls : list string) (pages : list (list pyval)) (k : nat) (url : pyval)
  : outcome :=
  match url with
  | PStr u => match chain_lookup u urls pages with
              | Some body => Reply 200 (Some body)
              | None => Reply 404 None
              end
  | _ => Transport
  end.

(** Number of leading pages needed to collect [need] rows: pages are
    taken until the rows collected reach [need], or the pages run out. *)
Fixpoint pages_needed (need : Z) (pages : list (list pyval)) : nat :=
  match pages with
  | [] => O
  | p :: ps => if need <=? Z.of_nat (List.length p) then 1%nat
               else S (pages_needed (need - Z.of_nat (List.length p)) ps)
  end.

(** Clock advanced by [n] requests. *)
Definition after_requests (s : fstate) (n : nat) : fstate :=
  {| clock := (clock s + n)%nat; slept := slept s; files := files s |}.

(** A two-page table at the default configuration. *)
Definition ex_base : string := "https://api.baserow.io".
Definition ex_url0 : string := "https://api.baserow.io/api/database/rows/table/813469/?size=100".
Definition ex_url1 : string :=
  "https://api.baserow.io/api/database/rows/table/813469/?page=2&size=100".
Definition ex_pages : list (list pyval) := [[PInt 1; PInt 2]; [PInt 3]].

(** The reference [r] and the row [t] carry equal ids (as dict keys). *)
Definition same_id (r t : pyval) : Prop :=
  exists rid tid k, subscript r "id" = Ok rid /\ subscript t "id" = Ok tid /\
                    hash_key rid = Ok k /\ hash_key tid = Ok k.

(** Every entry of an id index built from [rows] maps a key to a row of
    [rows] whose ['id'] is that key. *)
Definition index_of_rows (rows : list pyval) (by_id : list (pyval * pyval)) : Prop :=
  forall k' v, In (k', v) by_id ->
    In v rows /\ exists tid hk, subscript v "id" = Ok tid /\ hash_key tid = Ok hk /\
                               stored_key k' = Some hk.

(** Raw tools with duplicated tag names: once with two colors, once
    without colors. *)
Definition ex_tool_dup_colors : pyval :=
  dict [("id", PInt 10); ("UUID", PStr "t1"); ("ToolName", PStr "X");
        ("Tool Tags", PList [dict [("value", PStr "ml"); ("color", PStr "blue")];
                             dict [("value", PStr "ml"); ("color", PStr "red")]])].

(** The color a raw tag attaches to the name [n]: the tag's value is [n]
    and it has a ['color'] key. *)
Definition tag_color_of (t : pyval) (n : string) : option pyval :=
  match subscript t "value" with
  | Ok (PStr m) =>
      if String.eqb m n then
        match py_contains_key t "color" with
        | Ok true => match subscript t "color" with Ok c => Some c | Raise _ => None end
        | _ => None
        end
      else None
  | _ => None
  end.

(** Within one tool's tag list, the color of the last colored occurrence
    of [n]. *)
Fixpoint tool_tag_color (ts : list pyval) (n : string) : option pyval :=
  match ts with
  | [] => None
  | t :: rest =>
      match tool_tag_color rest n with Some c => Some c | None => tag_color_of t n end
  end.


(** Dicts keyed by strings, without repeated keys. *)
Definition str_keys (d : list (pyval * pyval)) : Prop :=
  Forall (fun k => exists s, k = PStr s) (map fst d).

Definition tag_dict_ok (d : list (pyval * pyval)) : Prop :=
  str_keys d /\ NoDup (map fst d).




Definition ex_web_tools : list pyval :=
  Eval cbv in
    match create_web_tools (PList [ex_tool_dup_colors; ex_tool]) [] with
    | Ok (PList l) => l
    | _ => []
    end.

(** A company row without its ['UUID'], and snapshots holding it. *)
Definition ex_company_nouuid : pyval :=
  dict [("id", PInt 1); ("Company Name", PStr "Acme");
        ("Tools", PList [dict [("id", PInt 10)]])].
Definition ex_load_nouuid (s : string) : res pyval :=
  if String.eqb s "C" then Ok (PList [ex_company_nouuid]) else ex_load s.

(** Networks that answer every request with 404, and every request
    with a 200 response whose body is not JSON. *)
Definition ex_404_net (k : nat) (url : pyval) : outcome := Reply 404 None.
Definition ex_nonjson_net (k : nat) (url : pyval) : outcome := Reply 200 None.

(** The last row of [rows] whose ['id'] has key [k]. *)
Fixpoint last_with_id (rows : list pyval) (k : pykey) : option pyval :=
  match rows with
  | [] => None
  | r :: rest =>
      match last_with_id rest k with
      | Some t => Some t
      | None =>
          match subscript r "id" with
          | Ok rid => match hash_key rid with Ok k' => if key_eqb k k' then Some r else None
                                         | Raise _ => None end
          | Raise _ => None
          end
      end
  end.

(** The artifacts of a run on one company and one tool. *)
Definition ex_artifacts : artifacts :=
  Eval cbv in
    match process (PList [ex_company]) (PList [ex_tool]) with
    | Ok a => a
    | Raise _ => Build_artifacts PNone PNone PNone PNone PNone
    end.

(** Shape of the characters [utf8_chars] produces: a first byte followed
    by continuation bytes; every character but the first of a string
    starts with a byte that is not a continuation byte. *)
Fixpoint all_cont (s : string) : bool :=
  match s with EmptyString => true | String c rest => is_continuation c && all_cont rest end.

Definition group_ok (ch : string) : bool :=
  match ch with EmptyString => false | String _ rest => all_cont rest end.

Definition head_ok (ch : string) : bool :=
  match ch with EmptyString => false | String c _ => negb (is_continuation c) end.

(** [ch] is left unchanged by [str.lower()], whatever its context. *)
Definition lower_fixed (ch : string) : bool :=
  negb (utf8_decode ch =? 931) &&
  match to_lower_full (utf8_decode ch) with Some _ => false | None => true end.

(** A code point that a lowercase mapping may produce: a well-formed
    character that lowering leaves unchanged. *)
Definition lower_out_ok (cp : Z) : bool :=
  let ch := utf8_encode cp in group_ok ch && head_ok ch && lower_fixed ch.

(** [lower_out_ok] for the images of the first [k] members of a run. *)
Fixpoint check_run (start step delta : Z) (k : nat) : bool :=
  match k with
  | O => true
  | S k' => lower_out_ok (start + Z.of_nat k' * step + delta) && check_run start step delta k'
  end.

Definition runs_ok (runs : list (Z * Z * Z * Z)) : bool :=
  forallb (fun '(start, count, step, delta) =>
             (0 <? step) && (1 <=? count) && check_run start step delta (Z.to_nat count)) runs.

(** The value a raw row gives for the field [k], or [d] when the row has
    no such key. *)
Definition field_or (kv : list (pyval * pyval)) (k : string) (d : pyval) : pyval :=
  match dict_lookup kv (KStr k) with Some v => v | None => d end.

(** A fetcher step changes the file system at most at the paths [ps]. *)
Definition writes_only {A} (ps : list string) (m : M A) : Prop :=
  forall s p, ~ In p ps -> files (snd (m s)) p = files s p.

(** The output files of a run over [tables]. *)
Definition table_paths (out : string) (tables : list (string * Z)) : list string :=
  map (fun t => output_path out (fst t)) tables.

(** * Properties *)

(** ** Denormalizer runs *)

Lemma write_outputs_other D fs a q :
  ~ In q output_files -> write_outputs D fs a q = fs q.
Proof.
  intros Hq. unfold write_outputs, write_file.
  repeat match goal with |- context [String.eqb q ?p] =>
    destruct (String.eqb_spec q p) as [->|_]; [exfalso; apply Hq; simpl; tauto|] end.
  reflexivity.
Qed.

Lemma write_outputs_twice D fs a q :
  write_outputs D (write_outputs D fs a) a q = write_outputs D fs a q.
Proof.
  unfold write_outputs, write_file.
  repeat match goal with |- context [String.eqb q ?p] => destruct (String.eqb q p) end;
  reflexivity.
Qed.

Lemma write_outputs_on_outputs D fs1 fs2 a q :
  In q output_files -> write_outputs D fs1 a q = write_outputs D fs2 a q.
Proof.
  intros Hq. unfold write_outputs, write_file.
  simpl in Hq.
  repeat match goal with |- context [String.eqb q ?p] =>
    destruct (String.eqb_spec q p) as [_|?]; [reflexivity|] end.
  exfalso; intuition.
Qed.

Lemma snapshot_not_output n :
  In n ["companies.json"; "tools.json"; "libraries.json"] ->
  ~ In (snapshot_path n) output_files.
Proof.
  intros Hn Hin. simpl in Hn, Hin.
  destruct Hn as [<-|[<-|[<-|[]]]];
  repeat (destruct Hin as [Hin|Hin]; [discriminate Hin|]); exact Hin.
Qed.

Lemma load_snapshots_write_outputs L D fs a :
  load_snapshots L (write_outputs D fs a) = load_snapshots L fs.
Proof.
  unfold load_snapshots, read_json.
  rewrite !write_outputs_other by (apply snapshot_not_output; simpl; tauto).
  reflexivity.
Qed.

(** C9: running the Denormalizer on the file system it has just produced
    reads the same snapshots and rewrites every file with the same
    bytes: the second run leaves every file, in particular every output
    file, byte-identical. *)
Theorem denormalizer_idempotent (json_load : string -> res pyval)
    (json_dump : pyval -> string) (fs fs1 : filesystem)
    (Hrun : denormalizer_main json_load json_dump fs = Ok fs1) :
  exists fs2, denormalizer_main json_load json_dump fs1 = Ok fs2 /\
              forall p, fs2 p = fs1 p.
Proof.
  unfold denormalizer_main in *.
  destruct (load_snapshots json_load fs) as [[[c t] l]|e] eqn:Hl; [|discriminate].
  simpl in Hrun.
  destruct (process c t) as [a|e] eqn:Hp; [|discriminate].
  simpl in Hrun. injection Hrun as <-.
  rewrite load_snapshots_write_outputs, Hl. simpl. rewrite Hp. simpl.
  eexists; split; [reflexivity|].
  intros p. apply write_outputs_twice.
Qed.

Lemma denormalizer_idempotent_witness :
  exists fs1 fs2, denormalizer_main ex_load ex_dump ex_fs = Ok fs1 /\
    denormalizer_main ex_load ex_dump fs1 = Ok fs2 /\ forall p, fs2 p = fs1 p.
Proof.
  eexists.
  assert (H : denormalizer_main ex_load ex_dump ex_fs =
              Ok (write_outputs ex_dump ex_fs
                    (match process (PList [ex_company]) (PList [ex_tool]) with
                     | Ok a => a | Raise _ => Build_artifacts PNone PNone PNone PNone PNone end)))
    by (vm_compute; reflexivity).
  destruct (denormalizer_idempotent ex_load ex_dump ex_fs _ H) as [fs2 [H2 H3]].
  exists fs2. split; [exact H|]. split; [exact H2|exact H3].
Defined.

(** C10: two runs on file systems that differ only in the bytes of the
    libraries snapshot, each of which loads as JSON, give the same result:
    both raise the same exception, or both succeed and write the same
    contents to every output file. *)
Theorem libraries_snapshot_irrelevant (json_load : string -> res pyval)
    (json_dump : pyval -> string) (fs1 fs2 : filesystem) (s1 s2 : string)
    (v1 v2 : pyval)
    (Hother : forall p, p <> snapshot_path "libraries.json" -> fs1 p = fs2 p)
    (Hl1 : fs1 (snapshot_path "libraries.json") = Some s1)
    (Hl2 : fs2 (snapshot_path "libraries.json") = Some s2)
    (Hj1 : json_load s1 = Ok v1) (Hj2 : json_load s2 = Ok v2) :
  outputs_of (denormalizer_main json_load json_dump fs1) =
  outputs_of (denormalizer_main json_load json_dump fs2).
Proof.
  unfold denormalizer_main, load_snapshots.
  assert (Hc : read_json json_load fs1 (snapshot_path "companies.json") =
               read_json json_load fs2 (snapshot_path "companies.json"))
    by (unfold read_json; rewrite Hother by discriminate; reflexivity).
  assert (Ht : read_json json_load fs1 (snapshot_path "tools.json") =
               read_json json_load fs2 (snapshot_path "tools.json"))
    by (unfold read_json; rewrite Hother by discriminate; reflexivity).
  assert (Hr1 : read_json json_load fs1 (snapshot_path "libraries.json") = Ok v1)
    by (unfold read_json; rewrite Hl1; exact Hj1).
  assert (Hr2 : read_json json_load fs2 (snapshot_path "libraries.json") = Ok v2)
    by (unfold read_json; rewrite Hl2; exact Hj2).
  rewrite Hc, Ht, Hr1, Hr2.
  destruct (read_json json_load fs2 (snapshot_path "companies.json")) as [c|e]; [|reflexivity].
  destruct (read_json json_load fs2 (snapshot_path "tools.json")) as [t|e]; [|reflexivity].
  cbn [res_bind]. destruct (process c t) as [a|e]; [|reflexivity].
  cbn [res_bind outputs_of]. apply (f_equal Ok). apply map_ext_in. intros q Hq.
  apply write_outputs_on_outputs; exact Hq.
Qed.

Lemma libraries_snapshot_irrelevant_witness :
  outputs_of (denormalizer_main ex_load ex_dump ex_fs) =
  outputs_of (denormalizer_main ex_load ex_dump ex_fs_lib2).
Proof.
  apply (libraries_snapshot_irrelevant ex_load ex_dump ex_fs ex_fs_lib2 "L" "L2"
           (PList []) (PList [dict [("id", PInt 5)]])).
  - intros p Hp. unfold ex_fs_lib2.
    destruct (String.eqb_spec p (snapshot_path "libraries.json")); [contradiction|reflexivity].
  - reflexivity.
  - reflexivity.
  - reflexivity.
  - reflexivity.
Defined.

(** ** Generic facts on the error monad *)

Lemma map_res_Forall2 {A B} (f : A -> res B) (P : A -> B -> Prop) (l : list A) :
  Forall (fun x => exists y, f x = Ok y /\ P x y) l ->
  exists ys, map_res f l = Ok ys /\ Forall2 P l ys.
Proof.
  induction 1 as [|x l [y [Hy HP]] _ [ys [Hys HF]]].
  - exists []; split; [reflexivity|constructor].
  - exists (y :: ys). simpl. rewrite Hy. simpl. rewrite Hys. split; [reflexivity|].
    constructor; assumption.
Qed.

Lemma Forall2_length {A B} (P : A -> B -> Prop) l1 l2 :
  Forall2 P l1 l2 -> List.length l1 = List.length l2.
Proof. induction 1; simpl; congruence. Qed.

Lemma py_join_space_strs (l : list pyval) :
  Forall (fun x => exists s, x = PStr s) l -> exists s, py_join_space (PList l) = Ok s.
Proof.
  intros H. unfold py_join_space. simpl.
  destruct (map_res_Forall2 (fun x => match x with PStr s => Ok s | _ => Raise TypeError end)
              (fun _ _ => True) l) as [ys [Hys _]].
  - eapply Forall_impl; [|exact H]. intros x [s ->]. exists s. split; [reflexivity|exact I].
  - rewrite Hys. eexists; reflexivity.
Qed.

(** ** Search index *)

Lemma company_index_entry_ok c :
  web_company_shaped c ->
  exists e, company_index_entry c = Ok e /\ index_entry_of "company" c e.
Proof.
  intros [[i Hi] [[n Hn] [[u Hu] [tc Htc]]]].
  unfold company_index_entry. rewrite Hi, Hn, Hu, Htc. simpl.
  eexists; split; [reflexivity|].
  unfold index_entry_of. simpl. rewrite Hi, Hn. repeat split.
Qed.

Lemma tool_index_entry_ok t :
  web_tool_shaped t ->
  exists e, tool_index_entry t = Ok e /\ index_entry_of "tool" t e.
Proof.
  intros [[i Hi] [[n Hn] [[u Hu] [[tags [Htags Hstr]] [cs [Hcs Hnames]]]]]].
  unfold tool_index_entry. rewrite Htags.
  destruct (py_join_space_strs tags Hstr) as [tt Htt]. cbn [res_bind]. rewrite Htt.
  cbn [res_bind]. rewrite Hcs. cbn [res_bind py_iter].
  destruct (map_res_Forall2 (fun c => subscript c "name") (fun _ y => exists s, y = PStr s) cs)
    as [names [Hnm HF]].
  { eapply Forall_impl; [|exact Hnames]. intros c [s Hs]. exists (PStr s). eauto. }
  rewrite Hnm. cbn [res_bind].
  destruct (py_join_space_strs names) as [ct Hct].
  { clear -HF. induction HF; constructor; assumption. }
  rewrite Hct. cbn [res_bind]. rewrite Hi, Hn, Hu. simpl.
  eexists; split; [reflexivity|].
  unfold index_entry_of. simpl. rewrite Hi, Hn. repeat split.
Qed.

(** C8: on enriched company and tool lists, the search index has exactly
    one entry per company, in input order, followed by exactly one entry
    per tool, in input order. *)
Theorem search_index_order (cs ts : list pyval)
    (Hc : Forall web_company_shaped cs) (Ht : Forall web_tool_shaped ts) :
  exists idx,
    create_search_index (PList cs) (PList ts) = Ok (PList idx) /\
    List.length idx = (List.length cs + List.length ts)%nat /\
    Forall2 (index_entry_of "company") cs (firstn (List.length cs) idx) /\
    Forall2 (index_entry_of "tool") ts (skipn (List.length cs) idx).
Proof.
  destruct (map_res_Forall2 company_index_entry (index_entry_of "company") cs) as [ce [Hce HFc]].
  { eapply Forall_impl; [|exact Hc]. exact company_index_entry_ok. }
  destruct (map_res_Forall2 tool_index_entry (index_entry_of "tool") ts) as [te [Hte HFt]].
  { eapply Forall_impl; [|exact Ht]. exact tool_index_entry_ok. }
  exists (ce ++ te). unfold create_search_index. simpl. rewrite Hce. simpl. rewrite Hte. simpl.
  pose proof (Forall2_length _ _ _ HFc) as Lc. pose proof (Forall2_length _ _ _ HFt) as Lt.
  split; [reflexivity|]. split; [rewrite length_app; lia|].
  rewrite Lc, firstn_app, Nat.sub_diag, firstn_all, skipn_app, skipn_all, Nat.sub_diag.
  simpl. rewrite app_nil_r. split; assumption.
Qed.

Lemma search_index_order_witness :
  exists idx,
    create_search_index
      (PList [dict [("id", PStr "c1"); ("name", PStr "Acme"); ("url", PStr "");
                    ("tool_count", PInt 1)]])
      (PList [dict [("id", PStr "t1"); ("name", PStr "X"); ("url", PStr "");
                    ("tags", PList [PStr "ml"]);
                    ("companies", PList [dict [("name", PStr "Acme")]])]]) = Ok (PList idx) /\
    List.length idx = 2%nat /\
    Forall2 (index_entry_of "company")
      [dict [("id", PStr "c1"); ("name", PStr "Acme"); ("url", PStr ""); ("tool_count", PInt 1)]]
      (firstn 1 idx) /\
    Forall2 (index_entry_of "tool")
      [dict [("id", PStr "t1"); ("name", PStr "X"); ("url", PStr "");
             ("tags", PList [PStr "ml"]); ("companies", PList [dict [("name", PStr "Acme")]])]]
      (skipn 1 idx).
Proof.
  apply search_index_order.
  - constructor; [|constructor].
    repeat split; eexists; reflexivity.
  - constructor; [|constructor].
    repeat split; try (eexists; reflexivity).
    + eexists; split; [reflexivity|]. repeat constructor. eexists; reflexivity.
    + eexists; split; [reflexivity|]. repeat constructor. eexists; reflexivity.
Defined.

(** ** Retry policy *)

Lemma retryable_not_200 st : retryable st = true -> (st =? 200) = false.
Proof. intros H. destruct (Z.eqb_spec st 200); [subst; discriminate H|reflexivity]. Qed.

Lemma retry_step net url i rest resp s :
  (i < 2)%nat -> retryable_outcome (net (clock s) url) ->
  exists resp', retry_loop net url (i :: rest) resp s =
                retry_loop net url rest resp' (after_request s (nth i RETRY_DELAYS 0)).
Proof.
  intros Hi [Ho|[st [b [Ho Hr]]]]; simpl; unfold mbind, http_get; rewrite Ho.
  - destruct i as [|[|i]]; [| |lia]; simpl; eexists; reflexivity.
  - rewrite (retryable_not_200 _ Hr), Hr.
    destruct i as [|[|i]]; [| |lia]; simpl; eexists; reflexivity.
Qed.

Lemma retry_last net url rest resp s :
  retryable_outcome (net (clock s) url) ->
  retry_loop net url (2%nat :: rest) resp s = (Raise (SystemExit 1), after_request s 0).
Proof.
  intros [Ho|[st [b [Ho Hr]]]]; simpl; unfold mbind, http_get; rewrite Ho.
  - unfold after_request. rewrite Z.add_0_r. reflexivity.
  - rewrite (retryable_not_200 _ Hr), Hr. unfold after_request. rewrite Z.add_0_r. reflexivity.
Qed.

Lemma retry_success net url i rest resp s b :
  net (clock s) url = Reply 200 b ->
  retry_loop net url (i :: rest) resp s = (Ok (Some (200, b)), after_request s 0).
Proof.
  intros Ho. simpl. unfold mbind, http_get. rewrite Ho. simpl.
  unfold after_request. rewrite Z.add_0_r. reflexivity.
Qed.

(** C4: for one page request, [N < 3] consecutive retryable responses
    followed by a 200 end in success after [N + 1] requests, having slept
    the sum of the first [N] delays of [1, 2, 4]; when the first three
    responses are all retryable the loop exits fatally ([sys.exit(1)])
    after exactly three requests. *)
Theorem retry_budget (net : nat -> pyval -> outcome) (url : pyval) (s : fstate) :
  (forall (N : nat) (b : option pyval),
     (N < 3)%nat ->
     (forall i, (i < N)%nat -> retryable_outcome (net (clock s + i)%nat url)) ->
     net (clock s + N)%nat url = Reply 200 b ->
     retry_loop net url (seq 0 MAX_RETRIES) None s =
       (Ok (Some (200, b)),
        {| clock := (clock s + S N)%nat;
           slept := slept s + fold_right Z.add 0 (firstn N RETRY_DELAYS);
           files := files s |})) /\
  ((forall i, (i < MAX_RETRIES)%nat -> retryable_outcome (net (clock s + i)%nat url)) ->
   retry_loop net url (seq 0 MAX_RETRIES) None s =
     (Raise (SystemExit 1),
      {| clock := (clock s + MAX_RETRIES)%nat; slept := slept s + 3; files := files s |})).
Proof.
  destruct s as [c sl f]. cbn [clock slept files].
  change (seq 0 MAX_RETRIES) with [0; 1; 2]%nat. split.
  - intros N b HN Hr Hok.
    destruct N as [|[|[|N]]]; [| | |lia].
    + rewrite retry_success with (b := b) by (rewrite <- Hok; simpl; f_equal; lia).
      unfold after_request; simpl. f_equal. f_equal; simpl; try lia; ring.
    + destruct (retry_step net url 0 [1;2]%nat None {| clock := c; slept := sl; files := f |})
        as [r1 E1]; [lia|simpl; rewrite <- (Nat.add_0_r c); apply Hr; lia|].
      rewrite E1. rewrite retry_success with (b := b) by (rewrite <- Hok; simpl; f_equal; lia).
      unfold after_request; simpl. f_equal. f_equal; simpl; try lia; ring.
    + destruct (retry_step net url 0 [1;2]%nat None {| clock := c; slept := sl; files := f |})
        as [r1 E1]; [lia|simpl; rewrite <- (Nat.add_0_r c); apply Hr; lia|].
      rewrite E1.
      destruct (retry_step net url 1 [2]%nat r1 (after_request {| clock := c; slept := sl; files := f |} (nth 0 RETRY_DELAYS 0)))
        as [r2 E2]; [lia|simpl; rewrite <- Nat.add_1_r; apply Hr; lia|].
      rewrite E2. rewrite retry_success with (b := b) by (rewrite <- Hok; simpl; f_equal; lia).
      unfold after_request; simpl. f_equal. f_equal; simpl; try lia; ring.
  - intros Hr.
    destruct (retry_step net url 0 [1;2]%nat None {| clock := c; slept := sl; files := f |})
      as [r1 E1]; [lia|simpl; rewrite <- (Nat.add_0_r c); apply Hr; unfold MAX_RETRIES; lia|].
    rewrite E1.
    destruct (retry_step net url 1 [2]%nat r1 (after_request {| clock := c; slept := sl; files := f |} (nth 0 RETRY_DELAYS 0)))
      as [r2 E2]; [lia|simpl; rewrite <- Nat.add_1_r; apply Hr; unfold MAX_RETRIES; lia|].
    rewrite E2. rewrite retry_last.
    + unfold after_request; simpl. f_equal. f_equal; simpl; unfold MAX_RETRIES; try lia; ring.
    + simpl. replace (S (S c)) with (c + 2)%nat by lia. apply Hr. unfold MAX_RETRIES; lia.
Qed.

Lemma retry_budget_witness :
  retry_loop ex_flaky_net (PStr "u") (seq 0 MAX_RETRIES) None ex_state =
    (Ok (Some (200, Some (PDict []))),
     {| clock := 3; slept := 0 + fold_right Z.add 0 (firstn 2 RETRY_DELAYS); files := ex_fs |}) /\
  retry_loop ex_down_net (PStr "u") (seq 0 MAX_RETRIES) None ex_state =
    (Raise (SystemExit 1), {| clock := 3; slept := 0 + 3; files := ex_fs |}).
Proof.
  split.
  - apply (proj1 (retry_budget ex_flaky_net (PStr "u") ex_state) 2%nat (Some (PDict []))).
    + lia.
    + intros i Hi. right. exists 503, None. unfold ex_flaky_net.
      simpl. destruct i as [|[|i]]; [split; reflexivity|split; reflexivity|lia].
    + reflexivity.
  - apply (proj2 (retry_budget ex_down_net (PStr "u") ex_state)).
    intros i Hi. right. exists 503, None. split; reflexivity.
Defined.

(** ** Pagination *)

Lemma chain_lookup_nth urls pages k :
  NoDup urls -> List.length urls = List.length pages -> (k < List.length urls)%nat ->
  chain_lookup (nth k urls "") urls pages =
    Some (page_body (nth k pages []) (url_at urls (S k))).
Proof.
  revert pages k. induction urls as [|v vs IH]; intros pages k Hnd Hlen Hk; [simpl in Hk; lia|].
  destruct pages as [|p ps]; [discriminate Hlen|].
  inversion Hnd as [|? ? Hv Hnd']; subst.
  destruct k as [|k].
  - simpl. rewrite String.eqb_refl. unfold url_at. simpl. destruct vs; reflexivity.
  - simpl. simpl in Hk, Hlen.
    destruct (String.eqb_spec (nth k vs "") v) as [E|_].
    + exfalso. apply Hv. rewrite <- E. apply nth_In. lia.
    + rewrite IH by (assumption || lia). reflexivity.
Qed.

Lemma url_at_nth urls k :
  (k < List.length urls)%nat -> url_at urls k = PStr (nth k urls "").
Proof.
  intros Hk. unfold url_at. destruct (nth_error urls k) eqn:E.
  - rewrite (nth_error_nth _ _ _ E). reflexivity.
  - apply nth_error_None in E. lia.
Qed.

Lemma url_at_end urls k : (List.length urls <= k)%nat -> url_at urls k = PNone.
Proof. intros Hk. unfold url_at. rewrite (proj2 (nth_error_None urls k) Hk). reflexivity. Qed.

Lemma skipn_cons_nth {A} (l : list A) k d :
  (k < List.length l)%nat -> skipn k l = nth k l d :: skipn (S k) l.
Proof.
  revert k. induction l as [|x l IH]; intros k Hk; [simpl in Hk; lia|].
  destruct k; [reflexivity|]. simpl. apply IH. simpl in Hk. lia.
Qed.

(** One page request on the chained API: the 200 response of page [k]. *)
Lemma chain_fetch_page urls pages k s :
  NoDup urls -> List.length urls = List.length pages -> Forall (fun u => u <> "") urls ->
  (k < List.length urls)%nat ->
  retry_loop (chain_net urls pages) (url_at urls k) (seq 0 MAX_RETRIES) None s =
    (Ok (Some (200, Some (page_body (nth k pages []) (url_at urls (S k))))), after_request s 0).
Proof.
  intros Hnd Hlen Hne Hk.
  apply retry_success. rewrite url_at_nth by exact Hk. simpl.
  rewrite chain_lookup_nth by assumption. reflexivity.
Qed.

Lemma truthy_url urls k :
  Forall (fun u => u <> "") urls -> (k < List.length urls)%nat -> truthy (url_at urls k) = true.
Proof.
  intros Hne Hk. rewrite url_at_nth by exact Hk. simpl.
  destruct (String.eqb_spec (nth k urls "") "") as [E|_]; [|reflexivity].
  exfalso. rewrite Forall_forall in Hne. apply (Hne (nth k urls "")); [apply nth_In; lia|exact E].
Qed.

Lemma after_requests_0 s : after_requests s 0 = s.
Proof. destruct s; unfold after_requests; simpl; rewrite Nat.add_0_r; reflexivity. Qed.

Lemma after_requests_S s n : after_requests (after_request s 0) n = after_requests s (S n).
Proof. destruct s; unfold after_requests, after_request; simpl; f_equal; lia. Qed.

Lemma page_loop_chain_nolimit urls pages :
  NoDup urls -> List.length urls = List.length pages -> Forall (fun u => u <> "") urls ->
  (forall j, (S j < List.length pages)%nat -> nth j pages [] <> []) ->
  forall m k acc s fuel,
    (k + m)%nat = List.length urls -> (m < fuel)%nat ->
    page_loop (chain_net urls pages) fuel None (url_at urls k) acc s =
      (Ok (Some (acc ++ concat (skipn k pages))), after_requests s m).
Proof.
  intros Hnd Hlen Hne Hfull m. induction m as [|m IH]; intros k acc s fuel Hkm Hf;
    destruct fuel as [|fuel]; try lia.
  - rewrite Nat.add_0_r in Hkm. simpl.
    rewrite url_at_end by lia. simpl.
    rewrite skipn_all2 by lia. rewrite app_nil_r, after_requests_0. reflexivity.
  - assert (Hk : (k < List.length urls)%nat) by lia.
    rewrite (skipn_cons_nth pages k []) by lia.
    remember (skipn (S k) pages) as rest eqn:Er.
    cbn [page_loop]. rewrite (truthy_url urls k Hne Hk). cbn [negb].
    unfold mbind at 1. rewrite chain_fetch_page by assumption.
    remember (nth k pages []) as p eqn:Ep.
    remember (url_at urls (S k)) as nxt eqn:En. simpl.
    destruct p as [|r rs].
    + unfold mbind, mlift, mret. simpl. assert (Hm : m = 0%nat).
      { destruct (Nat.eq_dec m 0) as [|Hm]; [assumption|].
        exfalso. apply (Hfull k); [lia|symmetry; exact Ep]. }
      subst m. rewrite Er, skipn_all2 by lia. simpl. rewrite !app_nil_r.
      rewrite <- after_requests_S, after_requests_0. reflexivity.
    + unfold mbind, mlift, mret. simpl. subst nxt rest. rewrite IH by lia. rewrite after_requests_S, <- app_assoc. reflexivity.
Qed.

Lemma firstn_all_small {A} (l : list A) z :
  Z.of_nat (List.length l) < z -> firstn (Z.to_nat z) l = l.
Proof. intros H. apply firstn_all2. lia. Qed.

Lemma page_loop_chain_limit urls pages z :
  NoDup urls -> List.length urls = List.length pages -> Forall (fun u => u <> "") urls ->
  (forall j, (S j < List.length pages)%nat -> nth j pages [] <> []) -> 0 < z ->
  forall m k acc s fuel,
    (k + m)%nat = List.length urls -> (m < fuel)%nat -> Z.of_nat (List.length acc) < z ->
    page_loop (chain_net urls pages) fuel (Some z) (url_at urls k) acc s =
      (Ok (Some (firstn (Z.to_nat z) (acc ++ concat (skipn k pages)))),
       after_requests s (pages_needed (z - Z.of_nat (List.length acc)) (skipn k pages))).
Proof.
  intros Hnd Hlen Hne Hfull Hz m. induction m as [|m IH]; intros k acc s fuel Hkm Hf Hacc;
    destruct fuel as [|fuel]; try lia.
  - rewrite Nat.add_0_r in Hkm. simpl.
    rewrite url_at_end by lia. simpl.
    rewrite skipn_all2 by lia. simpl. rewrite app_nil_r, after_requests_0.
    rewrite firstn_all_small by exact Hacc. reflexivity.
  - assert (Hk : (k < List.length urls)%nat) by lia.
    rewrite (skipn_cons_nth pages k []) by lia.
    remember (skipn (S k) pages) as rest eqn:Er.
    cbn [page_loop]. rewrite (truthy_url urls k Hne Hk). cbn [negb].
    unfold mbind at 1. rewrite chain_fetch_page by assumption.
    remember (nth k pages []) as p eqn:Ep.
    remember (url_at urls (S k)) as nxt eqn:En. simpl.
    destruct p as [|r rs].
    + unfold mbind, mlift, mret. simpl. assert (Hm : m = 0%nat).
      { destruct (Nat.eq_dec m 0) as [|Hm]; [assumption|].
        exfalso. apply (Hfull k); [lia|symmetry; exact Ep]. }
      subst m. rewrite Er, skipn_all2 by lia. simpl. rewrite !app_nil_r.
      rewrite firstn_all_small by exact Hacc.
      replace (z - Z.of_nat (List.length acc) <=? 0) with false by lia.
      rewrite <- after_requests_S, after_requests_0. reflexivity.
    + unfold mbind, mlift, mret. simpl. unfold limit_reached.
      replace (negb (z =? 0)) with true by lia. simpl.
      destruct (Z.leb_spec z (Z.of_nat (List.length (acc ++ r :: rs)))) as [Hle|Hgt].
      * rewrite length_app in Hle. simpl in Hle. rewrite Zpos_P_of_succ_nat.
        rewrite (proj2 (Z.leb_le (z - Z.of_nat (List.length acc)) (Z.succ (Z.of_nat (List.length rs)))))
          by lia.
        rewrite <- after_requests_S, after_requests_0.
        unfold py_slice_to. rewrite (proj2 (Z.leb_le 0 z)) by lia.
        replace (acc ++ r :: rs ++ concat rest) with ((acc ++ r :: rs) ++ concat rest)
          by (rewrite <- app_assoc; reflexivity).
        rewrite (firstn_app (Z.to_nat z) (acc ++ r :: rs)).
        replace (Z.to_nat z - List.length (acc ++ r :: rs))%nat with 0%nat
          by (rewrite length_app; simpl; lia).
        rewrite firstn_O, app_nil_r. reflexivity.
      * subst nxt rest. rewrite IH by lia.
        rewrite <- app_assoc. simpl.
        rewrite length_app in Hgt. simpl in Hgt. rewrite Zpos_P_of_succ_nat.
        rewrite (proj2 (Z.leb_gt (z - Z.of_nat (List.length acc)) (Z.succ (Z.of_nat (List.length rs)))))
          by lia.
        rewrite after_requests_S. do 4 f_equal.
        rewrite length_app. simpl. lia.
Qed.

(** C5: on an API serving a finite sequence of distinct, non-empty page
    URLs in which every page but possibly the last is non-empty, the loop
    that follows [next] exits within [length pages + 1] iterations, after
    one request per page, and returns the rows of all pages concatenated
    in order, each exactly once. *)
Theorem pagination_complete (urls : list string) (pages : list (list pyval))
    (base : string) (size table_id : Z) (fuel : nat) (s : fstate)
    (Hnd : NoDup urls) (Hlen : List.length urls = List.length pages)
    (Hne : Forall (fun u => u <> "") urls)
    (Hfirst : url_at urls 0 = initial_url base size table_id)
    (Hfull : forall j, (S j < List.length pages)%nat -> nth j pages [] <> [])
    (Hfuel : (List.length pages < fuel)%nat) :
  fetch_table_with_pagination (chain_net urls pages) base size fuel table_id None s =
    (Ok (Some (concat pages)), after_requests s (List.length pages)).
Proof.
  unfold fetch_table_with_pagination. rewrite <- Hfirst.
  rewrite (page_loop_chain_nolimit urls pages Hnd Hlen Hne Hfull (List.length pages) 0 [] s fuel)
    by lia.
  reflexivity.
Qed.

Lemma pagination_complete_witness :
  fetch_table_with_pagination (chain_net [ex_url0; ex_url1] ex_pages) ex_base 100 3 813469 None
    ex_state = (Ok (Some (concat ex_pages)), after_requests ex_state 2).
Proof.
  apply pagination_complete.
  - repeat constructor; simpl; intuition discriminate.
  - reflexivity.
  - repeat constructor; discriminate.
  - reflexivity.
  - intros j Hj. destruct j; [discriminate|simpl in Hj; lia].
  - simpl; lia.
Defined.

Lemma pages_needed_min need pages :
  0 < need ->
  Z.of_nat (List.length (concat (firstn (pred (pages_needed need pages)) pages))) < need.
Proof.
  revert need. induction pages as [|p ps IH]; intros need Hn; simpl; [lia|].
  destruct (Z.leb_spec need (Z.of_nat (List.length p))) as [_|Hgt]; simpl; [lia|].
  specialize (IH (need - Z.of_nat (List.length p)) ltac:(lia)).
  destruct (pages_needed (need - Z.of_nat (List.length p)) ps) as [|j] eqn:E; simpl; [lia|].
  simpl in IH. rewrite length_app. lia.
Qed.

Lemma pages_needed_enough need pages :
  pages_needed need pages = List.length pages \/
  need <= Z.of_nat (List.length (concat (firstn (pages_needed need pages) pages))).
Proof.
  revert need. induction pages as [|p ps IH]; intros need; simpl; [left; reflexivity|].
  destruct (Z.leb_spec need (Z.of_nat (List.length p))) as [Hle|_]; simpl.
  - destruct ps; [left; reflexivity|]. right. rewrite app_nil_r. exact Hle.
  - destruct (IH (need - Z.of_nat (List.length p))) as [E|E]; [left; lia|right].
    simpl. rewrite length_app. lia.
Qed.

Lemma mbind_ext {A B} (m : M A) (k1 k2 : A -> M B) s :
  (forall a s', k1 a s' = k2 a s') -> mbind m k1 s = mbind m k2 s.
Proof. intros H. unfold mbind. destruct (m s) as [[a|e] s1]; [apply H|reflexivity]. Qed.

(** The loop reads a limit of 0 as no limit ([if limit and ...]). *)
Lemma page_loop_limit0 net fuel url rows s :
  page_loop net fuel (Some 0) url rows s = page_loop net fuel None url rows s.
Proof.
  revert url rows s. induction fuel as [|fuel IH]; intros url rows s; cbn [page_loop]; [reflexivity|].
  destruct (negb (truthy url)); [reflexivity|].
  apply mbind_ext; intros resp s1. apply mbind_ext; intros data s2.
  apply mbind_ext; intros rv s3. destruct (negb (truthy rv)); [reflexivity|].
  apply mbind_ext; intros rs s4. cbn [limit_reached Z.eqb negb andb].
  apply mbind_ext; intros nx s5. apply IH.
Qed.

(** C6 (counterexample): a row limit of 0 is set and exceeded by a page of
    two rows, yet the fetcher keeps both rows ([if limit and ...] reads 0
    as no limit). *)
Lemma row_limit_zero_not_truncated :
  fetch_table_with_pagination (chain_net [ex_url0] [[PInt 1; PInt 2]]) ex_base 100 2 813469
    (Some 0) ex_state = (Ok (Some [PInt 1; PInt 2]), after_requests ex_state 1).
Proof. vm_compute. reflexivity. Qed.

(** C6 (amended): with no limit, the driver's [process_table] writes to
    [{table_name}.json] exactly the rows of all followed pages, and
    records their number; with a positive limit [z], the fetcher returns
    the first [z] of those rows (all of them when there are fewer) after
    requesting only [pages_needed z pages] pages: the pages that precede
    the last one requested hold fewer than [z] rows, and the pages
    requested hold at least [z] rows unless they are all the pages.  A
    limit of 0 is treated as no limit: for any remote, fetching with
    limit 0 behaves as fetching with no limit, and on the chain it
    returns all the rows after one request per page. *)
Theorem rows_written_match_pages (urls : list string) (pages : list (list pyval))
    (json_dump : pyval -> string) (base out_dir table_name : string) (size table_id : Z)
    (fuel : nat) (s : fstate)
    (Hnd : NoDup urls) (Hlen : List.length urls = List.length pages)
    (Hne : Forall (fun u => u <> "") urls)
    (Hfirst : url_at urls 0 = initial_url base size table_id)
    (Hfull : forall j, (S j < List.length pages)%nat -> nth j pages [] <> [])
    (Hfuel : (List.length pages < fuel)%nat) :
  process_table (chain_net urls pages) json_dump base size out_dir fuel table_name table_id s =
    (Ok (Some (Success (Z.of_nat (List.length (concat pages))))),
     {| clock := (clock s + List.length pages)%nat; slept := slept s;
        files := write_file (files s) (output_path out_dir table_name)
                   (json_dump (PList (concat pages))) |}) /\
  (forall z, 0 < z ->
     fetch_table_with_pagination (chain_net urls pages) base size fuel table_id (Some z) s =
       (Ok (Some (firstn (Z.to_nat z) (concat pages))), after_requests s (pages_needed z pages)) /\
     Z.of_nat (List.length (concat (firstn (pred (pages_needed z pages)) pages))) < z /\
     (pages_needed z pages = List.length pages \/
      z <= Z.of_nat (List.length (concat (firstn (pages_needed z pages) pages))))) /\
  (forall net s',
     fetch_table_with_pagination net base size fuel table_id (Some 0) s' =
     fetch_table_with_pagination net base size fuel table_id None s') /\
  fetch_table_with_pagination (chain_net urls pages) base size fuel table_id (Some 0) s =
    (Ok (Some (concat pages)), after_requests s (List.length pages)).
Proof.
  split; [|split; [|split]].
  - unfold process_table, try_except, mbind at 1.
    unfold fetch_table_with_pagination. rewrite <- Hfirst.
    rewrite (page_loop_chain_nolimit urls pages Hnd Hlen Hne Hfull (List.length pages) 0 [] s fuel)
      by lia.
    reflexivity.
  - intros z Hz. split; [|split; [apply pages_needed_min; exact Hz|apply pages_needed_enough]].
    unfold fetch_table_with_pagination. rewrite <- Hfirst.
    rewrite (page_loop_chain_limit urls pages z Hnd Hlen Hne Hfull Hz (List.length pages) 0 [] s fuel)
      by (simpl; lia).
    simpl. rewrite Z.sub_0_r. reflexivity.
  - intros net s'. unfold fetch_table_with_pagination. apply page_loop_limit0.
  - unfold fetch_table_with_pagination. rewrite page_loop_limit0, <- Hfirst.
    exact (page_loop_chain_nolimit urls pages Hnd Hlen Hne Hfull (List.length pages) 0 [] s fuel
             ltac:(lia) Hfuel).
Qed.

Lemma rows_written_match_pages_witness :
  process_table (chain_net [ex_url0; ex_url1] ex_pages) ex_dump ex_base 100 "data/snapshots" 3
    "companies" 813469 ex_state =
    (Ok (Some (Success 3)),
     {| clock := 2; slept := 0;
        files := write_file ex_fs (output_path "data/snapshots" "companies")
                   (ex_dump (PList (concat ex_pages))) |}) /\
  (forall z, 0 < z ->
     fetch_table_with_pagination (chain_net [ex_url0; ex_url1] ex_pages) ex_base 100 3 813469
       (Some z) ex_state =
       (Ok (Some (firstn (Z.to_nat z) (concat ex_pages))),
        after_requests ex_state (pages_needed z ex_pages)) /\
     Z.of_nat (List.length (concat (firstn (pred (pages_needed z ex_pages)) ex_pages))) < z /\
     (pages_needed z ex_pages = List.length ex_pages \/
      z <= Z.of_nat (List.length (concat (firstn (pages_needed z ex_pages) ex_pages))))) /\
  (forall net s',
     fetch_table_with_pagination net ex_base 100 3 813469 (Some 0) s' =
     fetch_table_with_pagination net ex_base 100 3 813469 None s') /\
  fetch_table_with_pagination (chain_net [ex_url0; ex_url1] ex_pages) ex_base 100 3 813469
    (Some 0) ex_state =
    (Ok (Some (concat ex_pages)), after_requests ex_state (List.length ex_pages)).
Proof.
  apply (rows_written_match_pages [ex_url0; ex_url1] ex_pages ex_dump ex_base "data/snapshots"
           "companies" 100 813469 3 ex_state).
  - repeat constructor; simpl; intuition discriminate.
  - reflexivity.
  - repeat constructor; discriminate.
  - reflexivity.
  - intros j Hj. destruct j; [discriminate|simpl in Hj; lia].
  - simpl; lia.
Defined.

(** ** Reference resolution *)

Lemma key_eqb_true a b : key_eqb a b = true -> a = b.
Proof.
  destruct a, b; simpl; try discriminate; auto.
  - intros H. apply Z.eqb_eq in H. subst. reflexivity.
  - intros H. apply String.eqb_eq in H. subst. reflexivity.
Qed.

Lemma key_matches_stored k k' : key_matches k k' = true -> stored_key k' = Some k.
Proof.
  unfold key_matches. destruct (stored_key k') as [k''|]; [|discriminate].
  intros H. apply key_eqb_true in H. subst. reflexivity.
Qed.

Lemma dict_lookup_in kv k v :
  dict_lookup kv k = Some v -> exists k', In (k', v) kv /\ key_matches k k' = true.
Proof.
  induction kv as [|[k' v'] kv IH]; simpl; [discriminate|].
  destruct (key_matches k k') eqn:E.
  - intros H. injection H as <-. exists k'. split; [left; reflexivity|exact E].
  - intros H. destruct (IH H) as [k'' [Hin Hm]]. exists k''. split; [right; exact Hin|exact Hm].
Qed.

Lemma dict_replace_in kv k v0 k' v :
  In (k', v) (dict_replace kv k v0) -> In (k', v) kv \/ (v = v0 /\ key_matches k k' = true).
Proof.
  induction kv as [|[a b] kv IH]; simpl; [tauto|].
  destruct (key_matches k a) eqn:E; simpl.
  - intros [H|H]; [injection H as <- <-; right; split; [reflexivity|exact E]|left; right; exact H].
  - intros [H|H]; [left; left; exact H|]. destruct (IH H) as [H'|H']; [left; right; exact H'|right; exact H'].
Qed.

Lemma index_by_id_loop_inv rows rs acc by_id :
  incl rs rows -> index_of_rows rows acc ->
  index_by_id_loop rs acc = Ok by_id -> index_of_rows rows by_id.
Proof.
  revert acc. induction rs as [|r rs IH]; intros acc Hincl Hacc H; simpl in H.
  - injection H as <-. exact Hacc.
  - destruct (subscript r "id") as [rid|e] eqn:Hrid; [|discriminate]. simpl in H.
    unfold dict_set in H. destruct (hash_key rid) as [hk|e] eqn:Hk; [|discriminate]. simpl in H.
    destruct (dict_lookup acc hk) eqn:Hl; simpl in H;
      (eapply (IH _ (proj2 (incl_cons_inv Hincl))); [|exact H]); intros k' v Hin.
    + destruct (dict_replace_in _ _ _ _ _ Hin) as [Hin'|[-> Hm]]; [exact (Hacc _ _ Hin')|].
      split; [apply Hincl; left; reflexivity|].
      exists rid, hk. split; [exact Hrid|]. split; [exact Hk|]. apply key_matches_stored. exact Hm.
    + apply in_app_or in Hin. destruct Hin as [Hin|[Hin|[]]]; [exact (Hacc _ _ Hin)|].
      injection Hin as <- <-. split; [apply Hincl; left; reflexivity|].
      exists rid, hk. split; [exact Hrid|]. split; [exact Hk|].
      unfold stored_key. rewrite Hk. reflexivity.
Qed.

Lemma index_by_id_inv (rows : list pyval) by_id :
  index_by_id (PList rows) = Ok by_id -> index_of_rows rows by_id.
Proof.
  intros H. apply (index_by_id_loop_inv rows rows []); [apply incl_refl| |exact H].
  intros k' v [].
Qed.

Lemma resolve_refs_cons summary by_id r refs es :
  resolve_refs summary by_id (r :: refs) = Ok es ->
  exists rid row here there,
    subscript r "id" = Ok rid /\ dict_get by_id rid PNone = Ok row /\
    (if truthy row then (e <- summary row ;; Ok [e]) else Ok []) = Ok here /\
    resolve_refs summary by_id refs = Ok there /\ es = here ++ there.
Proof.
  intros H. cbn [resolve_refs] in H.
  destruct (subscript r "id") as [rid|x] eqn:E1; cbn [res_bind] in H; [|discriminate H].
  destruct (dict_get by_id rid PNone) as [row|x] eqn:E2; cbn [res_bind] in H; [|discriminate H].
  destruct (if truthy row then _ else _) as [here|x] eqn:Eh; cbn [res_bind] in H; [|discriminate H].
  destruct (resolve_refs summary by_id refs) as [there|x] eqn:E3; cbn [res_bind] in H; [|discriminate H].
  injection H as <-. exists rid, row, here, there. repeat split; assumption.
Qed.

Lemma dict_get_index rows by_id rid hk row :
  index_of_rows rows by_id -> hash_key rid = Ok hk -> dict_get by_id rid PNone = Ok row ->
  row = PNone \/ (In row rows /\ exists tid, subscript row "id" = Ok tid /\ hash_key tid = Ok hk).
Proof.
  intros Hinv Hk H. unfold dict_get in H. rewrite Hk in H. cbn [res_bind] in H.
  destruct (dict_lookup by_id hk) as [v|] eqn:Hl; injection H as <-; [right|left; reflexivity].
  destruct (dict_lookup_in _ _ _ Hl) as [k' [Hin Hm]].
  destruct (Hinv _ _ Hin) as [Hrow [tid [hk' [Htid [Hhk' Hst]]]]].
  rewrite (key_matches_stored _ _ Hm) in Hst. injection Hst as ->.
  split; [exact Hrow|]. exists tid. split; assumption.
Qed.

Lemma resolve_refs_sound summary rows by_id :
  index_of_rows rows by_id ->
  forall refs es, resolve_refs summary by_id refs = Ok es ->
  forall e, In e es -> exists r t, In r refs /\ In t rows /\ same_id r t /\ summary t = Ok e.
Proof.
  intros Hinv refs. induction refs as [|r refs IH]; intros es H e He.
  - simpl in H. injection H as <-. destruct He.
  - destruct (resolve_refs_cons _ _ _ _ _ H) as [rid [row [here [there [Hrid [Hg [Hh [Ht ->]]]]]]]].
    apply in_app_or in He. destruct He as [He|He].
    + unfold dict_get in Hg. destruct (hash_key rid) as [hk|x] eqn:Hk; [|discriminate Hg].
      assert (Hg' : dict_get by_id rid PNone = Ok row) by (unfold dict_get; rewrite Hk; exact Hg).
      destruct (dict_get_index rows by_id rid hk row Hinv Hk Hg') as [->|[Hrow [tid [Htid Htk]]]].
      * simpl in Hh. injection Hh as <-. destruct He.
      * destruct (truthy row); [|injection Hh as <-; destruct He].
        destruct (summary row) as [e0|x] eqn:Hs; cbn [res_bind] in Hh; [|discriminate Hh].
        injection Hh as <-. destruct He as [<-|[]].
        exists r, row. split; [left; reflexivity|]. split; [exact Hrow|].
        split; [exists rid, tid, hk; auto|exact Hs].
    + destruct (IH there Ht e He) as [r' [t [Hr Hrest]]].
      exists r', t. split; [right; exact Hr|exact Hrest].
Qed.

Lemma resolve_refs_dangling summary rows by_id r rid k :
  index_of_rows rows by_id ->
  subscript r "id" = Ok rid -> hash_key rid = Ok k ->
  (forall t, In t rows -> ~ same_id r t) ->
  forall refs1 refs2,
    resolve_refs summary by_id (refs1 ++ r :: refs2) = resolve_refs summary by_id (refs1 ++ refs2).
Proof.
  intros Hinv Hrid Hk Hnone refs1 refs2.
  induction refs1 as [|r1 refs1 IH]; simpl.
  - rewrite Hrid. simpl. unfold dict_get. rewrite Hk. simpl.
    destruct (dict_lookup by_id k) as [v|] eqn:Hl.
    + exfalso. destruct (dict_lookup_in _ _ _ Hl) as [k' [Hin Hm]].
      destruct (Hinv _ _ Hin) as [Hrow [tid [hk' [Htid [Hhk' Hst]]]]].
      rewrite (key_matches_stored _ _ Hm) in Hst. injection Hst as ->.
      apply (Hnone v Hrow). exists rid, tid, hk'. auto.
    + simpl. destruct (resolve_refs summary by_id refs2); reflexivity.
  - rewrite IH. reflexivity.
Qed.

Lemma web_company_tools tools_by_id company wc :
  web_company tools_by_id company = Ok wc ->
  exists trefs refs ets,
    py_get company "Tools" (PList []) = Ok trefs /\ py_iter trefs = Ok refs /\
    resolve_refs company_tool_summary tools_by_id refs = Ok ets /\
    subscript wc "tools" = Ok (PList ets) /\
    subscript wc "tool_count" = Ok (PInt (Z.of_nat (List.length ets))).
Proof.
  unfold web_company. intros H.
  destruct (py_get company "Tools" (PList [])) as [trefs|x] eqn:E1; cbn [res_bind] in H; [|discriminate H].
  destruct (py_iter trefs) as [refs|x] eqn:E2; cbn [res_bind] in H; [|discriminate H].
  destruct (resolve_refs company_tool_summary tools_by_id refs) as [ets|x] eqn:E3;
    cbn [res_bind] in H; [|discriminate H].
  destruct (subscript company "UUID") as [u|x]; cbn [res_bind] in H; [|discriminate H].
  destruct (subscript company "Company Name") as [n|x]; cbn [res_bind] in H; [|discriminate H].
  destruct (py_get company "URL" (PStr "")) as [url|x]; cbn [res_bind] in H; [|discriminate H].
  destruct (py_get company "Notes" (PStr "")) as [no|x]; cbn [res_bind] in H; [|discriminate H].
  injection H as <-. exists trefs, refs, ets. repeat split; assumption.
Qed.

Lemma web_tool_companies companies_by_id tool wt :
  web_tool companies_by_id tool = Ok wt ->
  exists crefs refs ecs,
    py_get tool "ToolCompany" (PList []) = Ok crefs /\ py_iter crefs = Ok refs /\
    resolve_refs tool_company_summary companies_by_id refs = Ok ecs /\
    subscript wt "companies" = Ok (PList ecs).
Proof.
  unfold web_tool. intros H.
  destruct (py_get tool "ToolCompany" (PList [])) as [crefs|x] eqn:E1; cbn [res_bind] in H; [|discriminate H].
  destruct (py_iter crefs) as [refs|x] eqn:E2; cbn [res_bind] in H; [|discriminate H].
  destruct (resolve_refs tool_company_summary companies_by_id refs) as [ecs|x] eqn:E3;
    cbn [res_bind] in H; [|discriminate H].
  exists crefs, refs, ecs. do 3 (split; [first [reflexivity|assumption]|]).
  destruct (py_get tool "Tool Tags" (PList [])) as [tt|x]; cbn [res_bind] in H; [|discriminate H].
  destruct (py_iter tt) as [ts|x]; cbn [res_bind] in H; [|discriminate H].
  destruct (tag_loop ts [] []) as [[tags tcs]|x]; cbn [res_bind] in H; [|discriminate H].
  destruct (subscript tool "UUID") as [u|x]; cbn [res_bind] in H; [|discriminate H].
  destruct (subscript tool "ToolName") as [n|x]; cbn [res_bind] in H; [|discriminate H].
  destruct (py_get tool "Tool Description Short" (PStr "")) as [a|x]; cbn [res_bind] in H; [|discriminate H].
  destruct (py_get tool "ToolDescription_long" (PStr "")) as [b|x]; cbn [res_bind] in H; [|discriminate H].
  destruct (py_get tool "Overall Rating" (PStr "0")) as [c|x]; cbn [res_bind] in H; [|discriminate H].
  destruct (py_get tool "Annual License Cost" PNone) as [d|x]; cbn [res_bind] in H; [|discriminate H].
  destruct (py_get tool "URL" (PStr "")) as [f|x]; cbn [res_bind] in H; [|discriminate H].
  destruct (py_get tool "Last modified" (PStr "")) as [g|x]; cbn [res_bind] in H; [|discriminate H].
  injection H as <-. reflexivity.
Qed.

(** C7: every tool embedded in a web company comes from a reference of
    the company and a row of the tools snapshot with the same id, and the
    company's [tool_count] counts exactly these entries; symmetrically for
    the companies embedded in a web tool.  A reference (a dict with a
    hashable ['id']) whose id matches no row of the opposite snapshot
    contributes nothing: removing it from the reference list leaves the
    result, entries and errors alike, unchanged. *)
Theorem reference_resolution (tools companies : list pyval) tools_by_id companies_by_id
    (Ht : index_by_id (PList tools) = Ok tools_by_id)
    (Hc : index_by_id (PList companies) = Ok companies_by_id) :
  (forall company wc, web_company tools_by_id company = Ok wc ->
     exists trefs refs ets,
       py_get company "Tools" (PList []) = Ok trefs /\ py_iter trefs = Ok refs /\
       subscript wc "tools" = Ok (PList ets) /\
       subscript wc "tool_count" = Ok (PInt (Z.of_nat (List.length ets))) /\
       forall e, In e ets -> exists r t, In r refs /\ In t tools /\ same_id r t /\
                                        company_tool_summary t = Ok e) /\
  (forall tool wt, web_tool companies_by_id tool = Ok wt ->
     exists crefs refs ecs,
       py_get tool "ToolCompany" (PList []) = Ok crefs /\ py_iter crefs = Ok refs /\
       subscript wt "companies" = Ok (PList ecs) /\
       forall e, In e ecs -> exists r c, In r refs /\ In c companies /\ same_id r c /\
                                        tool_company_summary c = Ok e) /\
  (forall r rid k refs1 refs2,
     subscript r "id" = Ok rid -> hash_key rid = Ok k ->
     ((forall t, In t tools -> ~ same_id r t) ->
      resolve_refs company_tool_summary tools_by_id (refs1 ++ r :: refs2) =
      resolve_refs company_tool_summary tools_by_id (refs1 ++ refs2)) /\
     ((forall c, In c companies -> ~ same_id r c) ->
      resolve_refs tool_company_summary companies_by_id (refs1 ++ r :: refs2) =
      resolve_refs tool_company_summary companies_by_id (refs1 ++ refs2))).
Proof.
  pose proof (index_by_id_inv _ _ Ht) as It. pose proof (index_by_id_inv _ _ Hc) as Ic.
  split; [|split].
  - intros company wc H.
    destruct (web_company_tools _ _ _ H) as [trefs [refs [ets [E1 [E2 [E3 [E4 E5]]]]]]].
    exists trefs, refs, ets. do 4 (split; [assumption|]).
    exact (resolve_refs_sound _ _ _ It _ _ E3).
  - intros tool wt H.
    destruct (web_tool_companies _ _ _ H) as [crefs [refs [ecs [E1 [E2 [E3 E4]]]]]].
    exists crefs, refs, ecs. do 3 (split; [assumption|]).
    exact (resolve_refs_sound _ _ _ Ic _ _ E3).
  - intros r rid k refs1 refs2 Hrid Hk. split; intros Hnone.
    + exact (resolve_refs_dangling _ _ _ _ _ _ It Hrid Hk Hnone refs1 refs2).
    + exact (resolve_refs_dangling _ _ _ _ _ _ Ic Hrid Hk Hnone refs1 refs2).
Qed.

Lemma reference_resolution_witness :
  index_by_id (PList [ex_tool]) = Ok [(PInt 10, ex_tool)] /\
  index_by_id (PList [ex_company]) = Ok [(PInt 1, ex_company)] /\
  ((forall company wc, web_company [(PInt 10, ex_tool)] company = Ok wc ->
     exists trefs refs ets,
       py_get company "Tools" (PList []) = Ok trefs /\ py_iter trefs = Ok refs /\
       subscript wc "tools" = Ok (PList ets) /\
       subscript wc "tool_count" = Ok (PInt (Z.of_nat (List.length ets))) /\
       forall e, In e ets -> exists r t, In r refs /\ In t [ex_tool] /\ same_id r t /\
                                        company_tool_summary t = Ok e) /\
  (forall tool wt, web_tool [(PInt 1, ex_company)] tool = Ok wt ->
     exists crefs refs ecs,
       py_get tool "ToolCompany" (PList []) = Ok crefs /\ py_iter crefs = Ok refs /\
       subscript wt "companies" = Ok (PList ecs) /\
       forall e, In e ecs -> exists r c, In r refs /\ In c [ex_company] /\ same_id r c /\
                                        tool_company_summary c = Ok e) /\
  (forall r rid k refs1 refs2,
     subscript r "id" = Ok rid -> hash_key rid = Ok k ->
     ((forall t, In t [ex_tool] -> ~ same_id r t) ->
      resolve_refs company_tool_summary [(PInt 10, ex_tool)] (refs1 ++ r :: refs2) =
      resolve_refs company_tool_summary [(PInt 10, ex_tool)] (refs1 ++ refs2)) /\
     ((forall c, In c [ex_company] -> ~ same_id r c) ->
      resolve_refs tool_company_summary [(PInt 1, ex_company)] (refs1 ++ r :: refs2) =
      resolve_refs tool_company_summary [(PInt 1, ex_company)] (refs1 ++ refs2)))).
Proof.
  split; [vm_compute; reflexivity|]. split; [vm_compute; reflexivity|].
  apply (reference_resolution [ex_tool] [ex_company]); vm_compute; reflexivity.
Defined.

(** A company referencing a tool id absent from the tools snapshot gets an
    empty tool list and [tool_count = 0]. *)
Example dangling_tool_ref_example :
  web_company [(PInt 10, ex_tool)]
    (dict [("UUID", PStr "c9"); ("Company Name", PStr "Nobody");
           ("Tools", PList [dict [("id", PInt 99)]])]) =
  Ok (dict [("id", PStr "c9"); ("name", PStr "Nobody"); ("url", PStr ""); ("notes", PStr "");
            ("tools", PList []); ("tool_count", PInt 0)]).
Proof. vm_compute. reflexivity. Qed.

(** ** Tag catalog *)

Lemma key_matches_KStr n k : key_matches (KStr n) k = true -> k = PStr n.
Proof.
  destruct k; unfold key_matches, stored_key; simpl; try discriminate.
  intros H. apply String.eqb_eq in H. subst. reflexivity.
Qed.

Lemma key_matches_PStr n s : key_matches (KStr n) (PStr s) = String.eqb n s.
Proof. reflexivity. Qed.

Lemma dict_lookup_app d1 d2 k :
  dict_lookup (d1 ++ d2) k =
  match dict_lookup d1 k with Some v => Some v | None => dict_lookup d2 k end.
Proof.
  induction d1 as [|[k' v'] d1 IH]; simpl; [reflexivity|].
  destruct (key_matches k k'); [reflexivity|exact IH].
Qed.

Lemma dict_replace_keys d k v : map fst (dict_replace d k v) = map fst d.
Proof.
  induction d as [|[k' v'] d IH]; simpl; [reflexivity|].
  destruct (key_matches k k'); simpl; [reflexivity|rewrite IH; reflexivity].
Qed.

Lemma dict_lookup_replace d s v n :
  dict_lookup (dict_replace d (KStr s) v) (KStr n) =
  if String.eqb n s then
    match dict_lookup d (KStr s) with Some _ => Some v | None => None end
  else dict_lookup d (KStr n).
Proof.
  induction d as [|[k' v'] d IH]; simpl.
  - destruct (String.eqb n s); reflexivity.
  - destruct (key_matches (KStr s) k') eqn:Es.
    + apply key_matches_KStr in Es. subst k'. simpl. rewrite key_matches_PStr.
      destruct (String.eqb n s); reflexivity.
    + simpl. rewrite IH. destruct (key_matches (KStr n) k') eqn:En.
      * apply key_matches_KStr in En. subst k'.
        destruct (String.eqb n s) eqn:Ens; [|reflexivity].
        apply String.eqb_eq in Ens. subst. rewrite key_matches_PStr, String.eqb_refl in Es. discriminate.
      * destruct (String.eqb n s); reflexivity.
Qed.

Lemma lookup_none_notin d n :
  dict_lookup d (KStr n) = None -> ~ In (PStr n) (map fst d).
Proof.
  induction d as [|[k' v'] d IH]; simpl; [intros _ []|].
  destruct (key_matches (KStr n) k') eqn:E; [discriminate|].
  intros H [Hk|Hin]; [|exact (IH H Hin)].
  subst k'. rewrite key_matches_PStr, String.eqb_refl in E. discriminate.
Qed.


Lemma dict_set_str d s c :
  exists d', dict_set d (PStr s) c = Ok d' /\
    (forall n, dict_lookup d' (KStr n) = if String.eqb n s then Some c else dict_lookup d (KStr n)) /\
    (tag_dict_ok d -> tag_dict_ok d').
Proof.
  unfold dict_set. cbn [hash_key res_bind].
  destruct (dict_lookup d (KStr s)) as [v|] eqn:El.
  - eexists. split; [reflexivity|]. split.
    + intros n. rewrite dict_lookup_replace, El. reflexivity.
    + unfold tag_dict_ok, str_keys. rewrite dict_replace_keys. tauto.
  - eexists. split; [reflexivity|]. split.
    + intros n. rewrite dict_lookup_app. simpl. rewrite key_matches_PStr.
      destruct (String.eqb n s) eqn:E; [|destruct (dict_lookup d (KStr n)); reflexivity].
      apply String.eqb_eq in E. subst. rewrite El. reflexivity.
    + intros [Hs Hnd]. unfold tag_dict_ok, str_keys. rewrite map_app. simpl. split.
      * apply Forall_app. split; [exact Hs|]. constructor; [exists s; reflexivity|constructor].
      * apply NoDup_app; [exact Hnd|constructor; [intros []|constructor]|].
        intros x Hx [<-|[]]. exact (lookup_none_notin _ _ El Hx).
Qed.

Lemma tag_loop_spec ts :
  Forall (fun t => exists m, subscript t "value" = Ok (PStr m)) ts ->
  forall tags tc tags' tc', tag_loop ts tags tc = Ok (tags', tc') -> tag_dict_ok tc ->
  tag_dict_ok tc' /\
  forall n, dict_lookup tc' (KStr n) =
            match tool_tag_color ts n with Some c => Some c | None => dict_lookup tc (KStr n) end.
Proof.
  induction 1 as [|t ts [m Hm] _ IH]; intros tags tc tags' tc' H Hok.
  - cbn [tag_loop] in H. injection H as <- <-. split; [exact Hok|reflexivity].
  - cbn [tag_loop] in H. rewrite Hm in H. cbn [res_bind] in H.
    destruct (py_contains_key t "color") as [b|x] eqn:Eb; cbn [res_bind] in H; [|discriminate H].
    destruct b.
    + destruct (subscript t "color") as [c|x] eqn:Ec; cbn [res_bind] in H; [|discriminate H].
      destruct (dict_set_str tc m c) as [d' [Hd' [Hl Hok']]]. rewrite Hd' in H. cbn [res_bind] in H.
      destruct (IH _ _ _ _ H (Hok' Hok)) as [Hok'' Hl'']. split; [exact Hok''|].
      intros n. rewrite Hl'', Hl. cbn [tool_tag_color].
      destruct (tool_tag_color ts n); [reflexivity|].
      unfold tag_color_of. rewrite Hm, Eb, Ec, (String.eqb_sym n m). destruct (String.eqb m n); reflexivity.
    + destruct (IH _ _ _ _ H Hok) as [Hok'' Hl'']. split; [exact Hok''|].
      intros n. rewrite Hl''. cbn [tool_tag_color].
      destruct (tool_tag_color ts n); [reflexivity|].
      unfold tag_color_of. rewrite Hm, Eb. destruct (String.eqb m n); reflexivity.
Qed.






Lemma map_res_inv {A B} (f : A -> res B) l ys :
  map_res f l = Ok ys -> Forall2 (fun x y => f x = Ok y) l ys.
Proof.
  revert ys. induction l as [|x l IH]; intros ys H; cbn [map_res] in H.
  - injection H as <-. constructor.
  - destruct (f x) as [y|e] eqn:Ey; cbn [res_bind] in H; [|discriminate H].
    destruct (map_res f l) as [ys'|e] eqn:Eys; cbn [res_bind] in H; [|discriminate H].
    injection H as <-. constructor; [exact Ey|exact (IH _ eq_refl)].
Qed.

Lemma web_tool_tags companies_by_id tool wt :
  web_tool companies_by_id tool = Ok wt ->
  exists tt ts tags tc,
    py_get tool "Tool Tags" (PList []) = Ok tt /\ py_iter tt = Ok ts /\
    tag_loop ts [] [] = Ok (tags, tc) /\ py_get wt "tag_colors" (PDict []) = Ok (PDict tc).
Proof.
  unfold web_tool. intros H.
  destruct (py_get tool "ToolCompany" (PList [])) as [crefs|x]; cbn [res_bind] in H; [|discriminate H].
  destruct (py_iter crefs) as [refs|x]; cbn [res_bind] in H; [|discriminate H].
  destruct (resolve_refs tool_company_summary companies_by_id refs) as [ecs|x];
    cbn [res_bind] in H; [|discriminate H].
  destruct (py_get tool "Tool Tags" (PList [])) as [tt|x] eqn:E1; cbn [res_bind] in H; [|discriminate H].
  destruct (py_iter tt) as [ts|x] eqn:E2; cbn [res_bind] in H; [|discriminate H].
  destruct (tag_loop ts [] []) as [[tags tc]|x] eqn:E3; cbn [res_bind] in H; [|discriminate H].
  exists tt, ts, tags, tc. do 3 (split; [first [reflexivity|assumption]|]).
  destruct (subscript tool "UUID") as [u|x]; cbn [res_bind] in H; [|discriminate H].
  destruct (subscript tool "ToolName") as [n|x]; cbn [res_bind] in H; [|discriminate H].
  destruct (py_get tool "Tool Description Short" (PStr "")) as [a|x]; cbn [res_bind] in H; [|discriminate H].
  destruct (py_get tool "ToolDescription_long" (PStr "")) as [b|x]; cbn [res_bind] in H; [|discriminate H].
  destruct (py_get tool "Overall Rating" (PStr "0")) as [c|x]; cbn [res_bind] in H; [|discriminate H].
  destruct (py_get tool "Annual License Cost" PNone) as [d|x]; cbn [res_bind] in H; [|discriminate H].
  destruct (py_get tool "URL" (PStr "")) as [f|x]; cbn [res_bind] in H; [|discriminate H].
  destruct (py_get tool "Last modified" (PStr "")) as [g|x]; cbn [res_bind] in H; [|discriminate H].
  injection H as <-. reflexivity.
Qed.





(** ** Missing fields *)

Lemma web_company_required tools_by_id company wc :
  web_company tools_by_id company = Ok wc ->
  (exists u, subscript company "UUID" = Ok u) /\ (exists n, subscript company "Company Name" = Ok n).
Proof.
  unfold web_company. intros H.
  destruct (py_get company "Tools" (PList [])) as [trefs|x]; cbn [res_bind] in H; [|discriminate H].
  destruct (py_iter trefs) as [refs|x]; cbn [res_bind] in H; [|discriminate H].
  destruct (resolve_refs company_tool_summary tools_by_id refs) as [ets|x];
    cbn [res_bind] in H; [|discriminate H].
  destruct (subscript company "UUID") as [u|x]; cbn [res_bind] in H; [|discriminate H].
  destruct (subscript company "Company Name") as [n|x]; cbn [res_bind] in H; [|discriminate H].
  split; eexists; reflexivity.
Qed.

Lemma web_tool_required companies_by_id tool wt :
  web_tool companies_by_id tool = Ok wt ->
  (exists u, subscript tool "UUID" = Ok u) /\ (exists n, subscript tool "ToolName" = Ok n).
Proof.
  unfold web_tool. intros H.
  destruct (py_get tool "ToolCompany" (PList [])) as [crefs|x]; cbn [res_bind] in H; [|discriminate H].
  destruct (py_iter crefs) as [refs|x]; cbn [res_bind] in H; [|discriminate H].
  destruct (resolve_refs tool_company_summary companies_by_id refs) as [ecs|x];
    cbn [res_bind] in H; [|discriminate H].
  destruct (py_get tool "Tool Tags" (PList [])) as [tt|x]; cbn [res_bind] in H; [|discriminate H].
  destruct (py_iter tt) as [ts|x]; cbn [res_bind] in H; [|discriminate H].
  destruct (tag_loop ts [] []) as [[tags tc]|x]; cbn [res_bind] in H; [|discriminate H].
  destruct (subscript tool "UUID") as [u|x]; cbn [res_bind] in H; [|discriminate H].
  destruct (subscript tool "ToolName") as [n|x]; cbn [res_bind] in H; [|discriminate H].
  split; eexists; reflexivity.
Qed.

Lemma tag_loop_values ts :
  forall tags tc r, tag_loop ts tags tc = Ok r ->
  Forall (fun t => exists m, subscript t "value" = Ok m) ts.
Proof.
  induction ts as [|t ts IH]; intros tags tc r H; [constructor|].
  cbn [tag_loop] in H.
  destruct (subscript t "value") as [m|x] eqn:Em; cbn [res_bind] in H; [|discriminate H].
  constructor; [exists m; exact Em|].
  destruct (py_contains_key t "color") as [b|x]; cbn [res_bind] in H; [|discriminate H].
  destruct b.
  - destruct (subscript t "color") as [c|x]; cbn [res_bind] in H; [|discriminate H].
    destruct (dict_set tc m c) as [d|x]; cbn [res_bind] in H; [|discriminate H].
    exact (IH _ _ _ H).
  - exact (IH _ _ _ H).
Qed.

Lemma resolve_refs_ids summary by_id refs es :
  resolve_refs summary by_id refs = Ok es -> Forall (fun r => exists rid, subscript r "id" = Ok rid) refs.
Proof.
  revert es. induction refs as [|r refs IH]; intros es H; [constructor|].
  destruct (resolve_refs_cons _ _ _ _ _ H) as [rid [row [here [there [Hrid [_ [_ [Ht _]]]]]]]].
  constructor; [exists rid; exact Hrid|exact (IH _ Ht)].
Qed.

Lemma map_res_all {A B} (f : A -> res B) l ys :
  map_res f l = Ok ys -> forall x, In x l -> exists y, f x = Ok y.
Proof.
  intros H. apply map_res_inv in H. induction H as [|x y l ys Hxy _ IH]; intros z Hz.
  - destruct Hz.
  - destruct Hz as [<-|Hz]; [exists y; exact Hxy|exact (IH z Hz)].
Qed.

Lemma py_get_dict kv k d : py_get (PDict kv) k d = Ok (field_or kv k d).
Proof. unfold py_get, dict_get, field_or. cbn [hash_key res_bind]. destruct (dict_lookup kv (KStr k)); reflexivity. Qed.

Lemma web_company_keyerror tools_by_id c refs ets :
  py_get c "Tools" (PList []) = Ok (PList refs) ->
  resolve_refs company_tool_summary tools_by_id refs = Ok ets ->
  (subscript c "UUID" = Raise (KeyError "UUID") ->
   web_company tools_by_id c = Raise (KeyError "UUID")) /\
  (forall u, subscript c "UUID" = Ok u -> subscript c "Company Name" = Raise (KeyError "Company Name") ->
   web_company tools_by_id c = Raise (KeyError "Company Name")).
Proof.
  intros Ht Hr. unfold web_company. rewrite Ht. cbn [res_bind py_iter]. rewrite Hr. cbn [res_bind].
  split.
  - intros Hu. rewrite Hu. reflexivity.
  - intros u Hu Hn. rewrite Hu. cbn [res_bind]. rewrite Hn. reflexivity.
Qed.

Lemma dict_of_subscript_ok t k v : subscript t k = Ok v -> exists kv, t = PDict kv.
Proof. destruct t; cbn [subscript]; try discriminate. intros _. eexists; reflexivity. Qed.

Lemma tag_step_ok t m tags tc :
  subscript t "value" = Ok (PStr m) ->
  exists tags' tc', forall rest,
    tag_loop (t :: rest) tags tc = tag_loop rest tags' tc'.
Proof.
  intros Hm. destruct (dict_of_subscript_ok _ _ _ Hm) as [kv ->].
  cbn [tag_loop]. rewrite Hm. cbn [res_bind py_contains_key].
  destruct (dict_lookup kv (KStr "color")) as [c|] eqn:Ec.
  - cbn [res_bind subscript]. rewrite Ec. cbn [res_bind].
    destruct (dict_set_str tc m c) as [d' [Hd' _]]. rewrite Hd'. cbn [res_bind].
    exists (tags ++ [PStr m]), d'. intros rest. reflexivity.
  - cbn [res_bind]. exists (tags ++ [PStr m]), tc. intros rest. reflexivity.
Qed.

Lemma tag_loop_ok ts :
  Forall (fun t => exists m, subscript t "value" = Ok (PStr m)) ts ->
  forall tags tc, exists r, tag_loop ts tags tc = Ok r.
Proof.
  induction 1 as [|t ts [m Hm] _ IH]; intros tags tc.
  - eexists; reflexivity.
  - destruct (tag_step_ok t m tags tc Hm) as [tags' [tc' E]]. rewrite E. apply IH.
Qed.

Lemma tag_loop_value_keyerror pre tg post :
  Forall (fun t => exists m, subscript t "value" = Ok (PStr m)) pre ->
  subscript tg "value" = Raise (KeyError "value") ->
  forall tags tc, tag_loop (pre ++ tg :: post) tags tc = Raise (KeyError "value").
Proof.
  intros Hpre Htg. induction Hpre as [|t pre [m Hm] _ IH]; intros tags tc.
  - cbn [app tag_loop]. rewrite Htg. reflexivity.
  - cbn [app]. destruct (tag_step_ok t m tags tc Hm) as [tags' [tc' E]]. rewrite E. apply IH.
Qed.

Lemma web_tool_keyerror companies_by_id t refs ecs ts :
  py_get t "ToolCompany" (PList []) = Ok (PList refs) ->
  resolve_refs tool_company_summary companies_by_id refs = Ok ecs ->
  py_get t "Tool Tags" (PList []) = Ok (PList ts) ->
  Forall (fun tg => exists m, subscript tg "value" = Ok (PStr m)) ts ->
  (subscript t "UUID" = Raise (KeyError "UUID") ->
   web_tool companies_by_id t = Raise (KeyError "UUID")) /\
  (forall u, subscript t "UUID" = Ok u -> subscript t "ToolName" = Raise (KeyError "ToolName") ->
   web_tool companies_by_id t = Raise (KeyError "ToolName")).
Proof.
  intros Hc Hr Ht Hv. destruct (tag_loop_ok ts Hv [] []) as [[tags tc] Hl].
  unfold web_tool. rewrite Hc. cbn [res_bind py_iter]. rewrite Hr. cbn [res_bind].
  rewrite Ht. cbn [res_bind py_iter]. rewrite Hl. cbn [res_bind]. split.
  - intros Hu. rewrite Hu. reflexivity.
  - intros u Hu Hn. rewrite Hu. cbn [res_bind]. rewrite Hn. reflexivity.
Qed.

Lemma web_tool_value_keyerror companies_by_id t refs ecs pre tg post :
  py_get t "ToolCompany" (PList []) = Ok (PList refs) ->
  resolve_refs tool_company_summary companies_by_id refs = Ok ecs ->
  py_get t "Tool Tags" (PList []) = Ok (PList (pre ++ tg :: post)) ->
  Forall (fun x => exists m, subscript x "value" = Ok (PStr m)) pre ->
  subscript tg "value" = Raise (KeyError "value") ->
  web_tool companies_by_id t = Raise (KeyError "value").
Proof.
  intros Hc Hr Ht Hpre Htg. unfold web_tool. rewrite Hc. cbn [res_bind py_iter]. rewrite Hr.
  cbn [res_bind]. rewrite Ht. cbn [res_bind py_iter].
  rewrite (tag_loop_value_keyerror pre tg post Hpre Htg). reflexivity.
Qed.

Lemma resolve_refs_id_keyerror summary by_id pre r post es :
  resolve_refs summary by_id pre = Ok es -> subscript r "id" = Raise (KeyError "id") ->
  resolve_refs summary by_id (pre ++ r :: post) = Raise (KeyError "id").
Proof.
  intros Hpre Hr. revert es Hpre. induction pre as [|x pre IH]; intros es Hpre.
  - cbn [app resolve_refs]. rewrite Hr. reflexivity.
  - cbn [app resolve_refs] in Hpre |- *.
    destruct (subscript x "id") as [rid|e]; cbn [res_bind] in Hpre |- *; [|discriminate Hpre].
    destruct (dict_get by_id rid PNone) as [row|e]; cbn [res_bind] in Hpre |- *; [|discriminate Hpre].
    destruct (if truthy row then e <- summary row ;; Ok [e] else Ok []) as [here|e];
      cbn [res_bind] in Hpre |- *; [|discriminate Hpre].
    destruct (resolve_refs summary by_id pre) as [there|e] eqn:E; cbn [res_bind] in Hpre;
      [|discriminate Hpre].
    rewrite (IH there eq_refl). reflexivity.
Qed.

Lemma map_res_app_raise {A B} (f : A -> res B) pre x post ys e :
  map_res f pre = Ok ys -> f x = Raise e -> map_res f (pre ++ x :: post) = Raise e.
Proof.
  revert ys. induction pre as [|y pre IH]; intros ys Hpre Hx.
  - cbn [app map_res]. rewrite Hx. reflexivity.
  - cbn [app map_res] in Hpre |- *.
    destruct (f y) as [z|e'] eqn:Ey; cbn [res_bind] in Hpre |- *; [|discriminate Hpre].
    destruct (map_res f pre) as [zs|e'] eqn:Ez; cbn [res_bind] in Hpre; [|discriminate Hpre].
    rewrite (IH zs eq_refl Hx). reflexivity.
Qed.

Lemma web_company_defaults tools_by_id kv wc :
  web_company tools_by_id (PDict kv) = Ok wc ->
  subscript wc "url" = Ok (field_or kv "URL" (PStr "")) /\
  subscript wc "notes" = Ok (field_or kv "Notes" (PStr "")) /\
  (dict_lookup kv (KStr "Tools") = None ->
   subscript wc "tools" = Ok (PList []) /\ subscript wc "tool_count" = Ok (PInt 0)).
Proof.
  unfold web_company. rewrite !py_get_dict. cbn [res_bind]. intros H.
  destruct (py_iter (field_or kv "Tools" (PList []))) as [refs|x] eqn:Ei; cbn [res_bind] in H;
    [|discriminate H].
  destruct (resolve_refs company_tool_summary tools_by_id refs) as [l|x] eqn:Er;
    cbn [res_bind] in H; [|discriminate H].
  destruct (subscript (PDict kv) "UUID") as [u|x]; cbn [res_bind] in H; [|discriminate H].
  destruct (subscript (PDict kv) "Company Name") as [n|x]; cbn [res_bind] in H; [|discriminate H].
  injection H as <-. split; [reflexivity|split; [reflexivity|]].
  intros Ht. unfold field_or in Ei. rewrite Ht in Ei. injection Ei as <-.
  cbn [resolve_refs] in Er. injection Er as <-. split; reflexivity.
Qed.

Lemma web_tool_defaults companies_by_id kv wt :
  web_tool companies_by_id (PDict kv) = Ok wt ->
  subscript wt "description_short" = Ok (field_or kv "Tool Description Short" (PStr "")) /\
  subscript wt "description_long" = Ok (field_or kv "ToolDescription_long" (PStr "")) /\
  subscript wt "rating" = Ok (field_or kv "Overall Rating" (PStr "0")) /\
  subscript wt "cost" = Ok (field_or kv "Annual License Cost" PNone) /\
  subscript wt "url" = Ok (field_or kv "URL" (PStr "")) /\
  subscript wt "last_modified" = Ok (field_or kv "Last modified" (PStr "")) /\
  (dict_lookup kv (KStr "ToolCompany") = None -> subscript wt "companies" = Ok (PList [])) /\
  (dict_lookup kv (KStr "Tool Tags") = None ->
   subscript wt "tags" = Ok (PList []) /\ subscript wt "tag_colors" = Ok (PDict [])).
Proof.
  unfold web_tool. rewrite !py_get_dict. cbn [res_bind]. intros H.
  destruct (py_iter (field_or kv "ToolCompany" (PList []))) as [refs|x] eqn:Ei;
    cbn [res_bind] in H; [|discriminate H].
  destruct (resolve_refs tool_company_summary companies_by_id refs) as [l|x] eqn:Er;
    cbn [res_bind] in H; [|discriminate H].
  destruct (py_iter (field_or kv "Tool Tags" (PList []))) as [ts|x] eqn:Et;
    cbn [res_bind] in H; [|discriminate H].
  destruct (tag_loop ts [] []) as [[tags tc]|x] eqn:El; cbn [res_bind] in H; [|discriminate H].
  destruct (subscript (PDict kv) "UUID") as [u|x]; cbn [res_bind] in H; [|discriminate H].
  destruct (subscript (PDict kv) "ToolName") as [n|x]; cbn [res_bind] in H; [|discriminate H].
  injection H as <-. do 6 (split; [reflexivity|]). split.
  - intros Hc. unfold field_or in Ei. rewrite Hc in Ei. injection Ei as <-.
    cbn [resolve_refs] in Er. injection Er as <-. reflexivity.
  - intros Ht. unfold field_or in Et. rewrite Ht in Et. injection Et as <-.
    cbn [tag_loop] in El. injection El as <- <-. split; reflexivity.
Qed.

Lemma company_tool_summary_defaults kv e :
  company_tool_summary (PDict kv) = Ok e ->
  subscript e "description_short" = Ok (field_or kv "Tool Description Short" (PStr "")) /\
  subscript e "description_long" = Ok (field_or kv "ToolDescription_long" (PStr "")) /\
  subscript e "rating" = Ok (field_or kv "Overall Rating" (PStr "0")) /\
  subscript e "cost" = Ok (field_or kv "Annual License Cost" PNone) /\
  subscript e "url" = Ok (field_or kv "URL" (PStr "")) /\
  (dict_lookup kv (KStr "Tool Tags") = None -> subscript e "tags" = Ok (PList [])).
Proof.
  unfold company_tool_summary. rewrite !py_get_dict. intros H.
  destruct (subscript (PDict kv) "UUID") as [u|x]; cbn [res_bind] in H; [|discriminate H].
  destruct (subscript (PDict kv) "ToolName") as [n|x]; cbn [res_bind] in H; [|discriminate H].
  destruct (py_iter (field_or kv "Tool Tags" (PList []))) as [ts|x] eqn:Et;
    cbn [res_bind] in H; [|discriminate H].
  destruct (map_res (fun t => subscript t "value") ts) as [tags|x] eqn:Em;
    cbn [res_bind] in H; [|discriminate H].
  injection H as <-. do 5 (split; [reflexivity|]).
  intros Ht. unfold field_or in Et. rewrite Ht in Et. injection Et as <-.
  cbn [map_res] in Em. injection Em as <-. reflexivity.
Qed.

Lemma tool_company_summary_defaults kv e :
  tool_company_summary (PDict kv) = Ok e -> subscript e "url" = Ok (field_or kv "URL" (PStr "")).
Proof.
  unfold tool_company_summary. rewrite !py_get_dict. intros H.
  destruct (subscript (PDict kv) "UUID") as [u|x]; cbn [res_bind] in H; [|discriminate H].
  destruct (subscript (PDict kv) "Company Name") as [n|x]; cbn [res_bind] in H; [|discriminate H].
  injection H as <-. reflexivity.
Qed.

Lemma tool_tag_color_uncolored ts n :
  Forall (fun t => exists m, subscript t "value" = Ok (PStr m)) ts ->
  (forall t, In t ts -> subscript t "value" = Ok (PStr n) -> py_contains_key t "color" = Ok false) ->
  tool_tag_color ts n = None.
Proof.
  induction 1 as [|t ts [m Hm] _ IH]; intros Hn; [reflexivity|].
  cbn [tool_tag_color]. rewrite IH by (intros x Hx; apply Hn; right; exact Hx).
  unfold tag_color_of. rewrite Hm. destruct (String.eqb_spec m n) as [->|_]; [|reflexivity].
  rewrite (Hn t (or_introl eq_refl) Hm). reflexivity.
Qed.

(** C1 (counterexample): a company row without ['UUID'] makes the run
    raise [KeyError 'UUID'] (nothing is written), and a tag without
    ['value'] makes [create_web_tools] raise [KeyError 'value']. *)
Lemma missing_uuid_aborts_run :
  denormalizer_main ex_load_nouuid ex_dump ex_fs = Raise (KeyError "UUID") /\
  create_web_tools
    (PList [dict [("id", PInt 10); ("UUID", PStr "t1"); ("ToolName", PStr "X");
                  ("Tool Tags", PList [dict [("color", PStr "blue")]])]]) [] =
    Raise (KeyError "value").
Proof. split; vm_compute; reflexivity. Qed.

(** C1 (amended): missing optional fields get their defaults, but a
    missing required field is fatal.  A company without ['UUID'] or
    ['Company Name'], a tool without ['UUID'] or ['ToolName'], a tag
    without ['value'] and a reference without ['id'] each make their
    builder raise; [process] does not catch the exception, so the run
    ends with an error and writes nothing.  A company or tool that has
    only its required fields gets [''], ['0'], [None], empty lists and an
    empty color map for the others.  Field by field: each optional field of
    a web company, a web tool, an embedded tool and an embedded company is
    the raw row's value, or its default when the row lacks the key; a
    missing [Tools], [ToolCompany] or [Tool Tags] gives an empty list; a
    tag name none of whose tags has a color gets no color entry.  The
    exception raised is the [KeyError] of the missing key (once the
    preceding steps of the row succeed), and it is the exception with
    which [process] and the whole run end, for the first failing row. *)
Theorem missing_fields_policy :
  (forall tools_by_id company,
     subscript company "UUID" = Raise (KeyError "UUID") \/
     subscript company "Company Name" = Raise (KeyError "Company Name") ->
     forall wc, web_company tools_by_id company <> Ok wc) /\
  (forall companies_by_id tool,
     subscript tool "UUID" = Raise (KeyError "UUID") \/
     subscript tool "ToolName" = Raise (KeyError "ToolName") \/
     (exists tt ts t, py_get tool "Tool Tags" (PList []) = Ok tt /\ py_iter tt = Ok ts /\
                      In t ts /\ subscript t "value" = Raise (KeyError "value")) ->
     forall wt, web_tool companies_by_id tool <> Ok wt) /\
  (forall summary by_id refs r,
     In r refs -> subscript r "id" = Raise (KeyError "id") ->
     forall es, resolve_refs summary by_id refs <> Ok es) /\
  (forall cs tools tools_by_id c,
     index_by_id tools = Ok tools_by_id -> In c cs ->
     (forall wc, web_company tools_by_id c <> Ok wc) ->
     forall a, process (PList cs) tools <> Ok a) /\
  (forall companies ts companies_by_id t,
     index_by_id companies = Ok companies_by_id -> In t ts ->
     (forall wt, web_tool companies_by_id t <> Ok wt) ->
     forall a, process companies (PList ts) <> Ok a) /\
  (forall json_load json_dump fs companies tools libraries,
     load_snapshots json_load fs = Ok (companies, tools, libraries) ->
     (forall a, process companies tools <> Ok a) ->
     forall fs', denormalizer_main json_load json_dump fs <> Ok fs') /\
  (forall tools_by_id kv u n,
     dict_lookup kv (KStr "UUID") = Some u -> dict_lookup kv (KStr "Company Name") = Some n ->
     dict_lookup kv (KStr "Tools") = None -> dict_lookup kv (KStr "URL") = None ->
     dict_lookup kv (KStr "Notes") = None ->
     web_company tools_by_id (PDict kv) =
       Ok (dict [("id", u); ("name", n); ("url", PStr ""); ("notes", PStr "");
                 ("tools", PList []); ("tool_count", PInt 0)])) /\
  (forall companies_by_id kv u n,
     dict_lookup kv (KStr "UUID") = Some u -> dict_lookup kv (KStr "ToolName") = Some n ->
     dict_lookup kv (KStr "ToolCompany") = None -> dict_lookup kv (KStr "Tool Tags") = None ->
     dict_lookup kv (KStr "Tool Description Short") = None ->
     dict_lookup kv (KStr "ToolDescription_long") = None ->
     dict_lookup kv (KStr "Overall Rating") = None ->
     dict_lookup kv (KStr "Annual License Cost") = None ->
     dict_lookup kv (KStr "URL") = None -> dict_lookup kv (KStr "Last modified") = None ->
     web_tool companies_by_id (PDict kv) =
       Ok (dict [("id", u); ("name", n); ("description_short", PStr "");
                 ("description_long", PStr ""); ("tags", PList []); ("tag_colors", PDict []);
                 ("companies", PList []); ("rating", PStr "0"); ("cost", PNone);
                 ("url", PStr ""); ("last_modified", PStr "")])) /\
  (forall tools_by_id c refs ets,
     py_get c "Tools" (PList []) = Ok (PList refs) ->
     resolve_refs company_tool_summary tools_by_id refs = Ok ets ->
     (subscript c "UUID" = Raise (KeyError "UUID") ->
      web_company tools_by_id c = Raise (KeyError "UUID")) /\
     (forall u, subscript c "UUID" = Ok u ->
      subscript c "Company Name" = Raise (KeyError "Company Name") ->
      web_company tools_by_id c = Raise (KeyError "Company Name"))) /\
  (forall companies_by_id t refs ecs ts,
     py_get t "ToolCompany" (PList []) = Ok (PList refs) ->
     resolve_refs tool_company_summary companies_by_id refs = Ok ecs ->
     py_get t "Tool Tags" (PList []) = Ok (PList ts) ->
     Forall (fun tg => exists m, subscript tg "value" = Ok (PStr m)) ts ->
     (subscript t "UUID" = Raise (KeyError "UUID") ->
      web_tool companies_by_id t = Raise (KeyError "UUID")) /\
     (forall u, subscript t "UUID" = Ok u -> subscript t "ToolName" = Raise (KeyError "ToolName") ->
      web_tool companies_by_id t = Raise (KeyError "ToolName"))) /\
  (forall companies_by_id t refs ecs pre tg post,
     py_get t "ToolCompany" (PList []) = Ok (PList refs) ->
     resolve_refs tool_company_summary companies_by_id refs = Ok ecs ->
     py_get t "Tool Tags" (PList []) = Ok (PList (pre ++ tg :: post)) ->
     Forall (fun x => exists m, subscript x "value" = Ok (PStr m)) pre ->
     subscript tg "value" = Raise (KeyError "value") ->
     web_tool companies_by_id t = Raise (KeyError "value")) /\
  (forall summary by_id pre r post es,
     resolve_refs summary by_id pre = Ok es -> subscript r "id" = Raise (KeyError "id") ->
     resolve_refs summary by_id (pre ++ r :: post) = Raise (KeyError "id")) /\
  (forall pre c post tools tools_by_id companies_by_id ws e,
     index_by_id tools = Ok tools_by_id ->
     index_by_id (PList (pre ++ c :: post)) = Ok companies_by_id ->
     map_res (web_company tools_by_id) pre = Ok ws -> web_company tools_by_id c = Raise e ->
     process (PList (pre ++ c :: post)) tools = Raise e) /\
  (forall companies pre t post tools_by_id companies_by_id wcs ws e,
     index_by_id (PList (pre ++ t :: post)) = Ok tools_by_id ->
     index_by_id companies = Ok companies_by_id ->
     create_web_companies companies tools_by_id = Ok wcs ->
     map_res (web_tool companies_by_id) pre = Ok ws -> web_tool companies_by_id t = Raise e ->
     process companies (PList (pre ++ t :: post)) = Raise e) /\
  (forall json_load json_dump fs companies tools libraries e,
     load_snapshots json_load fs = Ok (companies, tools, libraries) ->
     process companies tools = Raise e ->
     denormalizer_main json_load json_dump fs = Raise e) /\
  (forall tools_by_id kv wc,
     web_company tools_by_id (PDict kv) = Ok wc ->
     subscript wc "url" = Ok (field_or kv "URL" (PStr "")) /\
     subscript wc "notes" = Ok (field_or kv "Notes" (PStr "")) /\
     (dict_lookup kv (KStr "Tools") = None ->
      subscript wc "tools" = Ok (PList []) /\ subscript wc "tool_count" = Ok (PInt 0))) /\
  (forall companies_by_id kv wt,
     web_tool companies_by_id (PDict kv) = Ok wt ->
     subscript wt "description_short" = Ok (field_or kv "Tool Description Short" (PStr "")) /\
     subscript wt "description_long" = Ok (field_or kv "ToolDescription_long" (PStr "")) /\
     subscript wt "rating" = Ok (field_or kv "Overall Rating" (PStr "0")) /\
     subscript wt "cost" = Ok (field_or kv "Annual License Cost" PNone) /\
     subscript wt "url" = Ok (field_or kv "URL" (PStr "")) /\
     subscript wt "last_modified" = Ok (field_or kv "Last modified" (PStr "")) /\
     (dict_lookup kv (KStr "ToolCompany") = None -> subscript wt "companies" = Ok (PList [])) /\
     (dict_lookup kv (KStr "Tool Tags") = None ->
      subscript wt "tags" = Ok (PList []) /\ subscript wt "tag_colors" = Ok (PDict []))) /\
  (forall kv e,
     company_tool_summary (PDict kv) = Ok e ->
     subscript e "description_short" = Ok (field_or kv "Tool Description Short" (PStr "")) /\
     subscript e "description_long" = Ok (field_or kv "ToolDescription_long" (PStr "")) /\
     subscript e "rating" = Ok (field_or kv "Overall Rating" (PStr "0")) /\
     subscript e "cost" = Ok (field_or kv "Annual License Cost" PNone) /\
     subscript e "url" = Ok (field_or kv "URL" (PStr "")) /\
     (dict_lookup kv (KStr "Tool Tags") = None -> subscript e "tags" = Ok (PList []))) /\
  (forall kv e,
     tool_company_summary (PDict kv) = Ok e -> subscript e "url" = Ok (field_or kv "URL" (PStr ""))) /\
  (forall companies_by_id tool wt ts n,
     web_tool companies_by_id tool = Ok wt ->
     py_get tool "Tool Tags" (PList []) = Ok (PList ts) ->
     Forall (fun t => exists m, subscript t "value" = Ok (PStr m)) ts ->
     (forall t, In t ts -> subscript t "value" = Ok (PStr n) -> py_contains_key t "color" = Ok false) ->
     exists tc, py_get wt "tag_colors" (PDict []) = Ok (PDict tc) /\ dict_lookup tc (KStr n) = None).
Proof.
  split; [|split; [|split; [|split; [|split; [|split; [|split; [|split; [|split; [|split; [|split; [|split; [|split; [|split; [|split; [|split; [|split; [|split; [|split]]]]]]]]]]]]]]]]]].
  - intros tools_by_id company Hmiss wc H.
    destruct (web_company_required _ _ _ H) as [[u Hu] [n Hn]].
    destruct Hmiss as [E|E]; [rewrite E in Hu|rewrite E in Hn]; discriminate.
  - intros companies_by_id tool Hmiss wt H.
    destruct (web_tool_required _ _ _ H) as [[u Hu] [n Hn]].
    destruct Hmiss as [E|[E|[tt [ts [t [E1 [E2 [Hin Ev]]]]]]]];
      [rewrite E in Hu; discriminate|rewrite E in Hn; discriminate|].
    destruct (web_tool_tags _ _ _ H) as [tt' [ts' [tags [tc [F1 [F2 [F3 _]]]]]]].
    rewrite E1 in F1. injection F1 as <-. rewrite E2 in F2. injection F2 as <-.
    destruct (proj1 (Forall_forall _ _) (tag_loop_values _ _ _ _ F3) t Hin) as [m Hm].
    rewrite Ev in Hm. discriminate.
  - intros summary by_id refs r Hin Hr es H.
    destruct (proj1 (Forall_forall _ _) (resolve_refs_ids _ _ _ _ H) r Hin) as [rid Hrid].
    rewrite Hr in Hrid. discriminate.
  - intros cs tools tools_by_id c Hidx Hin Hc a H. unfold process in H.
    rewrite Hidx in H. cbn [res_bind] in H.
    destruct (index_by_id (PList cs)) as [cbi|x]; cbn [res_bind] in H; [|discriminate H].
    unfold create_web_companies in H. cbn [py_iter res_bind] in H.
    destruct (map_res (web_company tools_by_id) cs) as [out|x] eqn:E; cbn [res_bind] in H;
      [|discriminate H].
    destruct (map_res_all _ _ _ E c Hin) as [wc Hwc]. exact (Hc wc Hwc).
  - intros companies ts companies_by_id t Hidx Hin Ht a H. unfold process in H.
    destruct (index_by_id (PList ts)) as [tbi|x]; cbn [res_bind] in H; [|discriminate H].
    rewrite Hidx in H. cbn [res_bind] in H.
    destruct (create_web_companies companies tbi) as [wcs|x]; cbn [res_bind] in H; [|discriminate H].
    unfold create_web_tools in H. cbn [py_iter res_bind] in H.
    destruct (map_res (web_tool companies_by_id) ts) as [out|x] eqn:E; cbn [res_bind] in H;
      [|discriminate H].
    destruct (map_res_all _ _ _ E t Hin) as [wt Hwt]. exact (Ht wt Hwt).
  - intros json_load json_dump fs companies tools libraries Hload Hp fs' H.
    unfold denormalizer_main in H. rewrite Hload in H. cbn [res_bind] in H.
    destruct (process companies tools) as [a|x] eqn:E; cbn [res_bind] in H; [|discriminate H].
    exact (Hp a eq_refl).
  - intros tools_by_id kv u n Hu Hn Ht Hurl Hno.
    unfold web_company, py_get, dict_get, subscript. cbn [hash_key res_bind].
    rewrite Ht. cbn [py_iter resolve_refs res_bind]. rewrite Hu, Hn, Hurl, Hno. reflexivity.
  - intros companies_by_id kv u n Hu Hn Hc Ht H1 H2 H3 H4 H5 H6.
    unfold web_tool, py_get, dict_get, subscript. cbn [hash_key res_bind].
    rewrite Hc. cbn [py_iter resolve_refs res_bind]. rewrite Ht. cbn [py_iter tag_loop res_bind].
    rewrite Hu, Hn, H1, H2, H3, H4, H5, H6. reflexivity.
  - exact web_company_keyerror.
  - exact web_tool_keyerror.
  - exact web_tool_value_keyerror.
  - exact resolve_refs_id_keyerror.
  - intros pre c post tools tbi cbi ws e Ht Hc Hpre He. unfold process.
    rewrite Ht, Hc. cbn [res_bind]. unfold create_web_companies. cbn [py_iter res_bind].
    rewrite (map_res_app_raise _ pre c post ws e Hpre He). reflexivity.
  - intros companies pre t post tbi cbi wcs ws e Ht Hc Hw Hpre He. unfold process.
    rewrite Ht, Hc. cbn [res_bind]. rewrite Hw. cbn [res_bind].
    unfold create_web_tools. cbn [py_iter res_bind].
    rewrite (map_res_app_raise _ pre t post ws e Hpre He). reflexivity.
  - intros json_load json_dump fs companies tools libraries e Hl Hp.
    unfold denormalizer_main. rewrite Hl. cbn [res_bind]. rewrite Hp. reflexivity.
  - exact web_company_defaults.
  - exact web_tool_defaults.
  - exact company_tool_summary_defaults.
  - exact tool_company_summary_defaults.
  - intros companies_by_id tool wt ts n Hw Hg Hv Hn.
    destruct (web_tool_tags _ _ _ Hw) as [tt [ts' [tags [tc [Htt [Hts [Hl Hc]]]]]]].
    rewrite Hg in Htt. injection Htt as <-. cbn [py_iter] in Hts. injection Hts as <-.
    assert (Hnil : tag_dict_ok []) by (split; constructor).
    destruct (tag_loop_spec ts Hv [] [] tags tc Hl Hnil) as [_ Hlk].
    exists tc. split; [exact Hc|]. rewrite Hlk, (tool_tag_color_uncolored ts n Hv Hn). reflexivity.
Qed.

Lemma missing_fields_policy_witness :
  web_company [] (dict [("UUID", PStr "c2"); ("Company Name", PStr "Solo")]) =
    Ok (dict [("id", PStr "c2"); ("name", PStr "Solo"); ("url", PStr ""); ("notes", PStr "");
              ("tools", PList []); ("tool_count", PInt 0)]) /\
  (forall wc, web_company [] (dict [("Company Name", PStr "Solo")]) <> Ok wc) /\
  web_company [] (dict [("Company Name", PStr "Solo")]) = Raise (KeyError "UUID") /\
  denormalizer_main ex_load_nouuid ex_dump ex_fs = Raise (KeyError "UUID") /\
  (exists tc, py_get (hd PNone ex_web_tools) "tag_colors" (PDict []) = Ok (PDict tc) /\
              dict_lookup tc (KStr "py") = None).
Proof.
  destruct missing_fields_policy as [Hc [_ [_ [_ [_ [_ [Hd [_ [Hk [_ [_ [_ [_ [_ [Hm
    [_ [_ [_ [_ Hn]]]]]]]]]]]]]]]]]]].
  split; [|split; [|split; [|split]]].
  - apply Hd; reflexivity.
  - apply Hc. left. reflexivity.
  - apply (proj1 (Hk [] (dict [("Company Name", PStr "Solo")]) [] [] eq_refl eq_refl)). reflexivity.
  - apply (Hm ex_load_nouuid ex_dump ex_fs (PList [ex_company_nouuid])
             (PList [ex_tool]) (PList [])); vm_compute; reflexivity.
  - apply (Hn [] ex_tool_dup_colors (hd PNone ex_web_tools)
             [dict [("value", PStr "ml"); ("color", PStr "blue")];
              dict [("value", PStr "ml"); ("color", PStr "red")]]).
    + vm_compute. reflexivity.
    + reflexivity.
    + repeat constructor; eexists; reflexivity.
    + intros t [<-|[<-|[]]]; discriminate.
Defined.

(** ** Fatal fetch failures *)

(** C2 (counterexample): with a remote that answers 404, the first table
    ends the whole run with [SystemExit 1] after one request: no other
    table is attempted and no outcome is recorded.  The same holds when
    the retry budget runs out on the first page. *)
Lemma fatal_fetch_ends_run :
  fetcher_main ex_404_net ex_dump "tok" ex_base 100 "data/snapshots" 5 ex_state =
    (Raise (SystemExit 1), {| clock := 1; slept := 0; files := ex_fs |}) /\
  fetcher_main ex_down_net ex_dump "tok" ex_base 100 "data/snapshots" 5 ex_state =
    (Raise (SystemExit 1), {| clock := 3; slept := 3; files := ex_fs |}).
Proof. split; vm_compute; reflexivity. Qed.

(** C2 (amended): a fatal fetch failure (a non-retryable status other
    than 200, or a retryable failure on the last attempt) raises
    [SystemExit 1] out of the page loop; [SystemExit] is not an
    [Exception], so the driver neither records the table nor goes on:
    the run ends with that exit.  Only ordinary exceptions of a table's
    processing are recorded as [Failed] before the driver continues with
    the next table. *)
Theorem fatal_fetch_exits_process :
  (forall net url i rest resp s st b,
     net (clock s) url = Reply st b -> (st =? 200) = false -> retryable st = false ->
     retry_loop net url (i :: rest) resp s = (Raise (SystemExit 1), after_request s 0)) /\
  (forall net url rest resp s,
     retryable_outcome (net (clock s) url) ->
     retry_loop net url (2%nat :: rest) resp s = (Raise (SystemExit 1), after_request s 0)) /\
  (forall net fuel limit url rows s e s',
     truthy url = true ->
     retry_loop net url (seq 0 MAX_RETRIES) None s = (Raise e, s') ->
     page_loop net (S fuel) limit url rows s = (Raise e, s')) /\
  (forall net dump base size out fuel name id rest acc s code s',
     fetch_table_with_pagination net base size fuel id None s = (Raise (SystemExit code), s') ->
     run_tables net dump base size out fuel ((name, id) :: rest) acc s =
       (Raise (SystemExit code), s')) /\
  (forall net dump base size out fuel name id rest acc s e s',
     is_Exception e = true ->
     fetch_table_with_pagination net base size fuel id None s = (Raise e, s') ->
     run_tables net dump base size out fuel ((name, id) :: rest) acc s =
       run_tables net dump base size out fuel rest (acc ++ [(name, Failed e)]) s').
Proof.
  split; [|split; [|split; [|split]]].
  - intros net url i rest resp s st b Ho H200 Hr. simpl. unfold mbind, http_get. rewrite Ho.
    rewrite H200, Hr. unfold after_request. rewrite Z.add_0_r. reflexivity.
  - intros net url rest resp s Ho. exact (retry_last net url rest resp s Ho).
  - intros net fuel limit url rows s e s' Hu H. cbn [page_loop]. rewrite Hu. cbn [negb].
    unfold mbind at 1. rewrite H. reflexivity.
  - intros net dump base size out fuel name id rest acc s code s' H.
    cbn [run_tables]. unfold mbind at 1, process_table, try_except.
    unfold mbind at 1. rewrite H. reflexivity.
  - intros net dump base size out fuel name id rest acc s e s' He H.
    cbn [run_tables]. unfold mbind at 1, process_table, try_except.
    unfold mbind at 1. rewrite H, He. reflexivity.
Qed.

Lemma fatal_fetch_exits_process_witness :
  run_tables ex_404_net ex_dump ex_base 100 "data/snapshots" 5
    [("companies", 813469); ("tools", 813470); ("libraries", 813471)] [] ex_state =
    (Raise (SystemExit 1), after_request ex_state 0) /\
  run_tables ex_nonjson_net ex_dump ex_base 100 "data/snapshots" 5
    [("companies", 813469); ("tools", 813470); ("libraries", 813471)] [] ex_state =
  run_tables ex_nonjson_net ex_dump ex_base 100 "data/snapshots" 5
    [("tools", 813470); ("libraries", 813471)] ([] ++ [("companies", Failed ValueError)])
    (after_request ex_state 0).
Proof.
  destruct fatal_fetch_exits_process as [_ [_ [_ [H4 H5]]]]. split.
  - apply H4. vm_compute. reflexivity.
  - apply H5; [reflexivity|vm_compute; reflexivity].
Defined.

(** * Further properties of the scripts *)

(** ** Id index *)

Lemma key_eqb_refl k : key_eqb k k = true.
Proof. destruct k; simpl; [reflexivity|apply Z.eqb_refl|apply String.eqb_refl]. Qed.

Lemma key_eqb_sym a b : key_eqb a b = key_eqb b a.
Proof. destruct a, b; simpl; try reflexivity; [apply Z.eqb_sym|apply String.eqb_sym]. Qed.

Lemma key_matches_hash k v hk : hash_key v = Ok hk -> key_matches k v = key_eqb k hk.
Proof. intros H. unfold key_matches, stored_key. rewrite H. reflexivity. Qed.

Lemma dict_lookup_replace_gen d hk v k :
  dict_lookup (dict_replace d hk v) k =
  if key_eqb k hk then match dict_lookup d hk with Some _ => Some v | None => None end
  else dict_lookup d k.
Proof.
  induction d as [|[k' v'] d IH]; simpl; [destruct (key_eqb k hk); reflexivity|].
  destruct (key_matches hk k') eqn:Eh.
  - pose proof (key_matches_stored _ _ Eh) as Hs. simpl.
    assert (Hk : key_matches k k' = key_eqb k hk) by (unfold key_matches; rewrite Hs; reflexivity).
    rewrite Hk. destruct (key_eqb k hk); reflexivity.
  - simpl. rewrite IH. destruct (key_matches k k') eqn:Ek.
    + pose proof (key_matches_stored _ _ Ek) as Hs.
      assert (Hk : key_matches hk k' = key_eqb hk k) by (unfold key_matches; rewrite Hs; reflexivity).
      rewrite Hk, key_eqb_sym in Eh. rewrite Eh. reflexivity.
    + destruct (key_eqb k hk); reflexivity.
Qed.

Lemma dict_set_lookup d key v d' hk :
  dict_set d key v = Ok d' -> hash_key key = Ok hk ->
  forall k, dict_lookup d' k = if key_eqb k hk then Some v else dict_lookup d k.
Proof.
  unfold dict_set. intros H Hk k. rewrite Hk in H. cbn [res_bind] in H.
  destruct (dict_lookup d hk) as [w|] eqn:El; injection H as <-.
  - rewrite dict_lookup_replace_gen, El. reflexivity.
  - rewrite dict_lookup_app. simpl. rewrite (key_matches_hash _ _ _ Hk).
    destruct (key_eqb k hk) eqn:E; [|destruct (dict_lookup d k); reflexivity].
    apply key_eqb_true in E. subst. rewrite El. reflexivity.
Qed.

Lemma index_by_id_loop_lookup rs acc d :
  index_by_id_loop rs acc = Ok d ->
  forall k, dict_lookup d k =
            match last_with_id rs k with Some t => Some t | None => dict_lookup acc k end.
Proof.
  revert acc. induction rs as [|r rs IH]; intros acc H k; cbn [index_by_id_loop] in H.
  - injection H as <-. reflexivity.
  - destruct (subscript r "id") as [rid|x] eqn:Er; cbn [res_bind] in H; [|discriminate H].
    destruct (dict_set acc rid r) as [acc'|x] eqn:Es; cbn [res_bind] in H; [|discriminate H].
    assert (Hk : exists hk, hash_key rid = Ok hk).
    { unfold dict_set in Es. destruct (hash_key rid) as [hk|x]; [exists hk; reflexivity|discriminate Es]. }
    destruct Hk as [hk Hk].
    rewrite (IH _ H k), (dict_set_lookup _ _ _ _ _ Es Hk k). cbn [last_with_id].
    destruct (last_with_id rs k); [reflexivity|]. rewrite Er, Hk. destruct (key_eqb k hk); reflexivity.
Qed.

(** X1: the id index maps every key to the last row carrying that id
    (a later row with the same id replaces an earlier one), and has no
    entry for a key no row carries. *)
Theorem index_by_id_last_wins rows d :
  index_by_id (PList rows) = Ok d -> forall k, dict_lookup d k = last_with_id rows k.
Proof.
  intros H k. unfold index_by_id in H. cbn [py_iter res_bind] in H.
  rewrite (index_by_id_loop_lookup _ _ _ H k). destruct (last_with_id rows k); reflexivity.
Qed.

Lemma index_by_id_last_wins_witness :
  index_by_id (PList [dict [("id", PInt 1); ("v", PStr "a")]; dict [("id", PBool true); ("v", PStr "b")]]) =
    Ok [(PInt 1, dict [("id", PBool true); ("v", PStr "b")])] /\
  dict_lookup [(PInt 1, dict [("id", PBool true); ("v", PStr "b")])] (KNum 1) =
    last_with_id [dict [("id", PInt 1); ("v", PStr "a")]; dict [("id", PBool true); ("v", PStr "b")]] (KNum 1).
Proof.
  split; [vm_compute; reflexivity|].
  apply (index_by_id_last_wins [dict [("id", PInt 1); ("v", PStr "a")]; dict [("id", PBool true); ("v", PStr "b")]]).
  vm_compute. reflexivity.
Defined.

Lemma index_by_id_loop_ids rs acc d :
  index_by_id_loop rs acc = Ok d -> Forall (fun r => exists rid, subscript r "id" = Ok rid) rs.
Proof.
  revert acc. induction rs as [|r rs IH]; intros acc H; [constructor|]. cbn [index_by_id_loop] in H.
  destruct (subscript r "id") as [rid|x] eqn:Er; cbn [res_bind] in H; [|discriminate H].
  destruct (dict_set acc rid r) as [acc'|x]; cbn [res_bind] in H; [|discriminate H].
  constructor; [exists rid; exact Er|exact (IH _ H)].
Qed.

(** X2: a company or tool row without an ['id'] (or that is not a dict)
    makes building the id index fail, so the whole denormalizer
    pipeline fails, whichever snapshot the row is in. *)
Theorem missing_id_aborts_process rows r :
  In r rows -> (forall rid, subscript r "id" <> Ok rid) ->
  (forall d, index_by_id (PList rows) <> Ok d) /\
  (forall companies a, process companies (PList rows) <> Ok a) /\
  (forall tools a, process (PList rows) tools <> Ok a).
Proof.
  intros Hin Hr.
  assert (Hi : forall d, index_by_id (PList rows) <> Ok d).
  { intros d H. unfold index_by_id in H. cbn [py_iter res_bind] in H.
    destruct (proj1 (Forall_forall _ _) (index_by_id_loop_ids _ _ _ H) r Hin) as [rid Hrid].
    exact (Hr rid Hrid). }
  split; [exact Hi|split].
  - intros companies a H. unfold process in H.
    destruct (index_by_id (PList rows)) as [d|x] eqn:E; cbn [res_bind] in H; [first [exact (Hi _ E)|exact (Hi _ eq_refl)]|discriminate H].
  - intros tools a H. unfold process in H.
    destruct (index_by_id tools) as [d|x]; cbn [res_bind] in H; [|discriminate H].
    destruct (index_by_id (PList rows)) as [d'|x] eqn:E; cbn [res_bind] in H; [first [exact (Hi _ E)|exact (Hi _ eq_refl)]|discriminate H].
Qed.

Lemma missing_id_aborts_process_witness :
  In (dict [("UUID", PStr "t9")]) [ex_tool; dict [("UUID", PStr "t9")]] /\
  (forall rid, subscript (dict [("UUID", PStr "t9")]) "id" <> Ok rid) /\
  ((forall d, index_by_id (PList [ex_tool; dict [("UUID", PStr "t9")]]) <> Ok d) /\
   (forall companies a, process companies (PList [ex_tool; dict [("UUID", PStr "t9")]]) <> Ok a) /\
   (forall tools a, process (PList [ex_tool; dict [("UUID", PStr "t9")]]) tools <> Ok a)).
Proof.
  assert (Hin : In (dict [("UUID", PStr "t9")]) [ex_tool; dict [("UUID", PStr "t9")]])
    by (right; left; reflexivity).
  assert (Hr : forall rid, subscript (dict [("UUID", PStr "t9")]) "id" <> Ok rid)
    by (intros rid; vm_compute; discriminate).
  split; [exact Hin|]. split; [exact Hr|].
  exact (missing_id_aborts_process _ _ Hin Hr).
Defined.

(** ** Enriched rows *)

Lemma web_company_fields tools_by_id company wc :
  web_company tools_by_id company = Ok wc ->
  subscript wc "id" = subscript company "UUID" /\
  subscript wc "name" = subscript company "Company Name".
Proof.
  unfold web_company. intros H.
  destruct (py_get company "Tools" (PList [])) as [trefs|x]; cbn [res_bind] in H; [|discriminate H].
  destruct (py_iter trefs) as [refs|x]; cbn [res_bind] in H; [|discriminate H].
  destruct (resolve_refs company_tool_summary tools_by_id refs) as [ets|x];
    cbn [res_bind] in H; [|discriminate H].
  destruct (subscript company "UUID") as [u|x]; cbn [res_bind] in H; [|discriminate H].
  destruct (subscript company "Company Name") as [n|x]; cbn [res_bind] in H; [|discriminate H].
  destruct (py_get company "URL" (PStr "")) as [url|x]; cbn [res_bind] in H; [|discriminate H].
  destruct (py_get company "Notes" (PStr "")) as [no|x]; cbn [res_bind] in H; [|discriminate H].
  injection H as <-. split; reflexivity.
Qed.

Lemma tag_loop_tags ts :
  forall tags tc tags' tc', tag_loop ts tags tc = Ok (tags', tc') ->
  exists vals, map_res (fun t => subscript t "value") ts = Ok vals /\ tags' = tags ++ vals.
Proof.
  induction ts as [|t ts IH]; intros tags tc tags' tc' H; cbn [tag_loop] in H.
  - injection H as <- <-. exists []. rewrite app_nil_r. split; reflexivity.
  - cbn [map_res].
    destruct (subscript t "value") as [m|x]; cbn [res_bind] in H |- *; [|discriminate H].
    destruct (py_contains_key t "color") as [b|x]; cbn [res_bind] in H; [|discriminate H].
    assert (Hrec : exists tc1, tag_loop ts (tags ++ [m]) tc1 = Ok (tags', tc')).
    { destruct b; [|exists tc; exact H].
      destruct (subscript t "color") as [c|x]; cbn [res_bind] in H; [|discriminate H].
      destruct (dict_set tc m c) as [d|x]; cbn [res_bind] in H; [|discriminate H].
      exists d. exact H. }
    destruct Hrec as [tc1 Hrec]. destruct (IH _ _ _ _ Hrec) as [vals [Hv ->]].
    rewrite Hv. cbn [res_bind]. exists (m :: vals). split; [reflexivity|].
    rewrite <- app_assoc. reflexivity.
Qed.

Lemma web_tool_fields companies_by_id tool wt :
  web_tool companies_by_id tool = Ok wt ->
  subscript wt "id" = subscript tool "UUID" /\ subscript wt "name" = subscript tool "ToolName" /\
  exists tt ts vals,
    py_get tool "Tool Tags" (PList []) = Ok tt /\ py_iter tt = Ok ts /\
    map_res (fun t => subscript t "value") ts = Ok vals /\ subscript wt "tags" = Ok (PList vals).
Proof.
  unfold web_tool. intros H.
  destruct (py_get tool "ToolCompany" (PList [])) as [crefs|x]; cbn [res_bind] in H; [|discriminate H].
  destruct (py_iter crefs) as [refs|x]; cbn [res_bind] in H; [|discriminate H].
  destruct (resolve_refs tool_company_summary companies_by_id refs) as [ecs|x];
    cbn [res_bind] in H; [|discriminate H].
  destruct (py_get tool "Tool Tags" (PList [])) as [tt|x] eqn:E1; cbn [res_bind] in H; [|discriminate H].
  destruct (py_iter tt) as [ts|x] eqn:E2; cbn [res_bind] in H; [|discriminate H].
  destruct (tag_loop ts [] []) as [[tags tc]|x] eqn:E3; cbn [res_bind] in H; [|discriminate H].
  destruct (tag_loop_tags _ _ _ _ _ E3) as [vals [Hv ->]].
  destruct (subscript tool "UUID") as [u|x]; cbn [res_bind] in H; [|discriminate H].
  destruct (subscript tool "ToolName") as [n|x]; cbn [res_bind] in H; [|discriminate H].
  destruct (py_get tool "Tool Description Short" (PStr "")) as [a|x]; cbn [res_bind] in H; [|discriminate H].
  destruct (py_get tool "ToolDescription_long" (PStr "")) as [b|x]; cbn [res_bind] in H; [|discriminate H].
  destruct (py_get tool "Overall Rating" (PStr "0")) as [c|x]; cbn [res_bind] in H; [|discriminate H].
  destruct (py_get tool "Annual License Cost" PNone) as [d|x]; cbn [res_bind] in H; [|discriminate H].
  destruct (py_get tool "URL" (PStr "")) as [f|x]; cbn [res_bind] in H; [|discriminate H].
  destruct (py_get tool "Last modified" (PStr "")) as [g|x]; cbn [res_bind] in H; [|discriminate H].
  injection H as <-. split; [reflexivity|]. split; [reflexivity|].
  exists tt, ts, vals. split; [reflexivity|]. split; [exact E2|]. split; [exact Hv|reflexivity].
Qed.

(** X3: [create_web_companies] gives one enriched company per company
    row, in the same order, carrying the row's ['UUID'] as ['id'] and its
    ['Company Name'] as ['name']. *)
Theorem web_companies_follow_rows cs tools_by_id wcs :
  create_web_companies (PList cs) tools_by_id = Ok (PList wcs) ->
  Forall2 (fun c wc => subscript wc "id" = subscript c "UUID" /\
                       subscript wc "name" = subscript c "Company Name") cs wcs.
Proof.
  unfold create_web_companies. cbn [py_iter res_bind]. intros H.
  destruct (map_res (web_company tools_by_id) cs) as [out|x] eqn:E; cbn [res_bind] in H; [|discriminate H].
  injection H as ->. apply map_res_inv in E.
  induction E as [|c wc cs wcs Hc _ IH]; constructor; [exact (web_company_fields _ _ _ Hc)|exact IH].
Qed.

Lemma web_companies_follow_rows_witness :
  create_web_companies (PList [ex_company]) [(PInt 10, ex_tool)] =
    Ok (PList [dict [("id", PStr "c1"); ("name", PStr "Acme"); ("url", PStr ""); ("notes", PStr "");
                     ("tools", PList [dict [("id", PStr "t1"); ("name", PStr "X");
                        ("description_short", PStr ""); ("description_long", PStr "");
                        ("tags", PList [PStr "ml"]); ("rating", PStr "0"); ("cost", PNone);
                        ("url", PStr "")]]);
                     ("tool_count", PInt 1)]]) /\
  Forall2 (fun c wc => subscript wc "id" = subscript c "UUID" /\
                       subscript wc "name" = subscript c "Company Name") [ex_company]
    [dict [("id", PStr "c1"); ("name", PStr "Acme"); ("url", PStr ""); ("notes", PStr "");
           ("tools", PList [dict [("id", PStr "t1"); ("name", PStr "X");
              ("description_short", PStr ""); ("description_long", PStr "");
              ("tags", PList [PStr "ml"]); ("rating", PStr "0"); ("cost", PNone);
              ("url", PStr "")]]);
           ("tool_count", PInt 1)]].
Proof.
  split; [vm_compute; reflexivity|]. apply (web_companies_follow_rows _ [(PInt 10, ex_tool)]).
  vm_compute. reflexivity.
Defined.

(** X4: [create_web_tools] gives one enriched tool per tool row, in the
    same order, carrying the row's ['UUID'] and ['ToolName'], and its
    ['tags'] list every tag value of the row in order, repeated values
    included. *)
Theorem web_tools_follow_rows ts companies_by_id wts :
  create_web_tools (PList ts) companies_by_id = Ok (PList wts) ->
  Forall2 (fun t wt =>
    subscript wt "id" = subscript t "UUID" /\ subscript wt "name" = subscript t "ToolName" /\
    exists tt tags vals,
      py_get t "Tool Tags" (PList []) = Ok tt /\ py_iter tt = Ok tags /\
      map_res (fun x => subscript x "value") tags = Ok vals /\ subscript wt "tags" = Ok (PList vals))
    ts wts.
Proof.
  unfold create_web_tools. cbn [py_iter res_bind]. intros H.
  destruct (map_res (web_tool companies_by_id) ts) as [out|x] eqn:E; cbn [res_bind] in H; [|discriminate H].
  injection H as ->. apply map_res_inv in E.
  induction E as [|t wt ts wts Ht _ IH]; constructor; [exact (web_tool_fields _ _ _ Ht)|exact IH].
Qed.

Lemma web_tools_follow_rows_witness :
  create_web_tools (PList [ex_tool_dup_colors]) [] = Ok (PList (firstn 1 ex_web_tools)) /\
  Forall2 (fun t wt =>
    subscript wt "id" = subscript t "UUID" /\ subscript wt "name" = subscript t "ToolName" /\
    exists tt tags vals,
      py_get t "Tool Tags" (PList []) = Ok tt /\ py_iter tt = Ok tags /\
      map_res (fun x => subscript x "value") tags = Ok vals /\ subscript wt "tags" = Ok (PList vals))
    [ex_tool_dup_colors] (firstn 1 ex_web_tools).
Proof.
  assert (H : create_web_tools (PList [ex_tool_dup_colors]) [] = Ok (PList (firstn 1 ex_web_tools)))
    by (vm_compute; reflexivity).
  split; [exact H|exact (web_tools_follow_rows _ _ _ H)].
Defined.

(** ** Summary statistics *)

Lemma count_positive_bounds f l n :
  count_positive f l = Ok n -> 0 <= n <= Z.of_nat (List.length l).
Proof.
  revert n. induction l as [|x l IH]; intros n H; cbn [count_positive] in H.
  - injection H as <-. simpl. lia.
  - destruct (f x) as [v|e]; cbn [res_bind] in H; [|discriminate H].
    destruct (py_lt (PInt 0) v) as [b|e]; cbn [res_bind] in H; [|discriminate H].
    destruct (count_positive f l) as [m|e]; cbn [res_bind] in H; [|discriminate H].
    injection H as <-. specialize (IH m eq_refl). simpl List.length. rewrite Nat2Z.inj_succ.
    destruct b; lia.
Qed.

Lemma map_res_length {A B} (f : A -> res B) l ys :
  map_res f l = Ok ys -> List.length ys = List.length l.
Proof. intros H. symmetry. exact (Forall2_length _ _ _ (map_res_inv _ _ _ H)). Qed.

(** X5: a successful run's statistics count the company rows and the
    tool rows of the snapshots; the numbers of companies with tools and
    of tools with companies lie between 0 and these totals; and
    ['total_tags'] is the number of entries of the tag catalog. *)
Theorem stats_counts cs ts a :
  process (PList cs) (PList ts) = Ok a ->
  exists cwt twc,
    subscript (a_stats a) "total_companies" = Ok (PInt (Z.of_nat (List.length cs))) /\
    subscript (a_stats a) "total_tools" = Ok (PInt (Z.of_nat (List.length ts))) /\
    subscript (a_stats a) "companies_with_tools" = Ok (PInt cwt) /\
    0 <= cwt <= Z.of_nat (List.length cs) /\
    subscript (a_stats a) "tools_with_companies" = Ok (PInt twc) /\
    0 <= twc <= Z.of_nat (List.length ts) /\
    (ntags <- py_len (a_tags a) ;; Ok (PInt ntags)) = subscript (a_stats a) "total_tags".
Proof.
  unfold process. intros H.
  destruct (index_by_id (PList ts)) as [tbi|x]; cbn [res_bind] in H; [|discriminate H].
  destruct (index_by_id (PList cs)) as [cbi|x]; cbn [res_bind] in H; [|discriminate H].
  destruct (create_web_companies (PList cs) tbi) as [wc|x] eqn:Ec; cbn [res_bind] in H; [|discriminate H].
  destruct (create_web_tools (PList ts) cbi) as [wt|x] eqn:Et; cbn [res_bind] in H; [|discriminate H].
  destruct (create_search_index wc wt) as [si|x]; cbn [res_bind] in H; [|discriminate H].
  destruct (extract_all_tags wt) as [tg|x] eqn:Eg; cbn [res_bind] in H; [|discriminate H].
  destruct (calculate_stats wc wt) as [st|x] eqn:Es; cbn [res_bind] in H; [|discriminate H].
  injection H as <-. cbn [a_stats a_tags].
  unfold create_web_companies in Ec. cbn [py_iter res_bind] in Ec.
  destruct (map_res (web_company tbi) cs) as [wcs|x] eqn:Ewc; cbn [res_bind] in Ec; [|discriminate Ec].
  injection Ec as <-.
  unfold create_web_tools in Et. cbn [py_iter res_bind] in Et.
  destruct (map_res (web_tool cbi) ts) as [wts|x] eqn:Ewt; cbn [res_bind] in Et; [|discriminate Et].
  injection Et as <-.
  rewrite <- (map_res_length _ _ _ Ewc), <- (map_res_length _ _ _ Ewt).
  unfold calculate_stats in Es. cbn [py_len py_iter res_bind] in Es.
  destruct (count_positive (fun c => subscript c "tool_count") wcs) as [cwt|x] eqn:E1;
    cbn [res_bind] in Es; [|discriminate Es].
  destruct (count_positive (fun t => cl <- subscript t "companies" ;; n <- py_len cl ;; Ok (PInt n)) wts)
    as [twc|x] eqn:E2; cbn [res_bind] in Es; [|discriminate Es].
  rewrite Eg in Es. cbn [res_bind] in Es.
  destruct (py_len tg) as [nt|x]; cbn [res_bind] in Es |- *; [|discriminate Es].
  injection Es as <-. exists cwt, twc.
  pose proof (count_positive_bounds _ _ _ E1). pose proof (count_positive_bounds _ _ _ E2).
  repeat split; try reflexivity; lia.
Qed.

Lemma stats_counts_witness :
  process (PList [ex_company]) (PList [ex_tool]) = Ok ex_artifacts /\
  exists cwt twc,
    subscript (a_stats ex_artifacts) "companies_with_tools" = Ok (PInt cwt) /\
    subscript (a_stats ex_artifacts) "tools_with_companies" = Ok (PInt twc) /\
    0 <= cwt <= 1 /\ cwt = 1 /\ twc = 0.
Proof.
  assert (H : process (PList [ex_company]) (PList [ex_tool]) = Ok ex_artifacts)
    by (vm_compute; reflexivity).
  split; [exact H|].
  destruct (stats_counts _ _ _ H) as [cwt [twc [_ [_ [H3 [H4 [H5 [H6 _]]]]]]]].
  exists cwt, twc. split; [exact H3|]. split; [exact H5|].
  vm_compute in H3, H5. injection H3 as <-. injection H5 as <-.
  split; [lia|]. split; reflexivity.
Defined.

(** ** Search text *)

Lemma utf8_chars_shape s :
  Forall (fun g => group_ok g = true) (utf8_chars s) /\
  Forall (fun g => head_ok g = true) (tl (utf8_chars s)).
Proof.
  induction s as [|c rest [IHg IHh]]; [split; constructor|]. cbn [utf8_chars].
  destruct (utf8_chars rest) as [|ch chs].
  - split; [repeat constructor|constructor].
  - inversion IHg as [|? ? Hch Hchs]; subst. cbn [tl] in IHh.
    destruct ch as [|c' r']; [discriminate Hch|].
    destruct (is_continuation c') eqn:Ec.
    + split; [constructor; [cbn [group_ok all_cont]; rewrite Ec, (Hch : all_cont r' = true); reflexivity|exact Hchs]|exact IHh].
    + split; [constructor; [reflexivity|constructor; [exact Hch|exact Hchs]]|].
      cbn [tl]. constructor; [cbn [head_ok]; rewrite Ec; reflexivity|exact IHh].
Qed.

Lemma utf8_chars_group c r t :
  all_cont r = true ->
  match utf8_chars t with [] => True | g :: _ => head_ok g = true end ->
  utf8_chars (String c (String.append r t)) = String c r :: utf8_chars t.
Proof.
  revert c. induction r as [|d r IH]; intros c Hr Ht.
  - cbn [String.append utf8_chars]. destruct (utf8_chars t) as [|g gs]; [reflexivity|].
    destruct g as [|c' r']; [discriminate Ht|]. cbn [head_ok] in Ht.
    destruct (is_continuation c'); [discriminate Ht|reflexivity].
  - cbn [all_cont] in Hr. apply andb_true_iff in Hr. destruct Hr as [Hd Hr].
    cbn [String.append]. cbn [utf8_chars]. fold (String.append r t).
    change (match utf8_chars (String d (String.append r t)) with
            | (String c' _ as ch) :: chs =>
                if is_continuation c' then String c ch :: chs
                else String c EmptyString :: ch :: chs
            | l => String c EmptyString :: l
            end = String c (String d r) :: utf8_chars t).
    rewrite (IH d Hr Ht). rewrite Hd. reflexivity.
Qed.

Lemma utf8_chars_concat gs :
  Forall (fun g => group_ok g = true) gs -> Forall (fun g => head_ok g = true) (tl gs) ->
  utf8_chars (str_concat gs) = gs.
Proof.
  induction gs as [|g gs IH]; intros Hg Hh; [reflexivity|].
  inversion Hg as [|? ? Hg1 Hgs]; subst. cbn [tl] in Hh.
  destruct g as [|c r]; [discriminate Hg1|]. cbn [str_concat String.append].
  rewrite utf8_chars_group.
  - rewrite IH; [reflexivity|exact Hgs|destruct gs; [constructor|inversion Hh; assumption]].
  - exact Hg1.
  - rewrite IH; [|exact Hgs|destruct gs; [constructor|inversion Hh; assumption]].
    destruct gs as [|g' gs]; [exact I|inversion Hh; assumption].
Qed.

Lemma check_run_spec start step delta k :
  check_run start step delta k = true ->
  forall j, (j < k)%nat -> lower_out_ok (start + Z.of_nat j * step + delta) = true.
Proof.
  induction k as [|k IH]; intros H j Hj; [lia|]. cbn [check_run] in H.
  apply andb_true_iff in H. destruct H as [H1 H2].
  destruct (Nat.eq_dec j k) as [->|Hne]; [exact H1|apply IH; [exact H2|lia]].
Qed.

Lemma run_delta_ok runs cp d :
  runs_ok runs = true -> run_delta runs cp = Some d -> lower_out_ok (cp + d) = true.
Proof.
  induction runs as [|[[[start count] step] delta] runs IH]; intros Hok H; [discriminate H|].
  cbn [runs_ok forallb] in Hok. apply andb_true_iff in Hok. destruct Hok as [Hr Hok].
  apply andb_true_iff in Hr. destruct Hr as [Hr Hc]. apply andb_true_iff in Hr.
  destruct Hr as [Hs Hn]. apply Z.ltb_lt in Hs. apply Z.leb_le in Hn.
  cbn [run_delta] in H.
  destruct ((start <=? cp) && (cp <=? start + (count - 1) * step) && ((cp - start) mod step =? 0))%bool
    eqn:E; [|exact (IH Hok H)].
  injection H as <-. apply andb_true_iff in E. destruct E as [E Hm].
  apply andb_true_iff in E. destruct E as [H1 H2].
  apply Z.leb_le in H1. apply Z.leb_le in H2. apply Z.eqb_eq in Hm.
  set (j := (cp - start) / step).
  assert (Hcp : cp = start + j * step).
  { pose proof (Z.div_mod (cp - start) step ltac:(lia)) as Hd. unfold j. lia. }
  assert (Hj0 : 0 <= j) by (apply Z.div_pos; lia).
  assert (Hj1 : j < count) by nia.
  pose proof (check_run_spec start step delta (Z.to_nat count) Hc (Z.to_nat j) ltac:(lia)) as Hk.
  rewrite Z2Nat.id in Hk by lia. rewrite Hcp. exact Hk.
Qed.

Lemma lower_runs_ok : runs_ok LOWER_RUNS = true.
Proof. vm_compute. reflexivity. Qed.

Lemma to_lower_full_ok cp cps :
  to_lower_full cp = Some cps -> Forall (fun o => lower_out_ok o = true) cps.
Proof.
  unfold to_lower_full. destruct (cp =? 304).
  - intros H. injection H as <-. repeat constructor; vm_compute; reflexivity.
  - destruct (run_delta LOWER_RUNS cp) as [d|] eqn:E; [|discriminate].
    intros H. injection H as <-. constructor; [exact (run_delta_ok _ _ _ lower_runs_ok E)|constructor].
Qed.

Lemma lower_char_cases before ch after :
  (lower_char before ch after = [ch] /\ lower_fixed ch = true) \/
  Forall (fun g => (group_ok g && head_ok g && lower_fixed g) = true) (lower_char before ch after).
Proof.
  unfold lower_char, lower_fixed. destruct (utf8_decode ch =? 931).
  - right. constructor; [|constructor].
    destruct (final_sigma before after); vm_compute; reflexivity.
  - destruct (to_lower_full (utf8_decode ch)) as [cps|] eqn:E.
    + right. apply to_lower_full_ok in E. induction E as [|o cps Ho _ IH]; constructor; [exact Ho|exact IH].
    + left. split; reflexivity.
Qed.

Lemma lower_chars_shape chs :
  Forall (fun g => group_ok g = true) chs -> Forall (fun g => head_ok g = true) chs ->
  forall before,
  Forall (fun g => group_ok g = true) (lower_chars before chs) /\
  Forall (fun g => head_ok g = true) (lower_chars before chs) /\
  Forall (fun g => lower_fixed g = true) (lower_chars before chs).
Proof.
  induction chs as [|ch chs IH]; intros Hg Hh before; [repeat split; constructor|].
  inversion Hg as [|? ? Hg1 Hgs]; subst. inversion Hh as [|? ? Hh1 Hhs]; subst.
  destruct (IH Hgs Hhs (ch :: before)) as [Ag [Ah Af]]. cbn [lower_chars].
  destruct (lower_char_cases before ch chs) as [[-> Hf]|Hall].
  - repeat split; (constructor; [assumption|assumption]).
  - repeat split; apply Forall_app; (split; [|assumption]);
      (eapply Forall_impl; [|exact Hall]); intros g Hx;
      repeat (apply andb_true_iff in Hx; destruct Hx as [Hx ?]); assumption.
Qed.

Lemma lower_chars_first chs :
  Forall (fun g => group_ok g = true) chs -> Forall (fun g => head_ok g = true) (tl chs) ->
  Forall (fun g => group_ok g = true) (lower_chars [] chs) /\
  Forall (fun g => head_ok g = true) (tl (lower_chars [] chs)) /\
  Forall (fun g => lower_fixed g = true) (lower_chars [] chs).
Proof.
  destruct chs as [|ch chs]; intros Hg Hh; [repeat split; constructor|].
  inversion Hg as [|? ? Hg1 Hgs]; subst. cbn [tl] in Hh.
  destruct (lower_chars_shape chs Hgs Hh [ch]) as [Ag [Ah Af]]. cbn [lower_chars].
  destruct (lower_char_cases [] ch chs) as [[-> Hf]|Hall].
  - repeat split; [constructor; assumption|exact Ah|constructor; assumption].
  - assert (Hx : forall P : string -> bool,
               (forall g, (group_ok g && head_ok g && lower_fixed g) = true -> P g = true) ->
               Forall (fun g => P g = true) (lower_char [] ch chs)).
    { intros P HP. eapply Forall_impl; [|exact Hall]. exact HP. }
    assert (Hgr : forall g, (group_ok g && head_ok g && lower_fixed g) = true -> group_ok g = true)
      by (intros g H; apply andb_true_iff in H; destruct H as [H _];
          apply andb_true_iff in H; destruct H as [H _]; exact H).
    assert (Hhd : forall g, (group_ok g && head_ok g && lower_fixed g) = true -> head_ok g = true)
      by (intros g H; apply andb_true_iff in H; destruct H as [H _];
          apply andb_true_iff in H; destruct H as [_ H]; exact H).
    assert (Hfx : forall g, (group_ok g && head_ok g && lower_fixed g) = true -> lower_fixed g = true)
      by (intros g H; apply andb_true_iff in H; destruct H as [_ H]; exact H).
    split; [apply Forall_app; split; [exact (Hx _ Hgr)|exact Ag]|].
    split; [|apply Forall_app; split; [exact (Hx _ Hfx)|exact Af]].
    assert (Hall' : Forall (fun g => head_ok g = true) (lower_char [] ch chs ++ lower_chars [ch] chs))
      by (apply Forall_app; split; [exact (Hx _ Hhd)|exact Ah]).
    destruct (lower_char [] ch chs ++ lower_chars [ch] chs); [constructor|inversion Hall'; assumption].
Qed.

Lemma lower_chars_fixed chs before :
  Forall (fun g => lower_fixed g = true) chs -> lower_chars before chs = chs.
Proof.
  intros H. revert before. induction H as [|ch chs Hf _ IH]; intros before; [reflexivity|].
  cbn [lower_chars]. rewrite IH. unfold lower_char.
  unfold lower_fixed in Hf. apply andb_true_iff in Hf. destruct Hf as [H1 H2].
  destruct (utf8_decode ch =? 931); [discriminate H1|].
  destruct (to_lower_full (utf8_decode ch)); [discriminate H2|reflexivity].
Qed.

Lemma str_lower_idem s : str_lower (str_lower s) = str_lower s.
Proof.
  unfold str_lower at 2 3. destruct (utf8_chars_shape s) as [Hg Hh].
  destruct (lower_chars_first _ Hg Hh) as [Lg [Lh Lf]].
  unfold str_lower. rewrite (utf8_chars_concat _ Lg Lh). rewrite (lower_chars_fixed _ [] Lf).
  reflexivity.
Qed.

Lemma map_res_out {A B} (f : A -> res B) l ys :
  map_res f l = Ok ys -> forall y, In y ys -> exists x, In x l /\ f x = Ok y.
Proof.
  intros H. apply map_res_inv in H. induction H as [|x y l ys Hxy _ IH]; intros z Hz; [destruct Hz|].
  destruct Hz as [<-|Hz]; [exists x; split; [left; reflexivity|exact Hxy]|].
  destruct (IH z Hz) as [x' [Hin Hx']]. exists x'. split; [right; exact Hin|exact Hx'].
Qed.

Lemma company_index_entry_text c e :
  company_index_entry c = Ok e -> exists s, subscript e "search_text" = Ok (PStr (str_lower s)).
Proof.
  unfold company_index_entry. intros H.
  destruct (subscript c "id") as [a|x]; cbn [res_bind] in H; [|discriminate H].
  destruct (subscript c "name") as [b|x]; cbn [res_bind] in H; [|discriminate H].
  destruct (subscript c "url") as [u|x]; cbn [res_bind] in H; [|discriminate H].
  destruct (py_lower b) as [st|x] eqn:El; cbn [res_bind] in H; [|discriminate H].
  destruct (subscript c "tool_count") as [tc|x]; cbn [res_bind] in H; [|discriminate H].
  injection H as <-. destruct b; try discriminate El. injection El as <-. exists s. reflexivity.
Qed.

Lemma tool_index_entry_text t e :
  tool_index_entry t = Ok e -> exists s, subscript e "search_text" = Ok (PStr (str_lower s)).
Proof.
  unfold tool_index_entry. intros H.
  destruct (subscript t "tags") as [a|x]; cbn [res_bind] in H; [|discriminate H].
  destruct (py_join_space a) as [b|x]; cbn [res_bind] in H; [|discriminate H].
  destruct (subscript t "companies") as [c|x]; cbn [res_bind] in H; [|discriminate H].
  destruct (py_iter c) as [d|x]; cbn [res_bind] in H; [|discriminate H].
  destruct (map_res (fun c => subscript c "name") d) as [f|x]; cbn [res_bind] in H; [|discriminate H].
  destruct (py_join_space (PList f)) as [g|x]; cbn [res_bind] in H; [|discriminate H].
  destruct (subscript t "id") as [i|x]; cbn [res_bind] in H; [|discriminate H].
  destruct (subscript t "name") as [n|x]; cbn [res_bind] in H; [|discriminate H].
  destruct (subscript t "url") as [u|x]; cbn [res_bind] in H; [|discriminate H].
  destruct (py_len c) as [k|x]; cbn [res_bind] in H; [|discriminate H].
  injection H as <-. eexists. reflexivity.
Qed.

(** X6: the ['search_text'] of every entry of the search index is a
    string in lower case: lowering it again with Python's Unicode
    [str.lower()] (full case mappings, final sigma) changes nothing. *)
Theorem search_text_lowercase companies tools idx :
  create_search_index companies tools = Ok (PList idx) ->
  forall e, In e idx -> exists st, subscript e "search_text" = Ok (PStr st) /\ str_lower st = st.
Proof.
  unfold create_search_index. intros H e He.
  destruct (py_iter companies) as [cs|x]; cbn [res_bind] in H; [|discriminate H].
  destruct (map_res company_index_entry cs) as [ce|x] eqn:Ec; cbn [res_bind] in H; [|discriminate H].
  destruct (py_iter tools) as [ts|x]; cbn [res_bind] in H; [|discriminate H].
  destruct (map_res tool_index_entry ts) as [te|x] eqn:Et; cbn [res_bind] in H; [|discriminate H].
  injection H as <-. apply in_app_or in He. destruct He as [He|He].
  - destruct (map_res_out _ _ _ Ec e He) as [c [_ Hc]].
    destruct (company_index_entry_text _ _ Hc) as [s Hs].
    exists (str_lower s). split; [exact Hs|apply str_lower_idem].
  - destruct (map_res_out _ _ _ Et e He) as [t [_ Ht]].
    destruct (tool_index_entry_text _ _ Ht) as [s Hs].
    exists (str_lower s). split; [exact Hs|apply str_lower_idem].
Qed.

Lemma search_text_lowercase_witness :
  create_search_index (PList [dict [("id", PStr "c1"); ("name", PStr "ACME Corp"); ("url", PStr "");
                                   ("tool_count", PInt 0)]]) (PList []) =
    Ok (PList [dict [("type", PStr "company"); ("id", PStr "c1"); ("name", PStr "ACME Corp");
                     ("url", PStr ""); ("search_text", PStr "acme corp"); ("tool_count", PInt 0)]]) /\
  exists st, subscript (dict [("type", PStr "company"); ("id", PStr "c1"); ("name", PStr "ACME Corp");
                     ("url", PStr ""); ("search_text", PStr "acme corp"); ("tool_count", PInt 0)])
               "search_text" = Ok (PStr st) /\ str_lower st = st.
Proof.
  assert (H : create_search_index (PList [dict [("id", PStr "c1"); ("name", PStr "ACME Corp");
                 ("url", PStr ""); ("tool_count", PInt 0)]]) (PList []) =
    Ok (PList [dict [("type", PStr "company"); ("id", PStr "c1"); ("name", PStr "ACME Corp");
                     ("url", PStr ""); ("search_text", PStr "acme corp"); ("tool_count", PInt 0)]]))
    by (vm_compute; reflexivity).
  split; [exact H|]. apply (search_text_lowercase _ _ _ H). left. reflexivity.
Defined.

(** ** Loading the snapshots *)

(** X7: the denormalizer reads the companies, tools and libraries
    snapshots in this order and stops at the first one that is missing
    with [FileNotFoundError] for its path; in particular a missing
    libraries snapshot aborts the run although its content is never
    used. *)
Theorem snapshots_required (json_load : string -> res pyval) (json_dump : pyval -> string)
    (fs : filesystem) :
  (fs (snapshot_path "companies.json") = None ->
   denormalizer_main json_load json_dump fs =
     Raise (FileNotFoundError (snapshot_path "companies.json"))) /\
  (forall sc c,
   fs (snapshot_path "companies.json") = Some sc -> json_load sc = Ok c ->
   fs (snapshot_path "tools.json") = None ->
   denormalizer_main json_load json_dump fs =
     Raise (FileNotFoundError (snapshot_path "tools.json"))) /\
  (forall sc c st t,
   fs (snapshot_path "companies.json") = Some sc -> json_load sc = Ok c ->
   fs (snapshot_path "tools.json") = Some st -> json_load st = Ok t ->
   fs (snapshot_path "libraries.json") = None ->
   denormalizer_main json_load json_dump fs =
     Raise (FileNotFoundError (snapshot_path "libraries.json"))).
Proof.
  unfold denormalizer_main, load_snapshots, read_json. split; [|split].
  - intros H. rewrite H. reflexivity.
  - intros sc c H1 H2 H3. rewrite H1, H2. cbn [res_bind]. rewrite H3. reflexivity.
  - intros sc c st t H1 H2 H3 H4 H5. rewrite H1, H2. cbn [res_bind]. rewrite H3, H4. cbn [res_bind].
    rewrite H5. reflexivity.
Qed.

Lemma snapshots_required_witness :
  denormalizer_main ex_load ex_dump
    (fun p => if String.eqb p (snapshot_path "libraries.json") then None else ex_fs p) =
    Raise (FileNotFoundError (snapshot_path "libraries.json")).
Proof.
  apply (proj2 (proj2 (snapshots_required ex_load ex_dump
    (fun p => if String.eqb p (snapshot_path "libraries.json") then None else ex_fs p)))
    "C" (PList [ex_company]) "T" (PList [ex_tool])); vm_compute; reflexivity.
Defined.

(** ** Files written by the fetcher *)

Lemma wo_ret {A} ps (a : A) : writes_only ps (mret a).
Proof. intros s p _; reflexivity. Qed.

Lemma wo_raise {A} ps e : writes_only ps (@mraise A e).
Proof. intros s p _; reflexivity. Qed.

Lemma wo_lift {A} ps (r : res A) : writes_only ps (mlift r).
Proof. intros s p _; reflexivity. Qed.

Lemma wo_sleep ps d : writes_only ps (time_sleep d).
Proof. intros s p _; reflexivity. Qed.

Lemma wo_http net ps url : writes_only ps (http_get net url).
Proof. intros s p _; reflexivity. Qed.

Lemma wo_bind {A B} ps (m : M A) (k : A -> M B) :
  writes_only ps m -> (forall a, writes_only ps (k a)) -> writes_only ps (mbind m k).
Proof.
  intros Hm Hk s p Hp. unfold mbind.
  specialize (Hm s p Hp). destruct (m s) as [[a|e] s1]; cbn [snd] in *.
  - rewrite (Hk a s1 p Hp); exact Hm.
  - exact Hm.
Qed.

Lemma wo_try {A} ps (m : M A) (h : exn -> M A) :
  writes_only ps m -> (forall e, writes_only ps (h e)) -> writes_only ps (try_except m h).
Proof.
  intros Hm Hh s p Hp. unfold try_except.
  specialize (Hm s p Hp). destruct (m s) as [[a|e] s1]; cbn [snd] in *.
  - exact Hm.
  - destruct (is_Exception e); cbn [snd]; [rewrite (Hh e s1 p Hp)|]; exact Hm.
Qed.

Lemma wo_incl {A} ps qs (m : M A) : incl ps qs -> writes_only ps m -> writes_only qs m.
Proof. intros Hi Hm s p Hp. apply Hm. intro H; exact (Hp (Hi p H)). Qed.

Lemma retry_loop_wo net ps url atts resp : writes_only ps (retry_loop net url atts resp).
Proof.
  revert resp. induction atts as [|a atts IH]; intros resp; cbn [retry_loop].
  - apply wo_ret.
  - apply wo_bind; [apply wo_http|]. intros [|st b].
    + destruct (Nat.ltb a (MAX_RETRIES - 1)); [|apply wo_raise].
      apply wo_bind; [apply wo_lift|]; intros d.
      apply wo_bind; [apply wo_sleep|]; intros _; apply IH.
    + destruct (st =? 200); [apply wo_ret|].
      destruct (retryable st); [|apply wo_raise].
      destruct (Nat.ltb a (MAX_RETRIES - 1)); [|apply wo_raise].
      apply wo_bind; [apply wo_lift|]; intros d.
      apply wo_bind; [apply wo_sleep|]; intros _; apply IH.
Qed.

Lemma page_loop_wo net ps fuel limit url rows : writes_only ps (page_loop net fuel limit url rows).
Proof.
  revert url rows. induction fuel as [|fuel IH]; intros url rows; cbn [page_loop].
  - apply wo_ret.
  - destruct (negb (truthy url)); [apply wo_ret|].
    apply wo_bind; [apply retry_loop_wo|]; intros resp.
    apply wo_bind; [apply wo_lift|]; intros data.
    apply wo_bind; [apply wo_lift|]; intros rv.
    destruct (negb (truthy rv)); [apply wo_ret|].
    apply wo_bind; [apply wo_lift|]; intros rs.
    destruct limit as [z|].
    + destruct (limit_reached (Some z) (rows ++ rs)); [apply wo_ret|].
      apply wo_bind; [apply wo_lift|]; intros nx; apply IH.
    + apply wo_bind; [apply wo_lift|]; intros nx; apply IH.
Qed.

Lemma export_wo dump out name rows :
  writes_only [output_path out name] (export_to_json dump out name rows).
Proof.
  intros s p Hp. cbn [export_to_json snd files]. unfold write_file.
  destruct (String.eqb_spec p (output_path out name)) as [->|_]; [|reflexivity].
  exfalso; apply Hp; left; reflexivity.
Qed.

Lemma process_table_wo net dump base size out fuel name id :
  writes_only [output_path out name] (process_table net dump base size out fuel name id).
Proof.
  unfold process_table. apply wo_try; [|intros e; apply wo_ret].
  apply wo_bind; [apply page_loop_wo|]. intros [rows|]; [|apply wo_ret].
  apply wo_bind; [apply export_wo|]; intros _; apply wo_ret.
Qed.

Lemma run_tables_wo net dump base size out fuel tables acc :
  writes_only (table_paths out tables) (run_tables net dump base size out fuel tables acc).
Proof.
  revert acc. induction tables as [|[name id] rest IH]; intros acc; cbn [run_tables].
  - apply wo_ret.
  - apply wo_bind.
    + apply (wo_incl [output_path out name]); [|apply process_table_wo].
      intros q [<-|[]]; left; reflexivity.
    + intros [st|]; [|apply wo_ret].
      apply (wo_incl (table_paths out rest)); [|apply IH].
      intros q Hq; right; exact Hq.
Qed.

(** X8. Whatever the remote API answers and wherever the run stops, the
    fetcher leaves every file except [<out>/companies.json],
    [<out>/tools.json] and [<out>/libraries.json] as it was. *)
Theorem fetcher_writes_only_table_files net dump token base size out fuel s p :
  ~ In p (table_paths out TABLES) ->
  files (snd (fetcher_main net dump token base size out fuel s)) p = files s p.
Proof.
  revert s p. unfold fetcher_main. apply wo_bind.
  - unfold validate_config. destruct (String.eqb token ""); [apply wo_raise|apply wo_ret].
  - intros _; apply run_tables_wo.
Qed.

Lemma fetcher_writes_only_table_files_witness :
  ~ In "data/other.json" (table_paths "data" TABLES) /\
  files (snd (fetcher_main ex_404_net ex_dump "tok" ex_base 100 "data" 5 ex_state))
    "data/other.json" = files ex_state "data/other.json".
Proof.
  split.
  - cbn. intros [H|[H|[H|[]]]]; discriminate H.
  - apply fetcher_writes_only_table_files. cbn. intros [H|[H|[H|[]]]]; discriminate H.
Defined.

(** ** The run summary of the fetcher *)

Lemma run_tables_names net dump base size out fuel tables acc s summary s' :
  run_tables net dump base size out fuel tables acc s = (Ok (Some summary), s') ->
  map fst summary = map fst acc ++ map fst tables.
Proof.
  revert acc s. induction tables as [|[name id] rest IH]; intros acc s H; cbn [run_tables] in H.
  - injection H as <- _. rewrite app_nil_r; reflexivity.
  - unfold mbind in H.
    destruct (process_table net dump base size out fuel name id s) as [[[st|]|e] s1];
      [|discriminate H|discriminate H].
    rewrite (IH _ _ H), map_app, <- app_assoc; reflexivity.
Qed.

(** X9. An empty token stops the fetcher with exit status 1 before any
    request, leaving the state untouched; with a token, a run that
    completes reports one summary entry per table, in the order
    companies, tools, libraries. *)
Theorem fetcher_summary net dump token base size out fuel s :
  (token = "" -> fetcher_main net dump token base size out fuel s = (Raise (SystemExit 1), s)) /\
  (forall summary s',
     fetcher_main net dump token base size out fuel s = (Ok (Some summary), s') ->
     map fst summary = ["companies"; "tools"; "libraries"]).
Proof.
  unfold fetcher_main, validate_config, mbind. split.
  - intros ->; reflexivity.
  - intros summary s' H. destruct (String.eqb token "") in H; [discriminate H|].
    exact (run_tables_names _ _ _ _ _ _ _ _ _ _ _ H).
Qed.

Lemma fetcher_summary_witness :
  fetcher_main ex_404_net ex_dump "" ex_base 100 "data" 5 ex_state
    = (Raise (SystemExit 1), ex_state) /\
  exists summary s',
    fetcher_main (fun _ _ => Reply 200 (Some (PDict []))) ex_dump "tok" ex_base 100 "data" 5
      ex_state = (Ok (Some summary), s') /\
    map fst summary = ["companies"; "tools"; "libraries"].
Proof.
  split.
  - apply (proj1 (fetcher_summary ex_404_net ex_dump "" ex_base 100 "data" 5 ex_state)); reflexivity.
  - do 2 eexists. split; [reflexivity|].
    eapply (proj2 (fetcher_summary (fun _ _ => Reply 200 (Some (PDict []))) ex_dump "tok"
                    ex_base 100 "data" 5 ex_state)).
    reflexivity.
Defined.

(** ** The first page of a table *)

Lemma initial_url_truthy base size id : truthy (initial_url base size id) = true.
Proof. unfold initial_url. destruct base; reflexivity. Qed.

(** The first request of a table, answered with status 200. *)
Lemma first_page_200 net base size fuel id limit s body :
  net (clock s) (initial_url base size id) = Reply 200 body ->
  fetch_table_with_pagination net base size (S fuel) id limit s =
  (data <-- mlift (response_json (Some (200, body))) ;;;
   rows_v <-- mlift (py_get data "results" (PList [])) ;;;
   if negb (truthy rows_v) then mret (Some []) else
   rows <-- mlift (py_iter rows_v) ;;;
   let all_rows := [] ++ rows in
   match limit with
   | Some z =>
       if limit_reached limit all_rows then mret (Some (py_slice_to all_rows z))
       else next <-- mlift (py_get data "next" PNone) ;;;
            page_loop net fuel limit next all_rows
   | None => next <-- mlift (py_get data "next" PNone) ;;; page_loop net fuel limit next all_rows
   end) {| clock := S (clock s); slept := slept s; files := files s |}.
Proof.
  intros Ho. unfold fetch_table_with_pagination. cbn [page_loop].
  rewrite initial_url_truthy. cbn [negb].
  unfold mbind at 1. cbn [seq MAX_RETRIES retry_loop].
  unfold mbind at 1, http_get. cbn [clock]. rewrite Ho. reflexivity.
Qed.

(** X10. When the first page of a table answers 200 with a body that is
    not JSON, or JSON that is not an object, the driver records the table
    as failed with [ValueError] or [AttributeError], after that single
    request, without writing any file. *)
Theorem bad_first_body_recorded net dump base size out fuel name id s body e :
  net (clock s) (initial_url base size id) = Reply 200 body ->
  (body = None /\ e = ValueError \/
   exists v, body = Some v /\ (forall kv, v <> PDict kv) /\ e = AttributeError) ->
  process_table net dump base size out (S fuel) name id s =
    (Ok (Some (Failed e)), {| clock := S (clock s); slept := slept s; files := files s |}).
Proof.
  intros Ho Hb. unfold process_table, try_except. unfold mbind at 1.
  rewrite (first_page_200 net base size fuel id None s body Ho).
  destruct Hb as [[-> ->]|[v [-> [Hv ->]]]].
  - reflexivity.
  - destruct v; try (exfalso; eapply Hv; reflexivity); reflexivity.
Qed.

Lemma bad_first_body_recorded_witness :
  process_table ex_nonjson_net ex_dump ex_base 100 "data" 1 "companies" 813469 ex_state =
    (Ok (Some (Failed ValueError)),
     {| clock := S (clock ex_state); slept := slept ex_state; files := files ex_state |}) /\
  process_table (fun _ _ => Reply 200 (Some (PList []))) ex_dump ex_base 100 "data" 1
    "companies" 813469 ex_state =
    (Ok (Some (Failed AttributeError)),
     {| clock := S (clock ex_state); slept := slept ex_state; files := files ex_state |}).
Proof.
  split.
  - apply (bad_first_body_recorded _ _ _ _ _ _ _ _ _ None); [reflexivity|left; split; reflexivity].
  - apply (bad_first_body_recorded _ _ _ _ _ _ _ _ _ (Some (PList []))); [reflexivity|right].
    exists (PList []). split; [reflexivity|split; [intros kv H; discriminate H|reflexivity]].
Defined.

(** X11. When the first page of a table answers 200 with an object whose
    [results] is missing or falsy ([null], [[]], ...), the table is
    exported as an empty list and recorded with 0 rows, after that single
    request; the [next] link is not followed. *)
Theorem empty_first_page_exported net dump base size out fuel name id s v rv :
  net (clock s) (initial_url base size id) = Reply 200 (Some v) ->
  py_get v "results" (PList []) = Ok rv -> truthy rv = false ->
  process_table net dump base size out (S fuel) name id s =
    (Ok (Some (Success 0)),
     {| clock := S (clock s); slept := slept s;
        files := write_file (files s) (output_path out name) (dump (PList [])) |}).
Proof.
  intros Ho Hg Hr. unfold process_table, try_except. unfold mbind at 1.
  rewrite (first_page_200 net base size fuel id None s (Some v) Ho).
  unfold mbind, mlift. cbn [response_json]. rewrite Hg, Hr. reflexivity.
Qed.

Lemma empty_first_page_exported_witness :
  process_table (fun _ _ => Reply 200 (Some (page_body [] (PStr ex_url1)))) ex_dump ex_base 100
    "data" 3 "tools" 813470 ex_state =
    (Ok (Some (Success 0)),
     {| clock := 1; slept := 0;
        files := write_file ex_fs (output_path "data" "tools") (ex_dump (PList [])) |}).
Proof.
  etransitivity.
  - apply (empty_first_page_exported
             (fun _ _ => Reply 200 (Some (page_body [] (PStr ex_url1)))) ex_dump ex_base 100
             "data" 2 "tools" 813470 ex_state (page_body [] (PStr ex_url1)) (PList []));
      reflexivity.
  - reflexivity.
Defined.

(** X12. With a negative [limit], a non-empty first page ends the loop at
    once: the table is the first page without its last [-limit] rows
    (empty if the page is shorter), as Python's [rows[:limit]] gives. *)
Theorem negative_limit_first_page net base size fuel id z s v rows :
  z < 0 ->
  net (clock s) (initial_url base size id) = Reply 200 (Some v) ->
  py_get v "results" (PList []) = Ok (PList rows) -> rows <> [] ->
  fetch_table_with_pagination net base size (S fuel) id (Some z) s =
    (Ok (Some (firstn (Z.to_nat (Z.of_nat (List.length rows) + z)) rows)),
     {| clock := S (clock s); slept := slept s; files := files s |}).
Proof.
  intros Hz Ho Hg Hne. rewrite (first_page_200 net base size fuel id (Some z) s (Some v) Ho).
  unfold mbind, mlift. cbn [response_json]. rewrite Hg.
  destruct rows as [|r rs]; [congruence|]. cbn [truthy negb py_iter app].
  unfold limit_reached, py_slice_to.
  destruct (Z.eqb_spec z 0) as [|_]; [lia|].
  destruct (Z.leb_spec z (Z.of_nat (List.length (r :: rs)))) as [_|]; [|lia].
  destruct (Z.leb_spec 0 z) as [|_]; [lia|]. reflexivity.
Qed.

Lemma negative_limit_first_page_witness :
  fetch_table_with_pagination
    (fun _ _ => Reply 200 (Some (page_body [PInt 1; PInt 2; PInt 3] PNone)))
    ex_base 100 4 813469 (Some (-1)) ex_state =
    (Ok (Some [PInt 1; PInt 2]), {| clock := 1; slept := 0; files := ex_fs |}).
Proof.
  etransitivity.
  - apply (negative_limit_first_page
             (fun _ _ => Reply 200 (Some (page_body [PInt 1; PInt 2; PInt 3] PNone)))
             ex_base 100 3 813469 (-1) ex_state (page_body [PInt 1; PInt 2; PInt 3] PNone)
             [PInt 1; PInt 2; PInt 3]);
      [lia|reflexivity|reflexivity|discriminate].
  - reflexivity.
Defined.

(** ** Tag colors of a web tool *)

(** X13. The [tag_colors] of a web tool is a dict with one string key per
    colored tag name, and maps each name to the color of its last colored
    occurrence in the tool's raw tag list. *)
Theorem web_tool_tag_colors companies_by_id tool wt ts :
  web_tool companies_by_id tool = Ok wt ->
  py_get tool "Tool Tags" (PList []) = Ok (PList ts) ->
  Forall (fun t => exists m, subscript t "value" = Ok (PStr m)) ts ->
  exists tc, py_get wt "tag_colors" (PDict []) = Ok (PDict tc) /\
    NoDup (map fst tc) /\ str_keys tc /\
    forall n, dict_lookup tc (KStr n) = tool_tag_color ts n.
Proof.
  intros Hw Hg Hv.
  destruct (web_tool_tags _ _ _ Hw) as [tt [ts' [tags [tc [Htt [Hts [Hl Hc]]]]]]].
  rewrite Hg in Htt. injection Htt as <-. cbn [py_iter] in Hts. injection Hts as <-.
  assert (Hnil : tag_dict_ok []) by (split; constructor).
  destruct (tag_loop_spec ts Hv [] [] tags tc Hl Hnil) as [[Hk Hn] Hlk].
  exists tc. split; [exact Hc|]. split; [exact Hn|]. split; [exact Hk|].
  intros n. rewrite Hlk. destruct (tool_tag_color ts n); reflexivity.
Qed.

Lemma web_tool_tag_colors_witness :
  exists tc, py_get (hd PNone ex_web_tools) "tag_colors" (PDict []) = Ok (PDict tc) /\
    NoDup (map fst tc) /\ str_keys tc /\
    forall n, dict_lookup tc (KStr n) =
              tool_tag_color [dict [("value", PStr "ml"); ("color", PStr "blue")];
                              dict [("value", PStr "ml"); ("color", PStr "red")]] n.
Proof.
  apply (web_tool_tag_colors [] ex_tool_dup_colors).
  - vm_compute. reflexivity.
  - reflexivity.
  - repeat constructor; eexists; reflexivity.
Defined.

(** ** Files written by the Denormalizer *)

(** X14. A successful run of the Denormalizer writes each of its six
    output files and leaves every other file, the snapshots among them,
    as it was. *)
Theorem denormalizer_writes_outputs json_load json_dump fs fs' :
  denormalizer_main json_load json_dump fs = Ok fs' ->
  (forall p, ~ In p output_files -> fs' p = fs p) /\
  (forall p, In p output_files -> exists c, fs' p = Some c).
Proof.
  unfold denormalizer_main. intros H.
  destruct (load_snapshots json_load fs) as [[[c t] l]|x]; cbn [res_bind] in H; [|discriminate H].
  destruct (process c t) as [a|x]; cbn [res_bind] in H; [|discriminate H].
  injection H as <-. split.
  - intros p Hp. exact (write_outputs_other json_dump fs a p Hp).
  - intros p Hp. unfold output_files in Hp. cbn [map In] in Hp.
    destruct Hp as [<-|[<-|[<-|[<-|[<-|[<-|[]]]]]]]; eexists; reflexivity.
Qed.

Lemma denormalizer_writes_outputs_witness :
  (forall p, ~ In p output_files ->
     match denormalizer_main ex_load ex_dump ex_fs with Ok f => f | Raise _ => ex_fs end p = ex_fs p) /\
  (forall p, In p output_files -> exists c,
     match denormalizer_main ex_load ex_dump ex_fs with Ok f => f | Raise _ => ex_fs end p = Some c).
Proof.
  apply (denormalizer_writes_outputs ex_load ex_dump ex_fs). vm_compute. reflexivity.
Defined.

(** ** Counts in the search index *)

Lemma Forall2_in_impl {A B} (R S : A -> B -> Prop) l1 l2 :
  Forall2 R l1 l2 -> (forall x y, In x l1 -> R x y -> S x y) -> Forall2 S l1 l2.
Proof.
  induction 1 as [|x y l1 l2 Hxy _ IH]; intros HS; constructor.
  - apply HS; [left; reflexivity|exact Hxy].
  - apply IH. intros a b Ha Hab. apply HS; [right; exact Ha|exact Hab].
Qed.

Lemma web_company_count tools_by_id c wc :
  web_company tools_by_id c = Ok wc ->
  exists l, subscript wc "tools" = Ok (PList l) /\
            subscript wc "tool_count" = Ok (PInt (Z.of_nat (List.length l))).
Proof.
  unfold web_company. intros H.
  destruct (py_get c "Tools" (PList [])) as [trefs|x]; cbn [res_bind] in H; [|discriminate H].
  destruct (py_iter trefs) as [refs|x]; cbn [res_bind] in H; [|discriminate H].
  destruct (resolve_refs company_tool_summary tools_by_id refs) as [l|x];
    cbn [res_bind] in H; [|discriminate H].
  destruct (subscript c "UUID") as [u|x]; cbn [res_bind] in H; [|discriminate H].
  destruct (subscript c "Company Name") as [n|x]; cbn [res_bind] in H; [|discriminate H].
  destruct (py_get c "URL" (PStr "")) as [r|x]; cbn [res_bind] in H; [|discriminate H].
  destruct (py_get c "Notes" (PStr "")) as [o|x]; cbn [res_bind] in H; [|discriminate H].
  injection H as <-. exists l. split; reflexivity.
Qed.

Lemma web_tool_companies_list companies_by_id t wt :
  web_tool companies_by_id t = Ok wt -> exists l, subscript wt "companies" = Ok (PList l).
Proof.
  unfold web_tool. intros H.
  destruct (py_get t "ToolCompany" (PList [])) as [crefs|x]; cbn [res_bind] in H; [|discriminate H].
  destruct (py_iter crefs) as [refs|x]; cbn [res_bind] in H; [|discriminate H].
  destruct (resolve_refs tool_company_summary companies_by_id refs) as [l|x];
    cbn [res_bind] in H; [|discriminate H].
  destruct (py_get t "Tool Tags" (PList [])) as [tt|x]; cbn [res_bind] in H; [|discriminate H].
  destruct (py_iter tt) as [ts|x]; cbn [res_bind] in H; [|discriminate H].
  destruct (tag_loop ts [] []) as [[tags tc]|x]; cbn [res_bind] in H; [|discriminate H].
  destruct (subscript t "UUID") as [u|x]; cbn [res_bind] in H; [|discriminate H].
  destruct (subscript t "ToolName") as [n|x]; cbn [res_bind] in H; [|discriminate H].
  destruct (py_get t "Tool Description Short" (PStr "")) as [a|x]; cbn [res_bind] in H; [|discriminate H].
  destruct (py_get t "ToolDescription_long" (PStr "")) as [b|x]; cbn [res_bind] in H; [|discriminate H].
  destruct (py_get t "Overall Rating" (PStr "0")) as [c|x]; cbn [res_bind] in H; [|discriminate H].
  destruct (py_get t "Annual License Cost" PNone) as [d|x]; cbn [res_bind] in H; [|discriminate H].
  destruct (py_get t "URL" (PStr "")) as [f|x]; cbn [res_bind] in H; [|discriminate H].
  destruct (py_get t "Last modified" (PStr "")) as [g|x]; cbn [res_bind] in H; [|discriminate H].
  injection H as <-. exists l. reflexivity.
Qed.

Lemma company_index_entry_count c e :
  company_index_entry c = Ok e -> subscript e "tool_count" = subscript c "tool_count".
Proof.
  unfold company_index_entry. intros H.
  destruct (subscript c "id") as [a|x]; cbn [res_bind] in H; [|discriminate H].
  destruct (subscript c "name") as [b|x]; cbn [res_bind] in H; [|discriminate H].
  destruct (subscript c "url") as [u|x]; cbn [res_bind] in H; [|discriminate H].
  destruct (py_lower b) as [st|x]; cbn [res_bind] in H; [|discriminate H].
  destruct (subscript c "tool_count") as [tc|x]; cbn [res_bind] in H; [|discriminate H].
  injection H as <-. reflexivity.
Qed.

Lemma tool_index_entry_count t e l :
  tool_index_entry t = Ok e -> subscript t "companies" = Ok (PList l) ->
  subscript e "company_count" = Ok (PInt (Z.of_nat (List.length l))).
Proof.
  unfold tool_index_entry. intros H Hc.
  destruct (subscript t "tags") as [a|x]; cbn [res_bind] in H; [|discriminate H].
  destruct (py_join_space a) as [b|x]; cbn [res_bind] in H; [|discriminate H].
  rewrite Hc in H. cbn [res_bind py_iter] in H.
  destruct (map_res (fun c => subscript c "name") l) as [f|x]; cbn [res_bind] in H; [|discriminate H].
  destruct (py_join_space (PList f)) as [g|x]; cbn [res_bind] in H; [|discriminate H].
  destruct (subscript t "id") as [i|x]; cbn [res_bind] in H; [|discriminate H].
  destruct (subscript t "name") as [n|x]; cbn [res_bind] in H; [|discriminate H].
  destruct (subscript t "url") as [u|x]; cbn [res_bind] in H; [|discriminate H].
  cbn [py_len res_bind] in H. injection H as <-. reflexivity.
Qed.

(** X15. In a successful run, the search index lists one entry per web
    company, then one per web tool, in the same order; each company entry's
    [tool_count] is the number of tools listed with that company, and each
    tool entry's [company_count] the number of companies listed with that
    tool. *)
Theorem search_index_counts cs ts a :
  process (PList cs) (PList ts) = Ok a ->
  exists wcs wts ce te,
    a_companies a = PList wcs /\ a_tools a = PList wts /\ a_search_index a = PList (ce ++ te) /\
    Forall2 (fun wc e => exists l, subscript wc "tools" = Ok (PList l) /\
               subscript wc "tool_count" = Ok (PInt (Z.of_nat (List.length l))) /\
               subscript e "tool_count" = Ok (PInt (Z.of_nat (List.length l)))) wcs ce /\
    Forall2 (fun wt e => exists l, subscript wt "companies" = Ok (PList l) /\
               subscript e "company_count" = Ok (PInt (Z.of_nat (List.length l)))) wts te.
Proof.
  unfold process. intros H.
  destruct (index_by_id (PList ts)) as [tbi|x]; cbn [res_bind] in H; [|discriminate H].
  destruct (index_by_id (PList cs)) as [cbi|x]; cbn [res_bind] in H; [|discriminate H].
  destruct (create_web_companies (PList cs) tbi) as [wc|x] eqn:Ec; cbn [res_bind] in H; [|discriminate H].
  destruct (create_web_tools (PList ts) cbi) as [wt|x] eqn:Et; cbn [res_bind] in H; [|discriminate H].
  destruct (create_search_index wc wt) as [si|x] eqn:Es; cbn [res_bind] in H; [|discriminate H].
  destruct (extract_all_tags wt) as [tg|x]; cbn [res_bind] in H; [|discriminate H].
  destruct (calculate_stats wc wt) as [st|x]; cbn [res_bind] in H; [|discriminate H].
  injection H as <-. cbn [a_companies a_tools a_search_index].
  unfold create_web_companies in Ec. cbn [py_iter res_bind] in Ec.
  destruct (map_res (web_company tbi) cs) as [wcs|x] eqn:Ewc; cbn [res_bind] in Ec; [|discriminate Ec].
  injection Ec as <-.
  unfold create_web_tools in Et. cbn [py_iter res_bind] in Et.
  destruct (map_res (web_tool cbi) ts) as [wts|x] eqn:Ewt; cbn [res_bind] in Et; [|discriminate Et].
  injection Et as <-.
  unfold create_search_index in Es. cbn [py_iter res_bind] in Es.
  destruct (map_res company_index_entry wcs) as [ce|x] eqn:Ece; cbn [res_bind] in Es; [|discriminate Es].
  destruct (map_res tool_index_entry wts) as [te|x] eqn:Ete; cbn [res_bind] in Es; [|discriminate Es].
  injection Es as <-.
  exists wcs, wts, ce, te. do 3 (split; [reflexivity|]). split.
  - apply (Forall2_in_impl _ _ _ _ (map_res_inv _ _ _ Ece)). intros w e Hw He.
    destruct (map_res_out _ _ _ Ewc w Hw) as [c [_ Hc]].
    destruct (web_company_count _ _ _ Hc) as [l [Hl Hn]].
    exists l. split; [exact Hl|]. split; [exact Hn|].
    rewrite (company_index_entry_count _ _ He). exact Hn.
  - apply (Forall2_in_impl _ _ _ _ (map_res_inv _ _ _ Ete)). intros w e Hw He.
    destruct (map_res_out _ _ _ Ewt w Hw) as [t [_ Ht]].
    destruct (web_tool_companies_list _ _ _ Ht) as [l Hl].
    exists l. split; [exact Hl|]. exact (tool_index_entry_count _ _ _ He Hl).
Qed.

Lemma search_index_counts_witness :
  exists wcs wts ce te,
    a_companies ex_artifacts = PList wcs /\ a_tools ex_artifacts = PList wts /\
    a_search_index ex_artifacts = PList (ce ++ te) /\
    Forall2 (fun wc e => exists l, subscript wc "tools" = Ok (PList l) /\
               subscript wc "tool_count" = Ok (PInt (Z.of_nat (List.length l))) /\
               subscript e "tool_count" = Ok (PInt (Z.of_nat (List.length l)))) wcs ce /\
    Forall2 (fun wt e => exists l, subscript wt "companies" = Ok (PList l) /\
               subscript e "company_count" = Ok (PInt (Z.of_nat (List.length l)))) wts te.
Proof.
  apply (search_index_counts [ex_company] [ex_tool]). vm_compute. reflexivity.
Defined.
